(** * BBQ cooking engine: a shallow embedding of [dist/services/cooking.js]

    The engine's functions are translated one by one from the JavaScript
    source.  Conventions of the embedding:

    - A JavaScript [number] is a value of [number] below: an exact rational
      or one of the IEEE specials [Infinity], [-Infinity], [NaN].  The
      specials are kept because the engine divides by quantities that can
      vanish ([targetTemp - 40]); binary64 rounding error and overflow of
      finite results are abstracted away, and [-0] is identified with [0]
      (the only divisor of the engine that can be zero is a difference
      [x - 40], which is never [-0]).  Arithmetic returns fractions in lowest
      terms, so that equal results are equal terms; the literals [0.5] and
      [1.5] are written [1 # 2] and [3 # 2] for the same reason.
    - A [Date] is its time value, a [number] of milliseconds ([NaN] for an
      invalid date).  [new Date()] reads the wall clock; the reading is an
      explicit argument [now] of every function that performs it.  Local time
      is taken to be UTC.
    - Reading a property of [undefined] throws a [TypeError]; functions that
      can throw live in the error monad [result].
    - Template literals are kept as lists of pieces, with numeric holes left
      unrendered. *)

From Stdlib Require Import ZArith QArith Qround Qabs Lqa Lia.
From Stdlib Require Import List String Bool.
From Stdlib Require Import PrimFloat Uint63.
Import ListNotations.

Open Scope string_scope.
Open Scope Q_scope.

(** ** JavaScript numbers *)

Module JS.

Inductive number : Type :=
| Fin (q : Q)
| PInf
| NInf
| NaN.

Definition Qltb (a b : Q) : bool :=
  match a ?= b with Lt => true | _ => false end.

Definition ofZ (z : Z) : number := Fin (inject_Z z).

(** ToBoolean on a number: [0] and [NaN] are falsy. *)
Definition truthy (x : number) : bool :=
  match x with
  | Fin q => negb (Qeq_bool q 0)
  | PInf | NInf => true
  | NaN => false
  end.

Definition neg (x : number) : number :=
  match x with
  | Fin q => Fin (- q)
  | PInf => NInf
  | NInf => PInf
  | NaN => NaN
  end.

Definition add (x y : number) : number :=
  match x, y with
  | NaN, _ | _, NaN => NaN
  | Fin a, Fin b => Fin (Qred (a + b))
  | PInf, NInf | NInf, PInf => NaN
  | PInf, _ | _, PInf => PInf
  | NInf, _ | _, NInf => NInf
  end.

Definition sub (x y : number) : number := add x (neg y).

(** Sign-directed infinity: the product or quotient of an infinity by a
    finite factor [q]. *)
Definition inf_signed (positive : bool) (q : Q) : number :=
  if Qeq_bool q 0 then NaN
  else if Bool.eqb positive (Qltb 0 q) then PInf else NInf.

Definition mul (x y : number) : number :=
  match x, y with
  | NaN, _ | _, NaN => NaN
  | Fin a, Fin b => Fin (Qred (a * b))
  | PInf, Fin q | Fin q, PInf => inf_signed true q
  | NInf, Fin q | Fin q, NInf => inf_signed false q
  | PInf, PInf | NInf, NInf => PInf
  | PInf, NInf | NInf, PInf => NInf
  end.

Definition div (x y : number) : number :=
  match x, y with
  | NaN, _ | _, NaN => NaN
  | Fin a, Fin b =>
      if Qeq_bool b 0 then inf_signed true a else Fin (Qred (a / b))
  | Fin _, PInf | Fin _, NInf => Fin 0
  | PInf, Fin q => if Qltb q 0 then NInf else PInf
  | NInf, Fin q => if Qltb q 0 then PInf else NInf
  | PInf, PInf | PInf, NInf | NInf, PInf | NInf, NInf => NaN
  end.

(** Truncation toward zero of a rational. *)
Definition Qtrunc (q : Q) : Z :=
  if Qltb q 0 then Qceiling q else Qfloor q.

(** The [%] operator: remainder with the sign of the dividend. *)
Definition rem (x y : number) : number :=
  match x, y with
  | NaN, _ | _, NaN => NaN
  | PInf, _ | NInf, _ => NaN
  | Fin a, PInf | Fin a, NInf => Fin a
  | Fin a, Fin b =>
      if Qeq_bool b 0 then NaN
      else Fin (Qred (a - b * inject_Z (Qtrunc (a / b))))
  end.

Definition ltb (x y : number) : bool :=
  match x, y with
  | NaN, _ | _, NaN => false
  | Fin a, Fin b => Qltb a b
  | NInf, NInf | PInf, _ => false
  | NInf, _ | _, PInf => true
  | _, NInf => false
  end.

Definition leb (x y : number) : bool :=
  match x, y with
  | NaN, _ | _, NaN => false
  | Fin a, Fin b => Qle_bool a b
  | NInf, _ | _, PInf => true
  | PInf, _ | _, NInf => false
  end.

Definition gtb (x y : number) : bool := ltb y x.
Definition geb (x y : number) : bool := leb y x.

(** Strict equality [===] on numbers. *)
Definition eqb (x y : number) : bool :=
  match x, y with
  | Fin a, Fin b => Qeq_bool a b
  | PInf, PInf | NInf, NInf => true
  | _, _ => false
  end.

Definition is_nan (x : number) : bool :=
  match x with NaN => true | _ => false end.

(** [Math.max] and [Math.min] of two arguments: [NaN] is contagious. *)
Definition max (x y : number) : number :=
  if is_nan x || is_nan y then NaN else if ltb x y then y else x.

Definition min (x y : number) : number :=
  if is_nan x || is_nan y then NaN else if ltb y x then y else x.

Definition abs (x : number) : number :=
  match x with
  | Fin q => Fin (Qabs q)
  | PInf | NInf => PInf
  | NaN => NaN
  end.

Definition floor (x : number) : number :=
  match x with
  | Fin q => ofZ (Qfloor q)
  | _ => x
  end.

(** [Math.round]: nearest integer, ties toward [+Infinity]. *)
Definition round (x : number) : number :=
  match x with
  | Fin q => ofZ (Qfloor (q + (1 # 2)))
  | _ => x
  end.

End JS.

Declare Scope js_scope.
Delimit Scope js_scope with js.
Bind Scope js_scope with JS.number.
Notation "x + y" := (JS.add x y) : js_scope.
Notation "x - y" := (JS.sub x y) : js_scope.
Notation "x * y" := (JS.mul x y) : js_scope.
Notation "x / y" := (JS.div x y) : js_scope.
Notation "x <? y" := (JS.ltb x y) : js_scope.
Notation "x <=? y" := (JS.leb x y) : js_scope.
Notation "x >? y" := (JS.gtb x y) (at level 70) : js_scope.
Notation "x >=? y" := (JS.geb x y) (at level 70) : js_scope.
Notation "x === y" := (JS.eqb x y) (at level 70) : js_scope.
Coercion JS.Fin : Q >-> JS.number.


(** ** Strings, template literals and thrown errors *)

(** [String.prototype.includes]. *)
Fixpoint includes (s sub : string) : bool :=
  String.prefix sub s ||
  match s with
  | EmptyString => false
  | String _ rest => includes rest sub
  end.

(** A template literal is kept as its pieces: literal text, an interpolated
    string, or an interpolated number whose decimal rendering is left to the
    presentation layer. *)
Inductive piece : Type :=
| Lit (s : string)
| Num (n : JS.number).

Definition text : Type := list piece.

(** Errors a call can end with.  [TypeError] is what the runtime throws when
    a property of [undefined] is read; it carries the property's name.
    [UnknownProtein] is the error the interface description names; no
    function of the engine raises it. *)
Inductive exn : Type :=
| TypeError (property : string)
| UnknownProtein (id : string).

Inductive result (A : Type) : Type :=
| Ok (a : A)
| Throw (e : exn).

Arguments Ok {A} a.
Arguments Throw {A} e.

Definition bind {A B : Type} (m : result A) (k : A -> result B) : result B :=
  match m with
  | Ok a => k a
  | Throw e => Throw e
  end.

Notation "x <- m ;; k" := (bind m (fun x => k))
  (at level 61, m at next level, right associativity).

(** [o.property] where [o] may be [undefined]: the object itself when there is
    one, the runtime's [TypeError] otherwise. *)
Definition deref {A : Type} (o : option A) (property : string) : result A :=
  match o with
  | Some a => Ok a
  | None => Throw (TypeError property)
  end.

(** A field of the returned object, when the call returns. *)
Definition field {A B : Type} (f : A -> B) (m : result A) : result B :=
  match m with
  | Ok a => Ok (f a)
  | Throw e => Throw e
  end.

(** ** Dates *)

Module Date.

(** A date is its time value in milliseconds since the epoch. *)
Definition t : Type := JS.number.

Definition msPerMinute : Z := 60000.

Definition getTime (d : t) : JS.number := d.

Definition MinFromTime (ms : Q) : Z :=
  (Qfloor (ms / inject_Z msPerMinute) mod 60)%Z.

Definition getMinutes (d : t) : JS.number :=
  match d with
  | JS.Fin ms => JS.ofZ (MinFromTime ms)
  | _ => JS.NaN
  end.

Definition TimeClip (ms : Q) : t :=
  if JS.Qltb (inject_Z 8640000000000000) (Qabs ms) then JS.NaN else JS.Fin ms.

(** [d.setMinutes(m)]: the minute field is replaced by the integer part of
    [m]; the other fields are kept. *)
Definition setMinutes (d : t) (m : JS.number) : t :=
  match d, m with
  | JS.Fin ms, JS.Fin mq =>
      TimeClip (ms - inject_Z (MinFromTime ms * msPerMinute)
                + inject_Z (JS.Qtrunc mq * msPerMinute))
  | _, _ => JS.NaN
  end.

End Date.

(** ** Data model ([types.d.ts]) *)

Inductive TemperatureUnit : Type := fahrenheit | celsius.

Inductive Category : Type := beef | pork | poultry | lamb | seafood.

Inductive CookMethod : Type :=
| smoke_low_slow | smoke_hot_fast | grill_direct | grill_indirect
| reverse_sear | spatchcock | rotisserie.

Inductive DonenessLevel : Type :=
| rare | medium_rare | medium_ | medium_well | well_done | pullable | usda_safe.

Inductive Confidence : Type := high | medium | low.

Inductive Trend : Type := rising | falling | stable | stalled.

(** The string each [CookMethod] value is at run time. *)
Definition CookMethod_name (m : CookMethod) : string :=
  match m with
  | smoke_low_slow => "smoke_low_slow"
  | smoke_hot_fast => "smoke_hot_fast"
  | grill_direct => "grill_direct"
  | grill_indirect => "grill_indirect"
  | reverse_sear => "reverse_sear"
  | spatchcock => "spatchcock"
  | rotisserie => "rotisserie"
  end.

Definition TemperatureUnit_eqb (a b : TemperatureUnit) : bool :=
  match a, b with
  | fahrenheit, fahrenheit | celsius, celsius => true
  | _, _ => false
  end.

Definition DonenessLevel_eqb (a b : DonenessLevel) : bool :=
  match a, b with
  | rare, rare | medium_rare, medium_rare | medium_, medium_
  | medium_well, medium_well | well_done, well_done
  | pullable, pullable | usda_safe, usda_safe => true
  | _, _ => false
  end.

Record StallRange : Type := {
  start : JS.number;
  end_ : JS.number
}.

(** [donenessTemps] is an object used as an ordered map: its keys in
    insertion order, as [Object.keys] lists them. *)
Record ProteinProfile : Type := {
  type_ : string;
  displayName : string;
  category : Category;
  usdaSafeTemp : JS.number;
  requiresRest : bool;
  restTimeMinutes : JS.number;
  carryoverDegrees : JS.number;
  donenessTemps : list (DonenessLevel * JS.number);
  recommendedMethods : list CookMethod;
  stallRange : option StallRange;
  estimatedTimePerPound : CookMethod -> JS.number;
  tips : list string
}.

Record MethodInfo : Type := {
  methodDisplayName : string;
  tempRange : string;
  description : string
}.

Record TemperatureReading : Type := {
  temp : JS.number;
  timestamp : Date.t
}.

Module Target.
Record t : Type := {
  targetTemp : JS.number;
  pullTemp : JS.number;
  doneness : option DonenessLevel
}.
End Target.

Module CookTimeEstimate.
Record t : Type := {
  totalMinutes : JS.number;
  hoursAndMinutes : text;
  estimatedDoneTime : Date.t;
  confidence : Confidence;
  assumptions : list text;
  warnings : list text
}.
End CookTimeEstimate.

Module StartTime.
Record t : Type := {
  startTime : Date.t;
  cookTime : CookTimeEstimate.t;
  restTime : JS.number;
  bufferMinutes : JS.number
}.
End StartTime.

Module TemperatureAnalysis.
Record t : Type := {
  currentTemp : JS.number;
  targetTemp : JS.number;
  tempDelta : JS.number;
  percentComplete : JS.number;
  trend : Trend;
  trendRatePerHour : JS.number;
  estimatedMinutesRemaining : option JS.number;
  inStallZone : bool;
  recommendations : list text
}.
End TemperatureAnalysis.

Module StallResult.
Record t : Type := {
  isStalled : bool;
  stallDurationMinutes : JS.number;
  inStallZone : bool;
  recommendation : text
}.
End StallResult.

Module RestResult.
Record t : Type := {
  recommendedRestMinutes : JS.number;
  expectedCarryover : JS.number;
  expectedFinalTemp : JS.number;
  instructions : list text
}.
End RestResult.

(** [constants.d.ts] *)
Definition DEFAULT_SMOKER_TEMP : JS.number := 225.
Definition HOT_FAST_TEMP : JS.number := 300.

(** Lookup of a key in an object kept as an ordered list of properties. *)
Fixpoint lookup (d : DonenessLevel) (o : list (DonenessLevel * JS.number))
  : option JS.number :=
  match o with
  | [] => None
  | (k, v) :: rest => if DonenessLevel_eqb d k then Some v else lookup d rest
  end.

(** [a.slice(-n)]: the last [n] elements. *)
Definition slice_last {A : Type} (n : nat) (a : list A) : list A :=
  skipn (List.length a - n) a.

(** [a[a.length - 1]]. *)
Definition last_elem {A : Type} (a : list A) : option A :=
  nth_error a (List.length a - 1).

Definition Object_keys (o : list (DonenessLevel * JS.number))
  : list DonenessLevel := map fst o.

Definition Category_eqb (a b : Category) : bool :=
  match a, b with
  | beef, beef | pork, pork | poultry, poultry | lamb, lamb
  | seafood, seafood => true
  | _, _ => false
  end.

Definition Trend_eqb (a b : Trend) : bool :=
  match a, b with
  | rising, rising | falling, falling | stable, stable | stalled, stalled =>
      true
  | _, _ => false
  end.

(** [range.start <= t && t <= range.end], written in the source as
    [t >= range.start && t <= range.end]. *)
Definition within (range : StallRange) (t : JS.number) : bool :=
  (t >=? start range)%js && (t <=? end_ range)%js.

(** [profile.stallRange && t >= profile.stallRange.start && ...] *)
Definition inStallRange (profile : ProteinProfile) (t : JS.number) : bool :=
  match stallRange profile with
  | Some range => within range t
  | None => false
  end.

(** ** The engine ([services/cooking.js]) *)

(** [convertTemperature] *)
Definition convertTemperature (temp : JS.number)
    (fromUnit toUnit : TemperatureUnit) : JS.number :=
  if TemperatureUnit_eqb fromUnit toUnit then temp
  else
    match fromUnit, toUnit with
    | fahrenheit, celsius =>
        (JS.round ((temp - 32) * 5 / 9 * 10) / 10)%js
    | _, _ => JS.round (temp * 9 / 5 + 32)%js
    end.

Section Engine.

(** The knowledge base of [constants.js], which the engine only reads.
    [PROTEIN_PROFILES id] is [None] when the lookup [PROTEIN_PROFILES[id]]
    evaluates to [undefined]. *)
Variable PROTEIN_PROFILES : string -> option ProteinProfile.
Variable COOK_METHOD_INFO : CookMethod -> MethodInfo.

Definition getProteinProfile (proteinType : string) : option ProteinProfile :=
  PROTEIN_PROFILES proteinType.

Definition getTargetTemperature (proteinType : string)
    (doneness : option DonenessLevel) : result Target.t :=
  let profile := getProteinProfile proteinType in
  actualDoneness <-
    match doneness with
    | Some d =>
        p <- deref profile "donenessTemps" ;;
        match lookup d (donenessTemps p) with
        | Some _ => Ok (Some d)
        | None => Ok (nth_error (Object_keys (donenessTemps p)) 0)
        end
    | None =>
        p <- deref profile "donenessTemps" ;;
        Ok (nth_error (Object_keys (donenessTemps p)) 0)
    end ;;
  p <- deref profile "donenessTemps" ;;
  let targetTemp :=
    match actualDoneness with
    | Some d =>
        match lookup d (donenessTemps p) with
        | Some v => v
        | None => usdaSafeTemp p
        end
    | None => usdaSafeTemp p
    end in
  let pullTemp := (targetTemp - carryoverDegrees p)%js in
  Ok {| Target.targetTemp := targetTemp;
        Target.pullTemp := pullTemp;
        Target.doneness := actualDoneness |}.

(** The baseline smoker temperature of a method. *)
Definition baseTemp (cookMethod : CookMethod) : JS.number :=
  if includes (CookMethod_name cookMethod) "hot_fast"
  then HOT_FAST_TEMP else DEFAULT_SMOKER_TEMP.

(** The multiplier applied to the base time: [1.0] unless [smokerTemp] is
    truthy. *)
Definition tempAdjustment (cookMethod : CookMethod)
    (smokerTemp : option JS.number) : JS.number :=
  match smokerTemp with
  | Some s =>
      if JS.truthy s then
        let tempDiff := (s - baseTemp cookMethod)%js in
        let adj := (1 - tempDiff / 250)%js in
        JS.max (1 # 2) (JS.min (3 # 2) adj)
      else 1
  | None => 1
  end.

Definition estimateCookTime (now : Z) (proteinType : string)
    (weightPounds : JS.number) (cookMethod : CookMethod)
    (smokerTemp : option JS.number) : result CookTimeEstimate.t :=
  let profile := getProteinProfile proteinType in
  let methodInfo := COOK_METHOD_INFO cookMethod in
  p <- deref profile "estimatedTimePerPound" ;;
  let baseTimePerPound := estimatedTimePerPound p cookMethod in
  if (baseTimePerPound === 0)%js then
    Ok {| CookTimeEstimate.totalMinutes := 0;
          CookTimeEstimate.hoursAndMinutes := [Lit "Not recommended"];
          CookTimeEstimate.estimatedDoneTime := JS.ofZ now;
          CookTimeEstimate.confidence := low;
          CookTimeEstimate.assumptions := [];
          CookTimeEstimate.warnings :=
            [[Lit (methodDisplayName methodInfo);
              Lit " is not recommended for ";
              Lit (displayName p)]] |}
  else
    let adj := tempAdjustment cookMethod smokerTemp in
    let totalMinutes := (baseTimePerPound * weightPounds * adj)%js in
    let stalls :=
      match stallRange p with Some _ => true | None => false end in
    let totalMinutes :=
      if stalls then (totalMinutes + 60)%js else totalMinutes in
    let assumptions : list text :=
      ((if stalls
       then [[Lit "Includes ~1 hour buffer for the stall (150-175°F range)"];
             [Lit "Wrapping can reduce stall time by 30-50%"]]
       else [])
      ++
      (if requiresRest p && (restTimeMinutes p >? 0)%js
       then [[Lit "Add "; Num (restTimeMinutes p);
              Lit " minutes rest time before serving"]]
       else []))%list in
    let estimatedDoneTime :=
      Date.setMinutes (JS.ofZ now)
        (Date.getMinutes (JS.ofZ now) + totalMinutes)%js in
    let confidence :=
      if stalls then low
      else if (baseTimePerPound >? 50)%js then medium
      else high in
    let warnings :=
      if stalls
      then [[Lit "Large cuts with stalls are unpredictable - plan for variability"]]
      else [] in
    let hours := JS.floor (totalMinutes / 60)%js in
    let minutes := JS.round (JS.rem totalMinutes 60) in
    let hoursAndMinutes :=
      if (hours >? 0)%js
      then [Num hours; Lit " hour";
            Lit (if (hours >? 1)%js then "s" else EmptyString);
            Lit " "; Num minutes; Lit " minutes"]
      else [Num minutes; Lit " minutes"] in
    Ok {| CookTimeEstimate.totalMinutes := JS.round totalMinutes;
          CookTimeEstimate.hoursAndMinutes := hoursAndMinutes;
          CookTimeEstimate.estimatedDoneTime := estimatedDoneTime;
          CookTimeEstimate.confidence := confidence;
          CookTimeEstimate.assumptions := assumptions;
          CookTimeEstimate.warnings := warnings |}.

Definition calculateStartTime (now : Z) (proteinType : string)
    (weightPounds : JS.number) (cookMethod : CookMethod)
    (targetServingTime : Date.t) (smokerTemp : option JS.number)
  : result StartTime.t :=
  let profile := getProteinProfile proteinType in
  cookTime <-
    estimateCookTime now proteinType weightPounds cookMethod smokerTemp ;;
  p <- deref profile "restTimeMinutes" ;;
  let restTime := restTimeMinutes p in
  let bufferMinutes : JS.number :=
    match CookTimeEstimate.confidence cookTime with
    | low => 120
    | medium => 60
    | high => 30
    end in
  let totalMinutesNeeded :=
    (CookTimeEstimate.totalMinutes cookTime + restTime + bufferMinutes)%js in
  let startTime :=
    Date.setMinutes targetServingTime
      (Date.getMinutes targetServingTime - totalMinutesNeeded)%js in
  Ok {| StartTime.startTime := startTime;
        StartTime.cookTime := cookTime;
        StartTime.restTime := restTime;
        StartTime.bufferMinutes := bufferMinutes |}.

(** The trend and hourly rate [analyzeTemperature] derives from the previous
    readings.  [profile] is only read on the path that needs the stall
    range. *)
Definition trendOf (profile : option ProteinProfile) (currentTemp : JS.number)
    (previousReadings : option (list TemperatureReading))
  : result (Trend * JS.number) :=
  match previousReadings with
  | Some readings =>
      if (2 <=? List.length readings)%nat then
        let recentReadings := slice_last 5 readings in
        let firstReading := nth_error recentReadings 0 in
        let lastReading := last_elem recentReadings in
        l <- deref lastReading "temp" ;;
        f <- deref firstReading "temp" ;;
        let tempChange := (temp l - temp f)%js in
        let timeChange :=
          ((Date.getTime (timestamp l) - Date.getTime (timestamp f))
           / (1000 * 60 * 60))%js in
        if (timeChange >? 0)%js then
          let trendRatePerHour := (tempChange / timeChange)%js in
          if (JS.abs trendRatePerHour <? 2)%js then
            p <- deref profile "stallRange" ;;
            Ok (if inStallRange p currentTemp then stalled else stable,
                trendRatePerHour)
          else if (trendRatePerHour >? 0)%js then Ok (rising, trendRatePerHour)
          else Ok (falling, trendRatePerHour)
        else Ok (stable, JS.Fin 0)
      else Ok (stable, JS.Fin 0)
  | None => Ok (stable, JS.Fin 0)
  end.

Definition analyzeTemperature (currentTemp targetTemp : JS.number)
    (proteinType : string) (cookMethod : option CookMethod)
    (cookStartTime : option Date.t)
    (previousReadings : option (list TemperatureReading))
  : result TemperatureAnalysis.t :=
  let profile := getProteinProfile proteinType in
  let tempDelta := (targetTemp - currentTemp)%js in
  let startingTemp : JS.number := 40 in
  let totalTempRange := (targetTemp - startingTemp)%js in
  let tempProgress := (currentTemp - startingTemp)%js in
  let percentComplete :=
    JS.min 100 (JS.max 0 (tempProgress / totalTempRange * 100)%js) in
  tr <- trendOf profile currentTemp previousReadings ;;
  let trend := fst tr in
  let trendRatePerHour := snd tr in
  p <- deref profile "stallRange" ;;
  let inStallZone := inStallRange p currentTemp in
  let estimatedMinutesRemaining :=
    if (trendRatePerHour >? 0)%js && Trend_eqb trend rising then
      let hoursRemaining := (tempDelta / trendRatePerHour)%js in
      Some (JS.round (hoursRemaining * 60)%js)
    else None in
  let recommendations : list text :=
    ((if inStallZone && Trend_eqb trend stalled then
        [[Lit "🛑 You're in the stall zone! Temperature may plateau for 2-4 hours."];
         [Lit "💡 Consider wrapping in butcher paper or foil (Texas crutch) to push through faster."]]
      else if inStallZone && Trend_eqb trend rising then
        [[Lit "📈 Temperature is rising through the stall zone - looking good!"]]
      else [])
     ++
     (if (tempDelta <=? carryoverDegrees p + 5)%js then
        [[Lit "🎯 Getting close! Consider pulling at ";
          Num (targetTemp - carryoverDegrees p)%js;
          Lit "°F to account for carryover."]]
      else [])
     ++
     (if (tempDelta <=? 0)%js then
        [Lit "✅ Target temperature reached! Time to rest."]
        :: (if requiresRest p then
              [[Lit "⏰ Rest for "; Num (restTimeMinutes p);
                Lit " minutes before slicing."]]
            else [])
      else [])
     ++
     (if Trend_eqb trend falling then
        [Lit "⚠️ Temperature is dropping - check your heat source!"]
        :: (match cookMethod with
            | Some m =>
                if includes (CookMethod_name m) "smoke" then
                  [[Lit "🔥 You may need to add more fuel or adjust airflow."]]
                else []
            | None => []
            end)
      else [])
     ++
     (if (percentComplete <? 25)%js
         && match previousReadings with
            | Some readings => (0 <? List.length readings)%nat
            | None => false
            end
      then [[Lit "🕐 Still in early stages - patience is key!"]]
      else []))%list in
  Ok {| TemperatureAnalysis.currentTemp := currentTemp;
        TemperatureAnalysis.targetTemp := targetTemp;
        TemperatureAnalysis.tempDelta := tempDelta;
        TemperatureAnalysis.percentComplete :=
          (JS.round (percentComplete * 10) / 10)%js;
        TemperatureAnalysis.trend := trend;
        TemperatureAnalysis.trendRatePerHour :=
          (JS.round (trendRatePerHour * 10) / 10)%js;
        TemperatureAnalysis.estimatedMinutesRemaining :=
          estimatedMinutesRemaining;
        TemperatureAnalysis.inStallZone := inStallZone;
        TemperatureAnalysis.recommendations := recommendations |}.

(** The loop of [detectStall] that dates the stall: it walks the readings
    from the newest to the oldest, here as the reversed list, overwriting the
    duration at every reading inside the range and stopping at the first one
    outside it. *)
Fixpoint stallSince (now : Z) (range : StallRange)
    (newestFirst : list TemperatureReading) (duration : JS.number)
  : JS.number :=
  match newestFirst with
  | [] => duration
  | r :: older =>
      if within range (temp r) then
        stallSince now range older
          ((JS.ofZ now - Date.getTime (timestamp r)) / (1000 * 60))%js
      else duration
  end.

(** The rate [detectStall] compares with its threshold. *)
Definition tempRatePerHour (first last : TemperatureReading) : JS.number :=
  let tempChange := (temp last - temp first)%js in
  let timeSpanMinutes :=
    ((Date.getTime (timestamp last) - Date.getTime (timestamp first))
     / (1000 * 60))%js in
  if (timeSpanMinutes >? 0)%js
  then (tempChange / timeSpanMinutes * 60)%js
  else 0.

Definition detectStall (now : Z) (proteinType : string)
    (currentTemp : JS.number) (readings : list TemperatureReading)
  : result StallResult.t :=
  let profile := getProteinProfile proteinType in
  p <- deref profile "stallRange" ;;
  match stallRange p with
  | None =>
      Ok {| StallResult.isStalled := false;
            StallResult.stallDurationMinutes := 0;
            StallResult.inStallZone := false;
            StallResult.recommendation :=
              [Lit (displayName p);
               Lit " typically doesn't experience a stall."] |}
  | Some range =>
      let inStallZone := within range currentTemp in
      if negb inStallZone then
        if (currentTemp <? start range)%js then
          Ok {| StallResult.isStalled := false;
                StallResult.stallDurationMinutes := 0;
                StallResult.inStallZone := false;
                StallResult.recommendation :=
                  [Lit "Approaching stall zone ("; Num (start range);
                   Lit "-"; Num (end_ range);
                   Lit "°F). Be prepared for a plateau."] |}
        else
          Ok {| StallResult.isStalled := false;
                StallResult.stallDurationMinutes := 0;
                StallResult.inStallZone := false;
                StallResult.recommendation :=
                  [Lit "You've pushed through the stall! Temperature should rise steadily now."] |}
      else
        let recentReadings := slice_last 6 readings in
        if (List.length recentReadings <? 3)%nat then
          Ok {| StallResult.isStalled := false;
                StallResult.stallDurationMinutes := 0;
                StallResult.inStallZone := true;
                StallResult.recommendation :=
                  [Lit "In the stall zone but need more readings to confirm stall status."] |}
        else
          l <- deref (last_elem recentReadings) "temp" ;;
          f <- deref (nth_error recentReadings 0) "temp" ;;
          let isStalled := (tempRatePerHour f l <? 3)%js in
          let stallDurationMinutes :=
            if isStalled && (3 <=? List.length readings)%nat
            then stallSince now range (rev readings) 0
            else 0 in
          let recommendation :=
            if isStalled then
              if (stallDurationMinutes <? 60)%js then
                [Lit "Stall detected! This is normal - evaporative cooling is slowing the temp rise. The stall can last 2-4 hours."]
              else if (stallDurationMinutes <? 180)%js then
                [Lit "Stall has lasted "; Num (JS.round stallDurationMinutes);
                 Lit " minutes. Consider wrapping in butcher paper (Texas crutch) to push through faster."]
              else
                [Lit "Extended stall ("; Num (JS.round stallDurationMinutes);
                 Lit " minutes). Wrapping is strongly recommended, or you can ride it out - eventually, it will break through."]
            else
              [Lit "In the stall zone but temperature is still rising. Keep monitoring - you may push through without a major plateau."] in
          Ok {| StallResult.isStalled := isStalled;
                StallResult.stallDurationMinutes :=
                  JS.round stallDurationMinutes;
                StallResult.inStallZone := inStallZone;
                StallResult.recommendation := recommendation |}
  end.

Definition calculateRestTime (proteinType : string) (currentTemp : JS.number)
    (targetFinalTemp : option JS.number) : result RestResult.t :=
  let profile := getProteinProfile proteinType in
  p <- deref profile "carryoverDegrees" ;;
  let expectedCarryover := carryoverDegrees p in
  let expectedFinalTemp := (currentTemp + expectedCarryover)%js in
  let recommendedRestMinutes := restTimeMinutes p in
  let instructions : list text :=
    if negb (requiresRest p) then
      [[Lit (displayName p); Lit " doesn't require significant resting."];
       [Lit "Serve immediately for best results."]]
    else
      ([[Lit "Rest for "; Num recommendedRestMinutes; Lit " minutes."];
        [Lit "Temperature will rise approximately "; Num expectedCarryover;
         Lit "°F during rest."];
        [Lit "Expected final temperature: "; Num expectedFinalTemp;
         Lit "°F"]]
       ++
       [if Category_eqb (category p) beef
           && (String.eqb proteinType "beef_brisket"
               || String.eqb proteinType "beef_prime_rib")
        then [Lit "For large roasts, rest in a cooler (without ice) wrapped in towels for up to 4 hours."]
        else if Category_eqb (category p) poultry
        then [Lit "Rest uncovered or loosely tented to keep skin crispy."]
        else [Lit "Rest loosely tented with foil to retain heat."]]
       ++
       match targetFinalTemp with
       | Some target =>
           if JS.truthy target && (expectedFinalTemp <? target)%js then
             let shortfall := (target - expectedFinalTemp)%js in
             [[Lit "⚠️ Final temp may be "; Num shortfall;
               Lit "°F below target. Consider pulling a bit later next time."]]
           else if JS.truthy target && (expectedFinalTemp >? target + 5)%js
           then
             [[Lit "⚠️ Final temp may exceed target. Next time, pull earlier at ";
               Num (target - expectedCarryover)%js; Lit "°F."]]
           else []
       | None => []
       end)%list in
  Ok {| RestResult.recommendedRestMinutes := recommendedRestMinutes;
        RestResult.expectedCarryover := expectedCarryover;
        RestResult.expectedFinalTemp := expectedFinalTemp;
        RestResult.instructions := instructions |}.

End Engine.

(** ** The rest of the cooking service *)

(** The phases of a cook a caller can ask tips for. *)
Inductive Phase : Type :=
| prep | cooking | stall | wrapping | final_push | resting | serving.

(** [formatTimeEstimate] *)
Definition formatTimeEstimate (minutes : JS.number) : text :=
  if (minutes <? 60)%js then [Num (JS.round minutes); Lit " minutes"]
  else
    let hours := JS.floor (minutes / 60)%js in
    let remainingMinutes := JS.round (JS.rem minutes 60) in
    if (remainingMinutes === 0)%js then
      [Num hours; Lit " hour";
       Lit (if (hours >? 1)%js then "s" else EmptyString)]
    else
      [Num hours; Lit " hour";
       Lit (if (hours >? 1)%js then "s" else EmptyString);
       Lit " "; Num remainingMinutes; Lit " minutes"].

Section Advice.

Variable PROTEIN_PROFILES : string -> option ProteinProfile.
Variable COOK_METHOD_INFO : CookMethod -> MethodInfo.

(** [getCookingTips]: a copy of the profile's tips, then the tips of the
    method, then those of the phase. *)
Definition getCookingTips (proteinType : string)
    (cookMethod : option CookMethod) (currentPhase : option Phase)
  : result (list text) :=
  let profile := getProteinProfile PROTEIN_PROFILES proteinType in
  p <- deref profile "tips" ;;
  let tips : list text := map (fun tip => [Lit tip]) (tips p) in
  let tips :=
    match cookMethod with
    | Some method =>
        let methodInfo := COOK_METHOD_INFO method in
        (tips
         ++ [[Lit "For "; Lit (methodDisplayName methodInfo);
              Lit ": Cook at "; Lit (tempRange methodInfo)]]
         ++ match method with
            | reverse_sear =>
                [[Lit "Start at 225°F until 10-15°F below target, then sear at high heat for 1-2 minutes per side."]]
            | spatchcock =>
                [[Lit "Remove backbone with kitchen shears, flatten bird for more even cooking and crispier skin."]]
            | _ => []
            end)%list
    | None => tips
    end in
  let tips :=
    match currentPhase with
    | Some prep =>
        (tips
         ++ [[Lit "Season liberally - salt enhances flavor and aids bark formation."];
             [Lit "Let meat come to room temperature (30-60 min) for more even cooking."]])%list
    | Some stall =>
        (tips
         ++ [[Lit "The stall is caused by evaporative cooling - moisture on the surface keeps temps flat."];
             [Lit "Options: Wrap in butcher paper/foil (Texas crutch) or ride it out."]])%list
    | Some wrapping =>
        (tips
         ++ [[Lit "Butcher paper allows some smoke penetration while speeding the cook."];
             [Lit "Foil is faster but can soften the bark."]])%list
    | Some resting =>
        (tips
         ++ [[Lit "Don't skip the rest! It allows juices to redistribute."];
             [Lit "Large cuts can rest in a cooler for hours without losing much heat."]])%list
    | _ => tips
    end in
  Ok tips.

(** [getRecommendedCookMethod]: [undefined] when the profile recommends
    none. *)
Definition getRecommendedCookMethod (proteinType : string)
  : result (option CookMethod) :=
  let profile := getProteinProfile PROTEIN_PROFILES proteinType in
  p <- deref profile "recommendedMethods" ;;
  Ok (nth_error (recommendedMethods p) 0).

End Advice.

(** ** Presentation ([services/formatting.js])

    The reports the tool handlers build from the engine's results.  A report
    is the text appended to [output], in order; the line feed of the
    template literals is the piece [Lit nl]. *)

Definition nl : string := String (Ascii.ascii_of_nat 10) EmptyString.

(** The string each [trend] value is at run time. *)
Definition Trend_name (t : Trend) : string :=
  match t with
  | rising => "rising"
  | falling => "falling"
  | stable => "stable"
  | stalled => "stalled"
  end.

(** [c.toUpperCase()], on the ASCII range. *)
Definition toUpperCase (c : Ascii.ascii) : Ascii.ascii :=
  let n := Ascii.nat_of_ascii c in
  if ((97 <=? n) && (n <=? 122))%nat then Ascii.ascii_of_nat (n - 32) else c.

(** [s.charAt(0).toUpperCase() + s.slice(1)] *)
Definition capitalized (s : string) : string :=
  match s with
  | EmptyString => EmptyString
  | String c rest => String (toUpperCase c) rest
  end.

(** The local constant [timeString] of [formatTemperatureAnalysisMarkdown]. *)
Definition timeString (estimatedMinutesRemaining : JS.number) : text :=
  let hours := JS.floor (estimatedMinutesRemaining / 60)%js in
  let minutes := JS.rem estimatedMinutesRemaining 60 in
  if (hours >? 0)%js
  then [Num hours; Lit "h "; Num minutes; Lit "m"]
  else [Num minutes; Lit "m"].

Definition formatTemperatureAnalysisMarkdown (analysis : TemperatureAnalysis.t)
  : text :=
  let output := [Lit "## 🌡️ Temperature Analysis"; Lit nl; Lit nl] in
  let output :=
    (output
     ++ [Lit "**Current:** "; Num (TemperatureAnalysis.currentTemp analysis);
         Lit "°F → **Target:** ";
         Num (TemperatureAnalysis.targetTemp analysis); Lit "°F"; Lit nl])%list
  in
  let output :=
    (output
     ++ [Lit "**Progress:** ";
         Num (TemperatureAnalysis.percentComplete analysis);
         Lit "% complete"; Lit nl])%list in
  let output :=
    (output
     ++ [Lit "**Remaining:** "; Num (TemperatureAnalysis.tempDelta analysis);
         Lit "°F to go"; Lit nl; Lit nl])%list in
  let trendEmoji :=
    match TemperatureAnalysis.trend analysis with
    | rising => "📈"
    | falling => "📉"
    | stalled => "⏸️"
    | stable => "➡️"
    end in
  let output :=
    (output
     ++ [Lit "### Trend: "; Lit trendEmoji; Lit " ";
         Lit (capitalized (Trend_name (TemperatureAnalysis.trend analysis)));
         Lit nl; Lit nl])%list in
  let output :=
    if negb (TemperatureAnalysis.trendRatePerHour analysis === 0)%js then
      (output
       ++ [Lit "**Rate:** ";
           Lit (if (TemperatureAnalysis.trendRatePerHour analysis >? 0)%js
                then "+" else EmptyString);
           Num (TemperatureAnalysis.trendRatePerHour analysis);
           Lit "°F/hour"; Lit nl])%list
    else output in
  let output :=
    match TemperatureAnalysis.estimatedMinutesRemaining analysis with
    | Some estimatedMinutesRemaining =>
        (output
         ++ ([Lit "**ETA:** ~"] ++ timeString estimatedMinutesRemaining
             ++ [Lit " remaining"; Lit nl]))%list
    | None =>
        if TemperatureAnalysis.inStallZone analysis then
          (output ++ [Lit "**ETA:** Cannot estimate during stall"; Lit nl])%list
        else output
    end in
  let output :=
    if TemperatureAnalysis.inStallZone analysis then
      (output
       ++ [Lit nl; Lit "⚠️ **Currently in the stall zone!**"; Lit nl])%list
    else output in
  let output :=
    if (0 <? List.length (TemperatureAnalysis.recommendations analysis))%nat
    then
      ((output ++ [Lit nl; Lit "### Recommendations"; Lit nl; Lit nl])
       ++ List.concat (map (fun rec => rec ++ [Lit nl])
                    (TemperatureAnalysis.recommendations analysis)))%list
    else output in
  output.

(** ** The estimate tool ([smithery.js])

    The text the handler of the tool [bbq_estimate_cook_time] answers with,
    built from the estimate [estimateCookTime] returned. *)

(** The string each [confidence] value is at run time. *)
Definition Confidence_name (c : Confidence) : string :=
  match c with
  | high => "high"
  | medium => "medium"
  | low => "low"
  end.

Definition bbq_estimate_cook_time_text (estimate : CookTimeEstimate.t) : text :=
  let hours := JS.floor (CookTimeEstimate.totalMinutes estimate / 60)%js in
  let mins := JS.rem (CookTimeEstimate.totalMinutes estimate) 60 in
  [Lit "**Estimated Time:** "; Num hours; Lit "h "; Num mins; Lit "m"; Lit nl;
   Lit "**Confidence:** ";
   Lit (Confidence_name (CookTimeEstimate.confidence estimate))].

(** ** The formulas of the design description

    Definitions written from the prose of the specification, against which
    the engine's own computations are compared. *)

Module Spec.

(** "clamped to [lo, hi]" *)
Definition clamp (lo hi x : JS.number) : JS.number :=
  if (x <=? lo)%js then lo else if (x >=? hi)%js then hi else x.

(** "a fixed hot/fast baseline applies when the method name denotes a
    hot/fast variant, otherwise a fixed low/slow baseline" *)
Definition baseline (method : CookMethod) : JS.number :=
  match method with
  | smoke_hot_fast => 300
  | _ => 225
  end.

(** "adjustment = 1 - (smokerTemp - baseline)/250, clamped to [0.5, 1.5]" *)
Definition adjustment (method : CookMethod) (smokerTemp : JS.number)
  : JS.number :=
  clamp (1 # 2) (3 # 2) (1 - (smokerTemp - baseline method) / 250)%js.

(** "totalMinutes = minutesPerPound x weight x adjustment", plus "a flat
    60-minute buffer" if the profile defines a stall range. *)
Definition totalMinutes (p : ProteinProfile) (method : CookMethod)
    (weight smokerTemp : JS.number) : JS.number :=
  let cook :=
    (estimatedTimePerPound p method * weight * adjustment method smokerTemp)%js
  in
  match stallRange p with
  | Some _ => (cook + 60)%js
  | None => cook
  end.

(** "rate = (lastTemp - firstTemp) / hoursBetween(firstTs, lastTs)" *)
Definition hoursBetween (first last : TemperatureReading) : JS.number :=
  ((timestamp last - timestamp first) / 3600000)%js.

Definition trendRate (first last : TemperatureReading) : JS.number :=
  ((temp last - temp first) / hoursBetween first last)%js.

(** "rate = (dtemp / dminutes) x 60" *)
Definition minutesBetween (first last : TemperatureReading) : JS.number :=
  ((timestamp last - timestamp first) / 60000)%js.

Definition stallRate (first last : TemperatureReading) : JS.number :=
  ((temp last - temp first) / minutesBetween first last * 60)%js.

(** "percentComplete = clamp((currentTemp - 40) / (targetTemp - 40) x 100,
    0, 100)" *)
Definition percentComplete (currentTemp targetTemp : JS.number) : JS.number :=
  clamp 0 100 ((currentTemp - 40) / (targetTemp - 40) * 100)%js.

(** "rounded to one decimal place" *)
Definition oneDecimal (x : JS.number) : JS.number :=
  (JS.round (x * 10) / 10)%js.

End Spec.

(** ** Binary64 replicas

    [convertTemperature] and the percentage of [analyzeTemperature] once more,
    on the kernel's binary64 numbers: the arithmetic the JavaScript runtime
    performs, bit for bit.  They are used to check that the rational model and
    the floating-point computation round alike on every integer input of the
    conversion's test range, and that [0 / 0] is [NaN] there too. *)

Module Binary64.

Local Open Scope float_scope.

Definition two52 : float := 0x1p52.

Definition ofZ (z : Z) : float :=
  if (z <? 0)%Z then - of_uint63 (Uint63.of_Z (- z))
  else of_uint63 (Uint63.of_Z z).

Definition isNaN (x : float) : bool := negb (x =? x).

(** [Math.floor].  Below [2^52] in magnitude, adding and subtracting [2^52]
    rounds to the nearest integer, which is then corrected downward; from
    [2^52] on every binary64 number is an integer. *)
Definition floor (x : float) : float :=
  if isNaN x || (two52 <=? abs x) then x
  else
    let nearest :=
      if x <? 0 then (x - two52) + two52 else (x + two52) - two52 in
    if x <? nearest then nearest - 1 else nearest.

(** [Math.round]: ties toward [+Infinity].  The fractional part [x - floor x]
    is computed exactly.  (A zero result carries no sign.) *)
Definition round (x : float) : float :=
  if isNaN x || (two52 <=? abs x) then x
  else
    let below := floor x in
    if (x - below) <? 0.5 then below else below + 1.

Definition convertTemperature (temp : float)
    (fromUnit toUnit : TemperatureUnit) : float :=
  if TemperatureUnit_eqb fromUnit toUnit then temp
  else
    match fromUnit, toUnit with
    | fahrenheit, celsius => round ((temp - 32) * 5 / 9 * 10) / 10
    | _, _ => round (temp * 9 / 5 + 32)
    end.

(** [Math.max] and [Math.min] of two arguments. *)
Definition max (x y : float) : float :=
  if isNaN x || isNaN y then nan else if x <? y then y else x.

Definition min (x y : float) : float :=
  if isNaN x || isNaN y then nan else if y <? x then y else x.

(** The [percentComplete] field of [analyzeTemperature]. *)
Definition percentComplete (currentTemp targetTemp : float) : float :=
  let startingTemp := 40 in
  let totalTempRange := targetTemp - startingTemp in
  let tempProgress := currentTemp - startingTemp in
  let percentComplete := min 100 (max 0 (tempProgress / totalTempRange * 100)) in
  round (percentComplete * 10) / 10.

(** The [n] consecutive integers from [lo]. *)
Definition integers (lo : Z) (n : nat) : list Z :=
  map (fun i => (lo + Z.of_nat i)%Z) (seq 0 n).

(** On the integer [v]: the round trip returns [v], and the number of tenths
    of a degree Celsius is the one of the rational model. *)
Definition agrees_at (v : Z) : bool :=
  (convertTemperature (convertTemperature (ofZ v) fahrenheit celsius)
     celsius fahrenheit =? ofZ v)
  && (round ((ofZ v - 32) * 5 / 9 * 10)
      =? ofZ (Qfloor ((inject_Z v - 32) * 5 / 9 * 10 + (1 # 2))%Q)).

End Binary64.

(** ** Views of the results

    Used to compare two outcomes of one operation. *)

(** Two outcomes agree on a view of the result: both return, with equal
    views, or both throw the same error. *)
Definition agree {A B : Type} (view : A -> B) (x y : result A) : Prop :=
  match x, y with
  | Ok a, Ok b => view a = view b
  | Throw e, Throw e' => e = e'
  | _, _ => False
  end.

(** The fields of an estimate other than the projected completion time. *)
Definition estimateButDoneTime (e : CookTimeEstimate.t) :=
  (CookTimeEstimate.totalMinutes e, CookTimeEstimate.hoursAndMinutes e,
   CookTimeEstimate.confidence e, CookTimeEstimate.assumptions e,
   CookTimeEstimate.warnings e).

Definition scheduleButDoneTime (s : StartTime.t) :=
  (StartTime.startTime s, estimateButDoneTime (StartTime.cookTime s),
   StartTime.restTime s, StartTime.bufferMinutes s).

(** The fields of a stall verdict other than the stall's duration and the
    message chosen from it. *)
Definition stallButDuration (r : StallResult.t) :=
  (StallResult.isStalled r, StallResult.inStallZone r).

(** The running total of [estimateCookTime] before it is rounded: the local
    variable [totalMinutes] of the source, after the stall buffer. *)
Definition cookMinutes (p : ProteinProfile) (cookMethod : CookMethod)
    (weightPounds : JS.number) (smokerTemp : option JS.number) : JS.number :=
  let totalMinutes :=
    (estimatedTimePerPound p cookMethod * weightPounds
     * tempAdjustment cookMethod smokerTemp)%js in
  match stallRange p with
  | Some _ => (totalMinutes + 60)%js
  | None => totalMinutes
  end.

(** The buffer [calculateStartTime] adds for a confidence tier. *)
Definition bufferFor (c : Confidence) : JS.number :=
  match c with
  | low => 120
  | medium => 60
  | high => 30
  end.

(** ** A small knowledge base

    The engine is parametrised by its tables.  These sample tables, with
    synthetic values, are the ones the engine is run on in the examples
    below. *)

Module Sample.

Definition brisket : ProteinProfile := {|
  type_ := "beef_brisket";
  displayName := "Beef Brisket";
  category := beef;
  usdaSafeTemp := 145;
  requiresRest := true;
  restTimeMinutes := 60;
  carryoverDegrees := 5;
  donenessTemps := [(pullable, JS.Fin 203)];
  recommendedMethods := [smoke_low_slow; smoke_hot_fast];
  stallRange := Some {| start := 150; end_ := 175 |};
  estimatedTimePerPound := fun m =>
    match m with
    | smoke_low_slow => 70
    | smoke_hot_fast => 45
    | _ => 0
    end;
  tips := ["Wrap at the stall"]
|}.

Definition prime_rib : ProteinProfile := {|
  type_ := "beef_prime_rib";
  displayName := "Prime Rib";
  category := beef;
  usdaSafeTemp := 145;
  requiresRest := true;
  restTimeMinutes := 30;
  carryoverDegrees := 8;
  donenessTemps :=
    [(medium_rare, JS.Fin 130); (rare, JS.Fin 120); (medium_, JS.Fin 140)];
  recommendedMethods := [reverse_sear; smoke_low_slow];
  stallRange := None;
  estimatedTimePerPound := fun m =>
    match m with
    | smoke_low_slow => 35
    | reverse_sear => 30
    | grill_indirect => 20
    | rotisserie => 18
    | _ => 0
    end;
  tips := []
|}.

Definition chicken_wings : ProteinProfile := {|
  type_ := "chicken_wings";
  displayName := "Chicken Wings";
  category := poultry;
  usdaSafeTemp := 165;
  requiresRest := false;
  restTimeMinutes := 0;
  carryoverDegrees := 2;
  donenessTemps := [(usda_safe, JS.Fin 165); (well_done, JS.Fin 175)];
  recommendedMethods := [grill_direct];
  stallRange := None;
  estimatedTimePerPound := fun m =>
    match m with
    | smoke_low_slow => 60
    | spatchcock => 0
    | _ => 25
    end;
  tips := []
|}.

Definition PROTEIN_PROFILES (id : string) : option ProteinProfile :=
  if String.eqb id "beef_brisket" then Some brisket
  else if String.eqb id "beef_prime_rib" then Some prime_rib
  else if String.eqb id "chicken_wings" then Some chicken_wings
  else None.

Definition COOK_METHOD_INFO (m : CookMethod) : MethodInfo :=
  {| methodDisplayName :=
       match m with
       | smoke_low_slow => "Low & Slow Smoke"
       | smoke_hot_fast => "Hot & Fast Smoke"
       | grill_direct => "Direct Grilling"
       | grill_indirect => "Indirect Grilling"
       | reverse_sear => "Reverse Sear"
       | spatchcock => "Spatchcock"
       | rotisserie => "Rotisserie"
       end;
     tempRange := "225-250°F";
     description := "-" |}.

(** Readings one hour apart, the last one taken at [t0 + 3 h]. *)
Definition hour : Z := 3600000.

Definition reading (t : Q) (at_ms : Z) : TemperatureReading :=
  {| temp := JS.Fin t; timestamp := JS.ofZ at_ms |}.

Definition rising_readings : list TemperatureReading :=
  [reading 145 0; reading 155 hour; reading 162 (2 * hour);
   reading 165 (3 * hour)].

Definition stall_readings : list TemperatureReading :=
  [reading 155 0; reading 156 hour; reading 156 (2 * hour);
   reading 157 (3 * hour)].

(** Readings whose timestamps run backwards, with a falling temperature, and
    readings that share one timestamp while the temperature rises. *)
Definition unordered_readings : list TemperatureReading :=
  [reading 160 (2 * hour); reading 158 hour;
   reading 150 0].

Definition simultaneous_readings : list TemperatureReading :=
  [reading 155 0; reading 156 0; reading 160 0].

End Sample.


(** ** Auxiliary facts on numbers, lists and the error monad *)

Lemma Qltb_lt (a b : Q) : JS.Qltb a b = true <-> a < b.
Proof.
  unfold JS.Qltb. rewrite Qlt_alt.
  destruct (a ?= b); split; congruence.
Qed.

Lemma Qltb_ge (a b : Q) : JS.Qltb a b = false <-> b <= a.
Proof.
  rewrite <- not_true_iff_false, Qltb_lt. split; intro H; lra.
Qed.

Lemma Qle_bool_gt (a b : Q) : Qle_bool a b = false <-> b < a.
Proof.
  rewrite <- not_true_iff_false, Qle_bool_iff. split; intro H; lra.
Qed.

Lemma Qeq_bool_false (a b : Q) : Qeq_bool a b = false <-> ~ a == b.
Proof. rewrite <- not_true_iff_false, Qeq_bool_iff. tauto. Qed.

(** Turns the boolean tests on rationals met in a goal into propositions. *)
Ltac qbool :=
  repeat match goal with
    | H : JS.Qltb _ _ = true |- _ => apply Qltb_lt in H
    | H : JS.Qltb _ _ = false |- _ => apply Qltb_ge in H
    | H : Qle_bool _ _ = true |- _ => apply Qle_bool_iff in H
    | H : Qle_bool _ _ = false |- _ => apply Qle_bool_gt in H
    | H : Qeq_bool _ _ = true |- _ => apply Qeq_bool_iff in H
    | H : Qeq_bool _ _ = false |- _ => apply Qeq_bool_false in H
    end.

(** Case analysis on every boolean test on rationals in the goal. *)
Ltac qcases :=
  repeat match goal with
    | |- context [JS.Qltb ?a ?b] =>
        let E := fresh "E" in destruct (JS.Qltb a b) eqn:E
    | |- context [Qle_bool ?a ?b] =>
        let E := fresh "E" in destruct (Qle_bool a b) eqn:E
    | |- context [Qeq_bool ?a ?b] =>
        let E := fresh "E" in destruct (Qeq_bool a b) eqn:E
    end.

(** [Math.max(lo, Math.min(hi, x))] is the clamp of the description. *)
Lemma max_min_clamp (lo hi : Q) (x : JS.number) :
  lo < hi ->
  JS.max lo (JS.min hi x) = Spec.clamp lo hi x.
Proof.
  intros Hlohi. unfold Spec.clamp, JS.max, JS.min, JS.geb.
  destruct x as [q| | |]; cbn; try reflexivity;
    qcases; cbn; qcases; qbool; try reflexivity; exfalso; lra.
Qed.


Lemma slice_last_length {A : Type} (n : nat) (a : list A) :
  List.length (slice_last n a) = Nat.min n (List.length a).
Proof. unfold slice_last. rewrite length_skipn. lia. Qed.

Lemma slice_last_first {A : Type} (n : nat) (a : list A) :
  (0 < n)%nat -> (0 < List.length a)%nat ->
  exists x, nth_error (slice_last n a) 0 = Some x.
Proof.
  intros Hn Ha.
  destruct (nth_error (slice_last n a) 0) as [x|] eqn:E; [eauto|].
  apply nth_error_None in E. rewrite slice_last_length in E. lia.
Qed.

Lemma slice_last_last {A : Type} (n : nat) (a : list A) :
  (0 < n)%nat -> (0 < List.length a)%nat ->
  exists x, last_elem (slice_last n a) = Some x.
Proof.
  intros Hn Ha. unfold last_elem.
  destruct (nth_error (slice_last n a) (List.length (slice_last n a) - 1))
    as [x|] eqn:E; [eauto|].
  apply nth_error_None in E. rewrite slice_last_length in E. lia.
Qed.

Lemma trendOf_undefined_profile cur rs :
  trendOf None cur rs = Throw (TypeError "stallRange")
  \/ exists tr, trendOf None cur rs = Ok tr.
Proof.
  unfold trendOf. destruct rs as [rs|]; [|eauto].
  destruct (2 <=? List.length rs)%nat eqn:Hlen; [|eauto].
  apply Nat.leb_le in Hlen.
  destruct (slice_last_last 5 rs) as [l Hl]; [lia|lia|].
  destruct (slice_last_first 5 rs) as [f Hf]; [lia|lia|].
  rewrite Hl, Hf. cbn [deref bind].
  repeat match goal with
         | |- context [if ?b then _ else _] => destruct b
         end; cbn [deref bind]; eauto.
Qed.

(** ** Running the engine *)

Example brisket_estimate :
  estimateCookTime Sample.PROTEIN_PROFILES Sample.COOK_METHOD_INFO 1000
    "beef_brisket" 14 smoke_low_slow (Some (JS.Fin 225))
  = Ok {| CookTimeEstimate.totalMinutes := 1040;
          CookTimeEstimate.hoursAndMinutes :=
            [Num 17; Lit " hour"; Lit "s"; Lit " "; Num 20; Lit " minutes"];
          CookTimeEstimate.estimatedDoneTime := 62401000;
          CookTimeEstimate.confidence := low;
          CookTimeEstimate.assumptions :=
            [[Lit "Includes ~1 hour buffer for the stall (150-175°F range)"];
             [Lit "Wrapping can reduce stall time by 30-50%"];
             [Lit "Add "; Num 60; Lit " minutes rest time before serving"]];
          CookTimeEstimate.warnings :=
            [[Lit "Large cuts with stalls are unpredictable - plan for variability"]]
       |}.
Proof. vm_compute. reflexivity. Qed.

Example brisket_analysis :
  exists r,
    analyzeTemperature Sample.PROTEIN_PROFILES 165 203 "beef_brisket" None
      None (Some Sample.rising_readings) = Ok r
    /\ TemperatureAnalysis.trend r = rising
    /\ TemperatureAnalysis.trendRatePerHour r = 6.7
    /\ TemperatureAnalysis.percentComplete r = 76.7
    /\ TemperatureAnalysis.estimatedMinutesRemaining r = Some (JS.Fin 342)
    /\ TemperatureAnalysis.inStallZone r = true.
Proof. eexists. split; [vm_compute; reflexivity|]. repeat split. Qed.

Example brisket_stall :
  exists r,
    detectStall Sample.PROTEIN_PROFILES (3 * Sample.hour) "beef_brisket" 157
      Sample.stall_readings = Ok r
    /\ StallResult.isStalled r = true
    /\ StallResult.stallDurationMinutes r = 180.
Proof. eexists. split; [vm_compute; reflexivity|]. repeat split. Qed.

Example prime_rib_rest :
  exists r,
    calculateRestTime Sample.PROTEIN_PROFILES "beef_prime_rib" 120
      (Some (JS.Fin 130)) = Ok r
    /\ RestResult.expectedFinalTemp r = 128
    /\ In [Lit "⚠️ Final temp may be "; Num 2;
           Lit "°F below target. Consider pulling a bit later next time."]
         (RestResult.instructions r).
Proof.
  eexists. split; [vm_compute; reflexivity|]. split; [reflexivity|].
  simpl. tauto.
Qed.

Example round_half_up :
  JS.round (JS.Fin (5 # 2)) = 3 /\ JS.round (JS.Fin (-5 # 2)) = JS.Fin (-2).
Proof. split; reflexivity. Qed.

Example remainder_sign : JS.rem (JS.Fin (-7)) 3 = JS.Fin (-1).
Proof. reflexivity. Qed.

Example zero_over_zero : (0 / 0)%js = JS.NaN /\ (1 / 0)%js = JS.PInf.
Proof. split; reflexivity. Qed.

(** ** The claims *)

(** C1 (as amended).  For an identifier whose lookup in the knowledge base
    yields [undefined], every engine operation that takes a protein
    identifier fails, and it fails with the runtime's [TypeError] raised by
    the first read of a property of the missing profile: no operation returns
    a result, and none raises a dedicated unknown-protein error. *)
Theorem unknown_protein_throws_TypeError :
  forall (kb : string -> option ProteinProfile)
         (info : CookMethod -> MethodInfo) (now : Z) (id : string),
    kb id = None ->
    (forall doneness,
        getTargetTemperature kb id doneness
        = Throw (TypeError "donenessTemps"))
    /\ (forall weight method smoker,
           estimateCookTime kb info now id weight method smoker
           = Throw (TypeError "estimatedTimePerPound"))
    /\ (forall weight method serving smoker,
           calculateStartTime kb info now id weight method serving smoker
           = Throw (TypeError "estimatedTimePerPound"))
    /\ (forall current target method started readings,
           analyzeTemperature kb current target id method started readings
           = Throw (TypeError "stallRange"))
    /\ (forall current readings,
           detectStall kb now id current readings
           = Throw (TypeError "stallRange"))
    /\ (forall current target,
           calculateRestTime kb id current target
           = Throw (TypeError "carryoverDegrees")).
Proof.
  intros kb info now id Hid. repeat split; intros.
  - unfold getTargetTemperature, getProteinProfile. rewrite Hid.
    destruct doneness; reflexivity.
  - unfold estimateCookTime, getProteinProfile. rewrite Hid. reflexivity.
  - unfold calculateStartTime, estimateCookTime, getProteinProfile.
    rewrite Hid. reflexivity.
  - unfold analyzeTemperature, getProteinProfile. rewrite Hid.
    destruct (trendOf_undefined_profile current readings) as [E|[tr E]];
      rewrite E; reflexivity.
  - unfold detectStall, getProteinProfile. rewrite Hid. reflexivity.
  - unfold calculateRestTime, getProteinProfile. rewrite Hid. reflexivity.
Qed.

Lemma unknown_protein_throws_TypeError_witness :
  Sample.PROTEIN_PROFILES "unicorn" = None
  /\ detectStall Sample.PROTEIN_PROFILES 0 "unicorn" 157 Sample.stall_readings
     = Throw (TypeError "stallRange").
Proof.
  split; [reflexivity|].
  apply (unknown_protein_throws_TypeError Sample.PROTEIN_PROFILES
           Sample.COOK_METHOD_INFO 0 "unicorn").
  reflexivity.
Defined.

(** C1 as stated fails: the identifier ["unicorn"] is not in the knowledge
    base, and resolving its target ends in a [TypeError], not in
    [UnknownProtein]. *)
Lemma unknown_protein_error_is_not_raised :
  Sample.PROTEIN_PROFILES "unicorn" = None
  /\ getTargetTemperature Sample.PROTEIN_PROFILES "unicorn" None
     = Throw (TypeError "donenessTemps")
  /\ getTargetTemperature Sample.PROTEIN_PROFILES "unicorn" None
     <> Throw (UnknownProtein "unicorn").
Proof. split; [reflexivity|]. split; [reflexivity|discriminate]. Qed.

(** C2 (as amended).  The wall clock is an input of [estimateCookTime],
    [calculateStartTime] and [detectStall]: given identical arguments, two
    calls made at different instants agree on whether they throw and on every
    field except the ones derived from the clock, which are the projected
    completion time of the estimate, and the stall's duration with the message
    chosen from it.  The other operations ([getTargetTemperature],
    [analyzeTemperature], [calculateRestTime], [convertTemperature]) never
    read the clock and are functions of their arguments alone. *)
Theorem clock_is_the_only_ambient_input :
  forall (kb : string -> option ProteinProfile)
         (info : CookMethod -> MethodInfo) (now1 now2 : Z) (id : string),
    (forall weight method smoker,
        agree estimateButDoneTime
          (estimateCookTime kb info now1 id weight method smoker)
          (estimateCookTime kb info now2 id weight method smoker))
    /\ (forall weight method serving smoker,
           agree scheduleButDoneTime
             (calculateStartTime kb info now1 id weight method serving smoker)
             (calculateStartTime kb info now2 id weight method serving smoker))
    /\ (forall current readings,
           agree stallButDuration
             (detectStall kb now1 id current readings)
             (detectStall kb now2 id current readings)).
Proof.
  intros kb info now1 now2 id. repeat split; intros.
  - unfold estimateCookTime, getProteinProfile.
    destruct (kb id) as [p|]; cbn [deref bind]; [|reflexivity].
    destruct (estimatedTimePerPound p method === 0)%js; reflexivity.
  - unfold calculateStartTime, estimateCookTime, getProteinProfile.
    destruct (kb id) as [p|]; cbn [deref bind]; [|reflexivity].
    destruct (estimatedTimePerPound p method === 0)%js; reflexivity.
  - unfold detectStall, getProteinProfile.
    destruct (kb id) as [p|]; cbn [deref bind]; [|reflexivity].
    destruct (stallRange p) as [range|]; [|reflexivity].
    destruct (within range current); cbn [negb].
    + destruct (List.length (slice_last 6 readings) <? 3)%nat; [reflexivity|].
      destruct (last_elem (slice_last 6 readings)); cbn [deref bind];
        [|reflexivity].
      destruct (nth_error (slice_last 6 readings) 0); cbn [deref bind];
        reflexivity.
    + destruct (current <? start range)%js; reflexivity.
Qed.

(** C2 as stated fails: the same call, made one minute later, projects a
    completion time one minute later; and the same stall query, made an hour
    later, reports a stall one hour longer. *)
Lemma identical_arguments_different_results :
  (field CookTimeEstimate.estimatedDoneTime
     (estimateCookTime Sample.PROTEIN_PROFILES Sample.COOK_METHOD_INFO 0
        "beef_brisket" 14 smoke_low_slow (Some (JS.Fin 225)))
   = Ok (JS.Fin 62400000)
   /\ field CookTimeEstimate.estimatedDoneTime
        (estimateCookTime Sample.PROTEIN_PROFILES Sample.COOK_METHOD_INFO 60000
           "beef_brisket" 14 smoke_low_slow (Some (JS.Fin 225)))
      = Ok (JS.Fin 62460000))
  /\ (field StallResult.stallDurationMinutes
        (detectStall Sample.PROTEIN_PROFILES (3 * Sample.hour) "beef_brisket"
           157 Sample.stall_readings)
      = Ok (JS.Fin 180)
      /\ field StallResult.stallDurationMinutes
           (detectStall Sample.PROTEIN_PROFILES (4 * Sample.hour)
              "beef_brisket" 157 Sample.stall_readings)
         = Ok (JS.Fin 240))
  /\ estimateCookTime Sample.PROTEIN_PROFILES Sample.COOK_METHOD_INFO 0
       "beef_brisket" 14 smoke_low_slow (Some (JS.Fin 225))
     <> estimateCookTime Sample.PROTEIN_PROFILES Sample.COOK_METHOD_INFO 60000
          "beef_brisket" 14 smoke_low_slow (Some (JS.Fin 225)).
Proof.
  split; [split; vm_compute; reflexivity|].
  split; [split; vm_compute; reflexivity|].
  vm_compute. discriminate.
Qed.

(** C4.  When the profile's minutes-per-pound entry for the method is zero,
    [estimateCookTime] returns, whatever the weight and the smoker
    temperature: zero minutes, confidence [low], no assumptions, and the single
    warning that the method is not recommended for the protein. *)
Theorem zero_rate_method_is_not_recommended :
  forall (kb : string -> option ProteinProfile)
         (info : CookMethod -> MethodInfo) (now : Z) (id : string)
         (p : ProteinProfile) (weight : JS.number) (method : CookMethod)
         (smoker : option JS.number),
    kb id = Some p ->
    (estimatedTimePerPound p method === 0)%js = true ->
    exists r,
      estimateCookTime kb info now id weight method smoker = Ok r
      /\ CookTimeEstimate.totalMinutes r = 0
      /\ CookTimeEstimate.confidence r = low
      /\ CookTimeEstimate.warnings r
         = [[Lit (methodDisplayName (info method));
             Lit " is not recommended for "; Lit (displayName p)]]
      /\ CookTimeEstimate.warnings r <> []
      /\ CookTimeEstimate.assumptions r = []
      /\ CookTimeEstimate.hoursAndMinutes r = [Lit "Not recommended"]
      /\ CookTimeEstimate.estimatedDoneTime r = JS.ofZ now.
Proof.
  intros kb info now id p weight method smoker Hid Hzero.
  unfold estimateCookTime, getProteinProfile. rewrite Hid. cbn [deref bind].
  rewrite Hzero. eexists. split; [reflexivity|]. cbn.
  repeat (split; try reflexivity). discriminate.
Qed.

Lemma zero_rate_method_is_not_recommended_witness :
  exists r,
    estimateCookTime Sample.PROTEIN_PROFILES Sample.COOK_METHOD_INFO 1000
      "beef_brisket" 14 grill_direct (Some (JS.Fin 225)) = Ok r
    /\ CookTimeEstimate.totalMinutes r = 0
    /\ CookTimeEstimate.confidence r = low
    /\ CookTimeEstimate.warnings r
       = [[Lit "Direct Grilling"; Lit " is not recommended for ";
           Lit "Beef Brisket"]]
    /\ CookTimeEstimate.warnings r <> []
    /\ CookTimeEstimate.assumptions r = []
    /\ CookTimeEstimate.hoursAndMinutes r = [Lit "Not recommended"]
    /\ CookTimeEstimate.estimatedDoneTime r = JS.ofZ 1000.
Proof.
  apply (zero_rate_method_is_not_recommended Sample.PROTEIN_PROFILES
           Sample.COOK_METHOD_INFO 1000 "beef_brisket" Sample.brisket 14
           grill_direct (Some (JS.Fin 225))); reflexivity.
Defined.

Lemma lookup_first_key (o : list (DonenessLevel * JS.number)) (k : DonenessLevel) :
  nth_error (Object_keys o) 0 = Some k ->
  exists v, lookup k o = Some v.
Proof.
  destruct o as [|[k' v] rest]; cbn; [discriminate|].
  intros [= ->]. exists v.
  replace (DonenessLevel_eqb k k) with true by (destruct k; reflexivity).
  reflexivity.
Qed.

(** C8.  For every protein of the knowledge base, resolving the target
    without a doneness gives the same result as resolving it with the first
    key of the profile's doneness map; and for every doneness the call
    returns with [pullTemp = targetTemp - carryoverDegrees]. *)
Theorem default_doneness_is_first_key :
  forall (kb : string -> option ProteinProfile) (id : string)
         (p : ProteinProfile),
    kb id = Some p ->
    getTargetTemperature kb id None
    = getTargetTemperature kb id (nth_error (Object_keys (donenessTemps p)) 0)
    /\ forall doneness, exists r,
        getTargetTemperature kb id doneness = Ok r
        /\ Target.pullTemp r = (Target.targetTemp r - carryoverDegrees p)%js.
Proof.
  intros kb id p Hid. unfold getTargetTemperature, getProteinProfile.
  rewrite Hid. cbn [deref bind]. split.
  - destruct (nth_error (Object_keys (donenessTemps p)) 0) as [k|] eqn:Hk;
      [|reflexivity].
    destruct (lookup_first_key _ _ Hk) as [v Hv]. rewrite Hv.
    cbn [bind]. rewrite Hv. reflexivity.
  - intros [d|].
    + destruct (lookup d (donenessTemps p)); cbn [bind];
        eexists; split; reflexivity.
    + eexists; split; reflexivity.
Qed.

Lemma default_doneness_is_first_key_witness :
  getTargetTemperature Sample.PROTEIN_PROFILES "beef_prime_rib" None
  = getTargetTemperature Sample.PROTEIN_PROFILES "beef_prime_rib"
      (Some medium_rare)
  /\ forall doneness, exists r,
      getTargetTemperature Sample.PROTEIN_PROFILES "beef_prime_rib" doneness
      = Ok r
      /\ Target.pullTemp r = (Target.targetTemp r - 8)%js.
Proof.
  apply (default_doneness_is_first_key Sample.PROTEIN_PROFILES
           "beef_prime_rib" Sample.prime_rib).
  reflexivity.
Defined.





Example hotter_smoker_is_faster :
  Spec.adjustment smoke_low_slow 275 = JS.Fin (4 # 5)
  /\ field CookTimeEstimate.totalMinutes
       (estimateCookTime Sample.PROTEIN_PROFILES Sample.COOK_METHOD_INFO 1000
          "beef_brisket" 14 smoke_low_slow (Some (JS.Fin 275)))
     = Ok (JS.Fin 844).
Proof. split; reflexivity. Qed.


(** *** Comparisons of a rate with the trend thresholds *)

Lemma leb_not_gtb (x y : JS.number) :
  (x <=? y)%js = true -> (x >? y)%js = false.
Proof.
  unfold JS.gtb. destruct x, y; cbn; try congruence.
  intros H. qbool. apply Qltb_ge. exact H.
Qed.

Lemma abs_below_threshold (r : JS.number) (c : Q) :
  0 < c ->
  (JS.abs r <? c)%js = true ->
  (r >=? c)%js = false /\ (r <=? JS.Fin (- c))%js = false.
Proof.
  intros Hc. unfold JS.geb. destruct r as [q| | |]; cbn; try discriminate.
  intros H. qbool. apply Qabs_Qlt_condition in H.
  split; apply Qle_bool_gt; lra.
Qed.




Lemma slice_last_suffix {A : Type} (n : nat) (a : list A) :
  exists older, a = (older ++ slice_last n a)%list.
Proof.
  exists (firstn (List.length a - n) a). unfold slice_last.
  symmetry. apply firstn_skipn.
Qed.



Example rising_rate :
  Spec.trendRate (Sample.reading 145 0) (Sample.reading 165 (3 * Sample.hour))
  = JS.Fin (20 # 3).
Proof. reflexivity. Qed.

Example falling_trend :
  exists r,
    analyzeTemperature Sample.PROTEIN_PROFILES 160 203 "beef_brisket"
      (Some smoke_low_slow) None
      (Some [Sample.reading 170 0; Sample.reading 160 Sample.hour]) = Ok r
    /\ TemperatureAnalysis.trend r = falling
    /\ TemperatureAnalysis.trendRatePerHour r = JS.Fin (-10)
    /\ TemperatureAnalysis.estimatedMinutesRemaining r = None
    /\ TemperatureAnalysis.recommendations r
       = [[Lit "⚠️ Temperature is dropping - check your heat source!"];
          [Lit "🔥 You may need to add more fuel or adjust airflow."]].
Proof. eexists. split; [vm_compute; reflexivity|]. repeat split. Qed.

Example stalled_inside_the_range_stable_outside :
  field TemperatureAnalysis.trend
    (analyzeTemperature Sample.PROTEIN_PROFILES 156 203 "beef_brisket" None
       None (Some [Sample.reading 155 0; Sample.reading 156 Sample.hour]))
  = Ok stalled
  /\ field TemperatureAnalysis.trend
       (analyzeTemperature Sample.PROTEIN_PROFILES 126 130 "beef_prime_rib"
          None None
          (Some [Sample.reading 125 0; Sample.reading 126 Sample.hour]))
     = Ok stable.
Proof. split; reflexivity. Qed.

Example trend_window_is_the_last_five :
  slice_last 5
    [Sample.reading 100 0; Sample.reading 150 1; Sample.reading 151 2;
     Sample.reading 152 3; Sample.reading 153 4; Sample.reading 154 5]
  = [Sample.reading 150 1; Sample.reading 151 2; Sample.reading 152 3;
     Sample.reading 153 4; Sample.reading 154 5].
Proof. reflexivity. Qed.

Example duplicate_timestamps_are_stable :
  exists r,
    analyzeTemperature Sample.PROTEIN_PROFILES 165 203 "beef_brisket" None
      None (Some [Sample.reading 150 1000; Sample.reading 165 1000]) = Ok r
    /\ TemperatureAnalysis.trend r = stable
    /\ TemperatureAnalysis.trendRatePerHour r = 0.
Proof. eexists. split; [vm_compute; reflexivity|]. split; reflexivity. Qed.

(** *** Stall detection *)

(** The rate of [detectStall] is the rate of the description when the window
    spans a positive time, and 0 otherwise. *)
Lemma tempRatePerHour_guarded (first last : TemperatureReading) :
  tempRatePerHour first last
  = if (Spec.minutesBetween first last >? 0)%js
    then Spec.stallRate first last else 0.
Proof. reflexivity. Qed.

Lemma detectStall_in_zone (kb : string -> option ProteinProfile) (now : Z)
    (id : string) (p : ProteinProfile) (range : StallRange)
    (currentTemp : JS.number) (readings : list TemperatureReading)
    (first last : TemperatureReading) :
  kb id = Some p ->
  stallRange p = Some range ->
  within range currentTemp = true ->
  (3 <= List.length readings)%nat ->
  nth_error (slice_last 6 readings) 0 = Some first ->
  last_elem (slice_last 6 readings) = Some last ->
  exists r,
    detectStall kb now id currentTemp readings = Ok r
    /\ StallResult.isStalled r = (tempRatePerHour first last <? 3)%js
    /\ StallResult.inStallZone r = true.
Proof.
  intros Hid Hrange Hin Hlen Hfirst Hlast.
  unfold detectStall, getProteinProfile. rewrite Hid. cbn [deref bind].
  rewrite Hrange, Hin. cbn [negb].
  replace (List.length (slice_last 6 readings) <? 3)%nat with false
    by (symmetry; apply Nat.ltb_ge; rewrite slice_last_length; lia).
  rewrite Hfirst, Hlast. cbn [deref bind].
  eexists. split; [reflexivity|]. split; reflexivity.
Qed.

(** C6 (as amended).  Without a stall range in the profile, and with a
    current temperature strictly below or strictly above the range,
    [detectStall] reports no stall and a zero duration.  With the current
    temperature within the range, bounds included, and at least three
    readings, it returns [isStalled = rate < 3], computed on the window of the
    last six readings at most, where [rate] is [(dtemp / dminutes) * 60] from
    the window's first to its last reading when the minutes between them are
    positive, and 0 when they are not. *)
Theorem stall_confirmation :
  forall (kb : string -> option ProteinProfile) (now : Z) (id : string)
         (p : ProteinProfile) (currentTemp : JS.number)
         (readings : list TemperatureReading),
    kb id = Some p ->
    (stallRange p = None ->
     exists r,
       detectStall kb now id currentTemp readings = Ok r
       /\ StallResult.isStalled r = false
       /\ StallResult.stallDurationMinutes r = 0)
    /\ (forall range,
           stallRange p = Some range ->
           ((currentTemp <? start range)%js = true
            \/ (currentTemp >? end_ range)%js = true ->
            exists r,
              detectStall kb now id currentTemp readings = Ok r
              /\ StallResult.isStalled r = false
              /\ StallResult.stallDurationMinutes r = 0)
           /\ (within range currentTemp = true ->
               (3 <= List.length readings)%nat ->
               exists first last r,
                 let window := slice_last 6 readings in
                 let rate :=
                   if (Spec.minutesBetween first last >? 0)%js
                   then Spec.stallRate first last else 0 in
                 (List.length window <= 6)%nat
                 /\ (exists older, readings = (older ++ window)%list)
                 /\ nth_error window 0 = Some first
                 /\ last_elem window = Some last
                 /\ detectStall kb now id currentTemp readings = Ok r
                 /\ StallResult.isStalled r = (rate <? 3)%js)).
Proof.
  intros kb now id p cur rs Hid. split; [|intros range Hrange; split].
  - intros Hnone. unfold detectStall, getProteinProfile.
    rewrite Hid. cbn [deref bind]. rewrite Hnone.
    eexists. split; [reflexivity|]. split; reflexivity.
  - intros Hout.
    assert (Hwithin : within range cur = false).
    { unfold within, JS.geb, JS.gtb in *.
      destruct Hout as [H|H].
      - destruct cur, (start range); cbn in *; try discriminate;
          try reflexivity.
        qbool. replace (Qle_bool q0 q) with false; [reflexivity|].
        symmetry. apply Qle_bool_gt. exact H.
      - apply andb_false_iff. right.
        destruct cur, (end_ range); cbn in *; try discriminate;
          try reflexivity.
        qbool. apply Qle_bool_gt. exact H. }
    unfold detectStall, getProteinProfile.
    rewrite Hid. cbn [deref bind]. rewrite Hrange, Hwithin. cbn [negb].
    destruct (cur <? start range)%js; eexists;
      (split; [reflexivity|]); split; reflexivity.
  - intros Hin Hlen.
    destruct (slice_last_first 6 rs) as [first Hfirst]; [lia|lia|].
    destruct (slice_last_last 6 rs) as [last Hlast]; [lia|lia|].
    destruct (detectStall_in_zone kb now id p range cur rs first last
                Hid Hrange Hin Hlen Hfirst Hlast) as [r [Hr [Hstalled _]]].
    exists first, last, r. cbv zeta.
    split; [rewrite slice_last_length; lia|].
    split; [apply slice_last_suffix|].
    split; [exact Hfirst|]. split; [exact Hlast|]. split; [exact Hr|].
    rewrite Hstalled, tempRatePerHour_guarded. reflexivity.
Qed.

Lemma stall_confirmation_witness :
  (stallRange Sample.brisket = None ->
   exists r,
     detectStall Sample.PROTEIN_PROFILES (3 * Sample.hour) "beef_brisket" 157
       Sample.stall_readings = Ok r
     /\ StallResult.isStalled r = false
     /\ StallResult.stallDurationMinutes r = 0)
  /\ (forall range,
         stallRange Sample.brisket = Some range ->
         ((157 <? start range)%js = true \/ (157 >? end_ range)%js = true ->
          exists r,
            detectStall Sample.PROTEIN_PROFILES (3 * Sample.hour)
              "beef_brisket" 157 Sample.stall_readings = Ok r
            /\ StallResult.isStalled r = false
            /\ StallResult.stallDurationMinutes r = 0)
         /\ (within range 157 = true ->
             (3 <= List.length Sample.stall_readings)%nat ->
             exists first last r,
               let window := slice_last 6 Sample.stall_readings in
               let rate :=
                 if (Spec.minutesBetween first last >? 0)%js
                 then Spec.stallRate first last else 0 in
               (List.length window <= 6)%nat
               /\ (exists older,
                      Sample.stall_readings = (older ++ window)%list)
               /\ nth_error window 0 = Some first
               /\ last_elem window = Some last
               /\ detectStall Sample.PROTEIN_PROFILES (3 * Sample.hour)
                    "beef_brisket" 157 Sample.stall_readings = Ok r
               /\ StallResult.isStalled r = (rate <? 3)%js)).
Proof.
  apply (stall_confirmation Sample.PROTEIN_PROFILES (3 * Sample.hour)
           "beef_brisket" Sample.brisket 157 Sample.stall_readings).
  reflexivity.
Defined.

Example slow_rise_is_a_stall :
  Spec.stallRate (Sample.reading 155 0) (Sample.reading 157 (3 * Sample.hour))
  = JS.Fin (2 # 3)
  /\ field StallResult.isStalled
       (detectStall Sample.PROTEIN_PROFILES (3 * Sample.hour) "beef_brisket"
          157 Sample.stall_readings)
     = Ok true.
Proof. split; reflexivity. Qed.

Example steady_rise_is_not_a_stall :
  Spec.stallRate (Sample.reading 145 0) (Sample.reading 165 (3 * Sample.hour))
  = JS.Fin (20 # 3)
  /\ field StallResult.isStalled
       (detectStall Sample.PROTEIN_PROFILES (3 * Sample.hour) "beef_brisket"
          165 Sample.rising_readings)
     = Ok false.
Proof. split; reflexivity. Qed.

(** The stall is dated from the oldest reading of the run of readings inside
    the range that ends at the newest one. *)
Example stall_duration_stops_at_a_reading_outside_the_range :
  field StallResult.stallDurationMinutes
    (detectStall Sample.PROTEIN_PROFILES (3 * Sample.hour) "beef_brisket" 157
       [Sample.reading 149 0; Sample.reading 155 Sample.hour;
        Sample.reading 156 (2 * Sample.hour);
        Sample.reading 157 (3 * Sample.hour)])
  = Ok (JS.Fin 120).
Proof. reflexivity. Qed.

Example two_readings_cannot_confirm_a_stall :
  exists r,
    detectStall Sample.PROTEIN_PROFILES Sample.hour "beef_brisket" 157
      [Sample.reading 156 0; Sample.reading 157 Sample.hour] = Ok r
    /\ StallResult.isStalled r = false
    /\ StallResult.inStallZone r = true.
Proof. eexists. split; [vm_compute; reflexivity|]. split; reflexivity. Qed.

Example stall_zone_bounds_are_inclusive :
  within {| start := 150; end_ := 175 |} 150 = true
  /\ within {| start := 150; end_ := 175 |} 175 = true
  /\ within {| start := 150; end_ := 175 |} (JS.Fin (1499 # 10)) = false
  /\ within {| start := 150; end_ := 175 |} (JS.Fin (1751 # 10)) = false.
Proof. repeat split. Qed.

(** C6 as stated fails.  On readings whose timestamps run backwards the rate
    [(dtemp / dminutes) * 60] is [(150 - 160) / (-120) * 60 = 5], not below 3,
    and on readings sharing one timestamp it is [5 / 0 * 60 = Infinity]; in
    both cases [detectStall] reports a stall. *)
Lemma stall_reported_without_positive_time_span :
  (nth_error (slice_last 6 Sample.unordered_readings) 0
   = Some (Sample.reading 160 (2 * Sample.hour))
   /\ last_elem (slice_last 6 Sample.unordered_readings)
      = Some (Sample.reading 150 0)
   /\ Spec.stallRate (Sample.reading 160 (2 * Sample.hour))
        (Sample.reading 150 0) = 5
   /\ (Spec.stallRate (Sample.reading 160 (2 * Sample.hour))
         (Sample.reading 150 0) <? 3)%js = false
   /\ field StallResult.isStalled
        (detectStall Sample.PROTEIN_PROFILES (2 * Sample.hour) "beef_brisket"
           160 Sample.unordered_readings)
      = Ok true)
  /\ (nth_error (slice_last 6 Sample.simultaneous_readings) 0
      = Some (Sample.reading 155 0)
      /\ last_elem (slice_last 6 Sample.simultaneous_readings)
         = Some (Sample.reading 160 0)
      /\ Spec.stallRate (Sample.reading 155 0) (Sample.reading 160 0)
         = JS.PInf
      /\ (Spec.stallRate (Sample.reading 155 0) (Sample.reading 160 0) <? 3)%js
         = false
      /\ field StallResult.isStalled
           (detectStall Sample.PROTEIN_PROFILES 0 "beef_brisket" 160
              Sample.simultaneous_readings)
         = Ok true).
Proof. split; repeat split. Qed.

(** C10.  With the current temperature within the stall range, bounds
    included, at least three readings, and a window of the last six readings
    whose first and last timestamps are not a positive time apart, the rate of
    [detectStall] defaults to 0 and the verdict is a stall: [isStalled = true]
    with [inStallZone = true]. *)
Theorem zero_rate_default_is_a_stall :
  forall (kb : string -> option ProteinProfile) (now : Z) (id : string)
         (p : ProteinProfile) (range : StallRange) (currentTemp : JS.number)
         (readings : list TemperatureReading)
         (first last : TemperatureReading),
    kb id = Some p ->
    stallRange p = Some range ->
    within range currentTemp = true ->
    (3 <= List.length readings)%nat ->
    nth_error (slice_last 6 readings) 0 = Some first ->
    last_elem (slice_last 6 readings) = Some last ->
    (Spec.minutesBetween first last <=? 0)%js = true ->
    tempRatePerHour first last = 0
    /\ exists r,
        detectStall kb now id currentTemp readings = Ok r
        /\ StallResult.isStalled r = true
        /\ StallResult.inStallZone r = true.
Proof.
  intros kb now id p range cur rs first last
         Hid Hrange Hin Hlen Hfirst Hlast Hspan.
  assert (Hrate : tempRatePerHour first last = 0).
  { rewrite tempRatePerHour_guarded, (leb_not_gtb _ _ Hspan). reflexivity. }
  split; [exact Hrate|].
  destruct (detectStall_in_zone kb now id p range cur rs first last
              Hid Hrange Hin Hlen Hfirst Hlast) as [r [Hr [Hstalled Hzone]]].
  exists r. split; [exact Hr|]. split; [|exact Hzone].
  rewrite Hstalled, Hrate. reflexivity.
Qed.

Lemma zero_rate_default_is_a_stall_witness :
  tempRatePerHour (Sample.reading 155 0) (Sample.reading 160 0) = 0
  /\ exists r,
      detectStall Sample.PROTEIN_PROFILES 0 "beef_brisket" 160
        Sample.simultaneous_readings = Ok r
      /\ StallResult.isStalled r = true
      /\ StallResult.inStallZone r = true.
Proof.
  apply (zero_rate_default_is_a_stall Sample.PROTEIN_PROFILES 0 "beef_brisket"
           Sample.brisket {| start := 150; end_ := 175 |} 160
           Sample.simultaneous_readings (Sample.reading 155 0)
           (Sample.reading 160 0));
    first [reflexivity | simpl; lia].
Defined.

(** *** Percent complete *)

(** [Math.min(hi, Math.max(lo, x))] is the same clamp. *)
Lemma min_max_clamp (lo hi : Q) (x : JS.number) :
  lo < hi ->
  JS.min hi (JS.max lo x) = Spec.clamp lo hi x.
Proof.
  intros Hlohi. unfold Spec.clamp, JS.max, JS.min, JS.geb.
  destruct x as [q| | |]; cbn; try reflexivity;
    qcases; cbn; qcases; qbool; try reflexivity; exfalso; lra.
Qed.

Lemma Qfloor_unique (y : Q) (v : Z) :
  inject_Z v <= y -> y < inject_Z (v + 1) -> Qfloor y = v.
Proof.
  intros Hlo Hhi.
  pose proof (Qfloor_resp_le _ _ Hlo) as H1. rewrite Qfloor_Z in H1.
  pose proof (Qfloor_le y) as H2.
  assert (H3 : inject_Z (Qfloor y) < inject_Z (v + 1)) by lra.
  rewrite <- Zlt_Qlt in H3. lia.
Qed.

Lemma clamp_0_100_bounds (x : JS.number) :
  x <> JS.NaN ->
  exists q, JS.min 100 (JS.max 0 x) = JS.Fin q /\ 0 <= q <= 100.
Proof.
  intros Hx. destruct x as [q| | |]; [| | |congruence].
  - unfold JS.max, JS.min. cbn [JS.is_nan orb JS.ltb].
    destruct (JS.Qltb 0 q) eqn:E0; cbn [JS.is_nan orb JS.ltb].
    + destruct (JS.Qltb q 100) eqn:E1; qbool; eexists; split;
        try reflexivity; lra.
    + exists 0. split; [reflexivity|lra].
  - exists 100. split; [reflexivity|lra].
  - exists 0. split; [reflexivity|lra].
Qed.

Lemma oneDecimal_bounds (q : Q) :
  0 <= q <= 100 ->
  exists q', Spec.oneDecimal (JS.Fin q) = JS.Fin q' /\ 0 <= q' <= 100.
Proof.
  intros [Hlo Hhi]. unfold Spec.oneDecimal.
  cbn [JS.mul JS.round JS.ofZ JS.div].
  change (Qeq_bool 10 0) with false. cbv iota.
  eexists. split; [reflexivity|].
  rewrite !Qred_correct.
  set (k := Qfloor (q * 10 + (1 # 2))).
  assert (Hk : (0 <= k <= 1000)%Z).
  { subst k. split.
    - change 0%Z with (Qfloor 0). apply Qfloor_resp_le. lra.
    - change 1000%Z with (Qfloor (1000 + (1 # 2))). apply Qfloor_resp_le.
      lra. }
  clearbody k. destruct Hk as [Hk0 Hk1].
  rewrite Zle_Qle in Hk0, Hk1.
  change (inject_Z 0) with 0 in Hk0. change (inject_Z 1000) with 1000 in Hk1.
  split; [apply Qle_shift_div_l|apply Qle_shift_div_r]; lra.
Qed.


(** Where the inputs are finite and not both equal to 40, the reported
    percentage is the clamp of the description, to one decimal place, and it
    lies between 0 and 100. *)
Lemma trendOf_defined (p : ProteinProfile) (currentTemp : JS.number)
    (readings : option (list TemperatureReading)) :
  exists tr, trendOf (Some p) currentTemp readings = Ok tr.
Proof.
  unfold trendOf. destruct readings as [rs|]; [|eauto].
  destruct (2 <=? List.length rs)%nat eqn:Hlen; [|eauto].
  apply Nat.leb_le in Hlen.
  destruct (slice_last_last 5 rs) as [l Hl]; [lia|lia|].
  destruct (slice_last_first 5 rs) as [f Hf]; [lia|lia|].
  rewrite Hl, Hf. cbn [deref bind].
  repeat match goal with
         | |- context [if ?b then _ else _] => destruct b
         end; cbn [deref bind]; eauto.
Qed.

(** Where the inputs are finite and not both equal to 40, the reported
    percentage is the clamp of the description, to one decimal place, and it
    lies between 0 and 100. *)
Lemma percentComplete_bounded (kb : string -> option ProteinProfile)
    (id : string) (p : ProteinProfile) (current target : Q)
    (method : option CookMethod) (started : option Date.t)
    (readings : option (list TemperatureReading)) :
  kb id = Some p ->
  ~ (current == 40 /\ target == 40) ->
  exists r q,
    analyzeTemperature kb current target id method started readings = Ok r
    /\ TemperatureAnalysis.percentComplete r
       = Spec.oneDecimal (Spec.percentComplete current target)
    /\ TemperatureAnalysis.percentComplete r = JS.Fin q
    /\ 0 <= q <= 100.
Proof.
  intros Hid Hnot.
  unfold analyzeTemperature, getProteinProfile. rewrite Hid.
  destruct (trendOf_defined p current readings) as [tr ->].
  cbn [deref bind].
  set (raw := ((JS.Fin current - 40) / (JS.Fin target - 40) * 100)%js).
  assert (Hraw : raw <> JS.NaN).
  { subst raw. cbn [JS.sub JS.neg JS.add JS.div].
    destruct (Qeq_bool (Qred (target + - (40))) 0) eqn:Et.
    - unfold JS.inf_signed.
      destruct (Qeq_bool (Qred (current + - (40))) 0) eqn:Ec.
      + exfalso. apply Hnot. qbool. rewrite Qred_correct in Et, Ec.
        split; lra.
      + destruct (Bool.eqb true _); cbn; discriminate.
    - cbn. discriminate. }
  destruct (clamp_0_100_bounds raw Hraw) as [c [Hc Hbounds]].
  destruct (oneDecimal_bounds c Hbounds) as [q [Hq Hqb]].
  eexists. exists q. split; [reflexivity|].
  cbn [TemperatureAnalysis.percentComplete].
  unfold Spec.percentComplete. fold raw.
  rewrite <- (min_max_clamp 0 100 raw) by reflexivity.
  split; [reflexivity|]. rewrite Hc. split; [exact Hq|exact Hqb].
Qed.

Example percent_complete_saturates :
  field TemperatureAnalysis.percentComplete
    (analyzeTemperature Sample.PROTEIN_PROFILES 50 40 "beef_brisket" None
       None None) = Ok (JS.Fin 100)
  /\ field TemperatureAnalysis.percentComplete
       (analyzeTemperature Sample.PROTEIN_PROFILES 30 40 "beef_brisket" None
          None None) = Ok (JS.Fin 0)
  /\ field TemperatureAnalysis.percentComplete
       (analyzeTemperature Sample.PROTEIN_PROFILES 210 203 "beef_brisket" None
          None None) = Ok (JS.Fin 100).
Proof. repeat split. Qed.

(** C7.  At [currentTemp = targetTemp = 40] the quotient
    [(currentTemp - 40) / (targetTemp - 40)] is [0 / 0]: the clamp lets [NaN]
    through and the reported percentage is [NaN], which is not between 0 and
    100; the binary64 computation gives [NaN] as well. *)
Theorem percent_complete_NaN_at_starting_temperature :
  field TemperatureAnalysis.percentComplete
    (analyzeTemperature Sample.PROTEIN_PROFILES 40 40 "beef_brisket" None
       None None)
  = Ok JS.NaN
  /\ (0 <=? JS.NaN)%js = false
  /\ (JS.NaN <=? 100)%js = false
  /\ Binary64.isNaN (Binary64.percentComplete 40 40) = true.
Proof. repeat split. Qed.

(** *** Temperature conversion *)

Lemma div_by_nonzero (a b : Q) :
  Qeq_bool b 0 = false -> (JS.Fin a / JS.Fin b)%js = JS.Fin (Qred (a / b)).
Proof. intros H. unfold JS.div. rewrite H. reflexivity. Qed.

Lemma round_fin_eq (a b : Q) :
  a + (1 # 2) == b -> JS.round (JS.Fin a) = JS.ofZ (Qfloor b).
Proof. intros H. unfold JS.round. rewrite H. reflexivity. Qed.

Lemma fahrenheit_to_celsius (q : Q) :
  convertTemperature (JS.Fin q) fahrenheit celsius
  = JS.Fin (Qred (inject_Z (Qfloor ((q - 32) * 5 / 9 * 10 + (1 # 2))) / 10)).
Proof.
  unfold convertTemperature. cbn [TemperatureUnit_eqb].
  cbn [JS.sub JS.neg JS.add JS.mul].
  rewrite (div_by_nonzero _ 9) by reflexivity. cbn [JS.mul].
  rewrite (round_fin_eq _ ((q - 32) * 5 / 9 * 10 + (1 # 2)))
    by (rewrite !Qred_correct; reflexivity).
  unfold JS.ofZ. rewrite (div_by_nonzero _ 10) by reflexivity. reflexivity.
Qed.

Lemma celsius_to_fahrenheit (q : Q) :
  convertTemperature (JS.Fin q) celsius fahrenheit
  = JS.ofZ (Qfloor (q * 9 / 5 + 32 + (1 # 2))).
Proof.
  unfold convertTemperature. cbn [TemperatureUnit_eqb JS.mul].
  rewrite (div_by_nonzero _ 5) by reflexivity. cbn [JS.add].
  apply round_fin_eq. rewrite !Qred_correct. reflexivity.
Qed.

(** Fahrenheit to Celsius and back returns every integer. *)
Lemma round_trip_exact (v : Z) :
  convertTemperature (convertTemperature (JS.ofZ v) fahrenheit celsius)
    celsius fahrenheit
  = JS.ofZ v.
Proof.
  unfold JS.ofZ at 1. rewrite fahrenheit_to_celsius, celsius_to_fahrenheit.
  unfold JS.ofZ. do 2 f_equal.
  set (k := Qfloor ((inject_Z v - 32) * 5 / 9 * 10 + (1 # 2))).
  pose proof (Qfloor_le ((inject_Z v - 32) * 5 / 9 * 10 + (1 # 2))) as Hlo.
  pose proof (Qlt_floor ((inject_Z v - 32) * 5 / 9 * 10 + (1 # 2))) as Hhi.
  fold k in Hlo, Hhi. clearbody k.
  rewrite inject_Z_plus in Hhi. change (inject_Z 1) with 1 in Hhi.
  unfold Qdiv in Hlo, Hhi.
  change (/ 9) with (1 # 9) in Hlo, Hhi.
  apply Qfloor_unique; rewrite ?inject_Z_plus, Qred_correct;
    change (inject_Z 1) with 1; unfold Qdiv;
    change (/ 10) with (1 # 10); change (/ 5) with (1 # 5); lra.
Qed.

Lemma integers_spec (lo : Z) (n : nat) (v : Z) :
  (lo <= v < lo + Z.of_nat n)%Z -> In v (Binary64.integers lo n).
Proof.
  intros Hv. unfold Binary64.integers. apply in_map_iff.
  exists (Z.to_nat (v - lo)). split; [lia|]. apply in_seq. lia.
Qed.

(** In binary64 too, the round trip from Fahrenheit to Celsius and back
    returns every integer from -40 to 500, and the tenths of a degree Celsius
    are those of the rational model. *)
Lemma binary64_round_trip (v : Z) :
  (-40 <= v <= 500)%Z -> Binary64.agrees_at v = true.
Proof.
  intros Hv.
  assert (Hall : forallb Binary64.agrees_at (Binary64.integers (-40) 541)
                 = true) by (vm_compute; reflexivity).
  rewrite forallb_forall in Hall. apply Hall. apply integers_spec. lia.
Qed.

(** C9.  [convertTemperature] is the identity when the units are equal;
    Fahrenheit to Celsius is [((v - 32) * 5 / 9)] rounded to one decimal
    place, a whole number of tenths; Celsius to Fahrenheit is
    [v * 9 / 5 + 32] rounded to an integer; and for every integer [v] from
    -40 to 500 the round trip from Fahrenheit to Celsius and back is an
    integer within 1 of [v]; in binary64 arithmetic the round trip returns
    [v] itself. *)
Theorem conversion_round_trip :
  forall (x : JS.number) (q : Q) (v : Z),
    (-40 <= v <= 500)%Z ->
    (forall unit, convertTemperature x unit unit = x)
    /\ convertTemperature x fahrenheit celsius
       = Spec.oneDecimal ((x - 32) * 5 / 9)%js
    /\ (exists tenths : Z,
           convertTemperature (JS.Fin q) fahrenheit celsius
           = JS.Fin (Qred (inject_Z tenths / 10)))
    /\ convertTemperature x celsius fahrenheit = JS.round (x * 9 / 5 + 32)%js
    /\ (exists n : Z,
           convertTemperature (JS.Fin q) celsius fahrenheit = JS.ofZ n)
    /\ (exists w : Z,
           convertTemperature
             (convertTemperature (JS.ofZ v) fahrenheit celsius)
             celsius fahrenheit
           = JS.ofZ w
           /\ (Z.abs (w - v) <= 1)%Z)
    /\ Binary64.agrees_at v = true.
Proof.
  intros x q v Hv. repeat split.
  - intros []; reflexivity.
  - rewrite fahrenheit_to_celsius. eexists. reflexivity.
  - rewrite celsius_to_fahrenheit. eexists. reflexivity.
  - exists v. split; [apply round_trip_exact|lia].
  - apply binary64_round_trip. exact Hv.
Qed.

Lemma conversion_round_trip_witness :
  (forall unit, convertTemperature 203 unit unit = 203)
  /\ convertTemperature 203 fahrenheit celsius
     = Spec.oneDecimal ((203 - 32) * 5 / 9)%js
  /\ (exists tenths : Z,
         convertTemperature (JS.Fin 203) fahrenheit celsius
         = JS.Fin (Qred (inject_Z tenths / 10)))
  /\ convertTemperature 203 celsius fahrenheit = JS.round (203 * 9 / 5 + 32)%js
  /\ (exists n : Z,
         convertTemperature (JS.Fin 203) celsius fahrenheit = JS.ofZ n)
  /\ (exists w : Z,
         convertTemperature
           (convertTemperature (JS.ofZ 203) fahrenheit celsius)
           celsius fahrenheit
         = JS.ofZ w
         /\ (Z.abs (w - 203) <= 1)%Z)
  /\ Binary64.agrees_at 203 = true.
Proof. apply (conversion_round_trip 203 203 203). lia. Defined.

Example brisket_target_in_celsius :
  convertTemperature 203 fahrenheit celsius = 95
  /\ convertTemperature 95 celsius fahrenheit = 203
  /\ convertTemperature 145 fahrenheit celsius = JS.Fin (314 # 5).
Proof. repeat split. Qed.

(** The two roundings differ: from Celsius to Fahrenheit and back, a tenth of
    a degree can be lost. *)
Example celsius_round_trip_is_lossy :
  convertTemperature 20.3 celsius fahrenheit = 69
  /\ convertTemperature 69 fahrenheit celsius = JS.Fin (103 # 5).
Proof. split; reflexivity. Qed.

Example binary64_rounding :
  Binary64.round 2.5 = 3%float
  /\ Binary64.round (-2.5) = (-2)%float
  /\ Binary64.round 0x1.fffffffffffffp-2 = 0%float
  /\ Binary64.floor (-0x1p-1) = (-1)%float
  /\ Binary64.convertTemperature 203 fahrenheit celsius = 95%float.
Proof. repeat split. Qed.

(** ** Further properties of the engine *)

(** *** Arithmetic on finite numbers *)

Lemma Qfloor_sub_Z (x : Q) (n : Z) :
  Qfloor (x - inject_Z n) = (Qfloor x - n)%Z.
Proof.
  apply Qfloor_unique.
  - unfold Zminus. rewrite inject_Z_plus, inject_Z_opp.
    pose proof (Qfloor_le x). lra.
  - replace (Qfloor x - n + 1)%Z with ((Qfloor x + 1) - n)%Z by lia.
    unfold Zminus. rewrite inject_Z_plus, inject_Z_opp.
    pose proof (Qlt_floor x). lra.
Qed.

Lemma Qtrunc_nonneg (x : Q) : 0 <= x -> JS.Qtrunc x = Qfloor x.
Proof.
  intros H. unfold JS.Qtrunc.
  replace (JS.Qltb x 0) with false; [reflexivity|].
  symmetry. apply Qltb_ge. exact H.
Qed.



Lemma Qfloor_nonneg (x : Q) : 0 <= x -> (0 <= Qfloor x)%Z.
Proof.
  intros H. change 0%Z with (Qfloor 0). apply Qfloor_resp_le. exact H.
Qed.

(** The hours and minutes shown for a non-negative total, and the total
    rounded to whole minutes. *)
Lemma hours_minutes_of_total (t : Q) :
  0 <= t ->
  exists h m z : Z,
    JS.floor (JS.Fin t / 60)%js = JS.ofZ h
    /\ JS.round (JS.rem (JS.Fin t) 60) = JS.ofZ m
    /\ JS.round (JS.Fin t) = JS.ofZ z
    /\ (0 <= h)%Z /\ (0 <= m <= 60)%Z /\ (60 * h + m = z)%Z.
Proof.
  intros Ht.
  assert (Hd : t == 60 * (t / 60)) by (field; discriminate).
  assert (Ht60 : 0 <= t / 60) by (apply Qle_shift_div_l; lra).
  exists (Qfloor (t / 60)), (Qfloor (t + (1 # 2)) - 60 * Qfloor (t / 60))%Z,
         (Qfloor (t + (1 # 2))).
  pose proof (Qfloor_le (t / 60)) as Hlo.
  pose proof (Qlt_floor (t / 60)) as Hhi.
  rewrite inject_Z_plus in Hhi. change (inject_Z 1) with 1 in Hhi.
  assert (Hlo' : 60 * inject_Z (Qfloor (t / 60)) <= t) by lra.
  assert (Hhi' : t < 60 * (inject_Z (Qfloor (t / 60)) + 1)) by lra.
  repeat split.
  - rewrite (div_by_nonzero t 60) by reflexivity. unfold JS.floor.
    rewrite Qred_correct. reflexivity.
  - unfold JS.rem. change (Qeq_bool 60 0) with false. cbv iota.
    rewrite <- Qfloor_sub_Z. apply round_fin_eq. rewrite Qred_correct.
    rewrite Qtrunc_nonneg by exact Ht60.
    rewrite inject_Z_mult. change (inject_Z 60) with 60. ring.
  - apply Qfloor_nonneg. exact Ht60.
  - assert (H : (60 * Qfloor (t / 60) <= Qfloor (t + (1 # 2)))%Z).
    { rewrite <- (Qfloor_Z (60 * Qfloor (t / 60))).
      apply Qfloor_resp_le. rewrite inject_Z_mult.
      change (inject_Z 60) with 60. clear - Hlo'.
      set (f := inject_Z _) in *. clearbody f. lra. }
    lia.
  - assert (H : (Qfloor (t + (1 # 2)) < 60 * Qfloor (t / 60) + 61)%Z).
    { rewrite Zlt_Qlt, inject_Z_plus, inject_Z_mult.
      change (inject_Z 60) with 60. change (inject_Z 61) with 61.
      pose proof (Qfloor_le (t + (1 # 2))) as Hfl. clear - Hhi' Hfl.
      set (f := inject_Z (Qfloor (t / 60))) in *.
      set (g := inject_Z (Qfloor (t + (1 # 2)))) in *. clearbody f g. lra. }
    lia.
  - lia.
Qed.

Lemma Qltb_inject_Z (a b : Z) :
  JS.Qltb (inject_Z a) (inject_Z b) = (a <? b)%Z.
Proof.
  destruct (a <? b)%Z eqn:E.
  - apply Qltb_lt. rewrite <- Zlt_Qlt. apply Z.ltb_lt. exact E.
  - apply Qltb_ge. rewrite <- Zle_Qle. apply Z.ltb_ge. exact E.
Qed.







(** *** The smoker-temperature multiplier *)

Lemma clamp_cases (lo hi x : Q) :
  lo < hi ->
  exists q,
    Spec.clamp lo hi (JS.Fin x) = JS.Fin q
    /\ ((x <= lo /\ q == lo) \/ (hi <= x /\ q == hi)
        \/ (lo <= x <= hi /\ q == x)).
Proof.
  intros Hlohi. unfold Spec.clamp, JS.geb. cbn.
  destruct (Qle_bool x lo) eqn:E1; [|destruct (Qle_bool hi x) eqn:E2];
    qbool; eexists; (split; [reflexivity|]).
  - left. split; [exact E1|reflexivity].
  - right. left. split; [exact E2|reflexivity].
  - right. right. split; [lra|reflexivity].
Qed.

(** The multiplier for a finite, non-zero smoker temperature, as a clamp of
    [1 - (s - b) / 250] for the method's baseline [b]. *)
Lemma adjustment_of_finite (method : CookMethod) :
  exists b : Q,
    forall s : Q,
      ~ s == 0 ->
      exists q,
        tempAdjustment method (Some (JS.Fin s)) = JS.Fin q
        /\ ((1 - (s - b) / 250 <= (1 # 2) /\ q == (1 # 2))
            \/ ((3 # 2) <= 1 - (s - b) / 250 /\ q == (3 # 2))
            \/ ((1 # 2) <= 1 - (s - b) / 250 <= (3 # 2)
                /\ q == 1 - (s - b) / 250)).
Proof.
  exists (match method with smoke_hot_fast => 300 | _ => 225 end).
  intros s Hs.
  assert (Hadj : tempAdjustment method (Some (JS.Fin s))
                 = Spec.clamp (1 # 2) (3 # 2)
                     (JS.Fin (Qred (1 + - Qred (Qred
                        (s + - match method with
                               | smoke_hot_fast => 300
                               | _ => 225
                               end) / 250))))).
  { unfold tempAdjustment. cbn [JS.truthy].
    replace (Qeq_bool s 0) with false
      by (symmetry; apply Qeq_bool_false; exact Hs).
    cbn [negb]. rewrite max_min_clamp by reflexivity.
    destruct method; reflexivity. }
  destruct (clamp_cases (1 # 2) (3 # 2)
              (Qred (1 + - Qred (Qred
                 (s + - match method with
                        | smoke_hot_fast => 300
                        | _ => 225
                        end) / 250))))
    as [q [Hq Hcases]]; [reflexivity|].
  exists q. rewrite Hadj. split; [exact Hq|].
  rewrite !Qred_correct in Hcases. exact Hcases.
Qed.

(** Whatever the smoker temperature (omitted, zero, [NaN] or infinite
    included), the multiplier is a number between 0.5 and 1.5. *)
Lemma adjustment_range (method : CookMethod) (smoker : option JS.number) :
  exists q,
    tempAdjustment method smoker = JS.Fin q /\ (1 # 2) <= q <= (3 # 2).
Proof.
  destruct smoker as [[s| | |]|].
  - destruct (Qeq_bool s 0) eqn:E.
    + exists 1. unfold tempAdjustment. cbn [JS.truthy]. rewrite E.
      split; [reflexivity|lra].
    + qbool. destruct (adjustment_of_finite method) as [b Hb].
      destruct (Hb s E) as [q [Hq Hcases]]. exists q.
      split; [exact Hq|]. destruct Hcases as [[_ H]|[[_ H]|[H1 H]]]; lra.
  - exists (1 # 2). split; [destruct method; reflexivity|lra].
  - exists (3 # 2). split; [destruct method; reflexivity|lra].
  - exists 1. split; [reflexivity|lra].
  - exists 1. split; [reflexivity|lra].
Qed.

(** *** The estimate and its fields *)

Lemma Qmult_le_compat_l_nonneg (c x y : Q) :
  0 <= c -> x <= y -> c * x <= c * y.
Proof.
  intros Hc Hxy. rewrite (Qmult_comm c x), (Qmult_comm c y).
  apply Qmult_le_compat_r; assumption.
Qed.

(** The fields of an estimate in terms of the running total. *)
Lemma estimateCookTime_fields (kb : string -> option ProteinProfile)
    (info : CookMethod -> MethodInfo) (now : Z) (id : string)
    (p : ProteinProfile) (weight : JS.number) (method : CookMethod)
    (smoker : option JS.number) :
  kb id = Some p ->
  (estimatedTimePerPound p method === 0)%js = false ->
  exists r,
    let total := cookMinutes p method weight smoker in
    let hours := JS.floor (total / 60)%js in
    let minutes := JS.round (JS.rem total 60) in
    estimateCookTime kb info now id weight method smoker = Ok r
    /\ CookTimeEstimate.totalMinutes r = JS.round total
    /\ CookTimeEstimate.hoursAndMinutes r
       = (if (hours >? 0)%js
          then [Num hours; Lit " hour";
                Lit (if (hours >? 1)%js then "s" else EmptyString);
                Lit " "; Num minutes; Lit " minutes"]
          else [Num minutes; Lit " minutes"])
    /\ CookTimeEstimate.estimatedDoneTime r
       = Date.setMinutes (JS.ofZ now) (Date.getMinutes (JS.ofZ now) + total)%js
    /\ CookTimeEstimate.confidence r
       = match stallRange p with
         | Some _ => low
         | None =>
             if (estimatedTimePerPound p method >? 50)%js then medium
             else high
         end.
Proof.
  intros Hid Hrate. unfold estimateCookTime, getProteinProfile, cookMinutes.
  rewrite Hid. cbn [deref bind]. rewrite Hrate.
  destruct (stallRange p); eexists; cbv zeta;
    (split; [reflexivity|]); repeat split.
Qed.

Lemma cookMinutes_finite (p : ProteinProfile) (method : CookMethod)
    (a w : Q) (smoker : option JS.number) :
  estimatedTimePerPound p method = JS.Fin a ->
  exists q t,
    tempAdjustment method smoker = JS.Fin q
    /\ (1 # 2) <= q <= (3 # 2)
    /\ cookMinutes p method (JS.Fin w) smoker = JS.Fin t
    /\ t == a * w * q + (match stallRange p with Some _ => 60 | None => 0 end).
Proof.
  intros Ha. destruct (adjustment_range method smoker) as [q [Hq Hrange]].
  unfold cookMinutes. rewrite Ha, Hq. cbn [JS.mul].
  destruct (stallRange p); cbn [JS.add]; exists q; eexists;
    (split; [reflexivity|]); (split; [exact Hrange|]);
    (split; [reflexivity|]); rewrite !Qred_correct; ring.
Qed.

Lemma cookMinutes_nonneg (p : ProteinProfile) (method : CookMethod)
    (a w : Q) (smoker : option JS.number) :
  estimatedTimePerPound p method = JS.Fin a ->
  0 <= a -> 0 <= w ->
  exists t, cookMinutes p method (JS.Fin w) smoker = JS.Fin t /\ 0 <= t.
Proof.
  intros Ha Ha0 Hw0.
  destruct (cookMinutes_finite p method a w smoker Ha)
    as [q [t [_ [Hq [Ht Heq]]]]].
  exists t. split; [exact Ht|]. rewrite Heq.
  assert (0 <= a * w) by (apply Qmult_le_0_compat; assumption).
  assert (0 <= a * w * q) by (apply Qmult_le_0_compat; lra).
  destruct (stallRange p); lra.
Qed.

(** X1.  For a known protein, a positive minutes-per-pound entry and a
    non-negative weight, the estimate's duration text shows [h] hours (none
    when [h = 0]) and [m] minutes with [0 <= m <= 60], and [60 h + m] is
    exactly the returned [totalMinutes].  (The minutes shown can be 60.) *)
Theorem duration_text_adds_up :
  forall (kb : string -> option ProteinProfile)
         (info : CookMethod -> MethodInfo) (now : Z) (id : string)
         (p : ProteinProfile) (a w : Q) (method : CookMethod)
         (smoker : option JS.number),
    kb id = Some p ->
    estimatedTimePerPound p method = JS.Fin a ->
    0 < a -> 0 <= w ->
    exists (r : CookTimeEstimate.t) (h m : Z),
      estimateCookTime kb info now id (JS.Fin w) method smoker = Ok r
      /\ CookTimeEstimate.hoursAndMinutes r
         = (if (0 <? h)%Z
            then [Num (JS.ofZ h); Lit " hour";
                  Lit (if (1 <? h)%Z then "s" else EmptyString);
                  Lit " "; Num (JS.ofZ m); Lit " minutes"]
            else [Num (JS.ofZ m); Lit " minutes"])
      /\ (0 <= h)%Z /\ (0 <= m <= 60)%Z
      /\ CookTimeEstimate.totalMinutes r = JS.ofZ (60 * h + m).
Proof.
  intros kb info now id p a w method smoker Hid Ha Hpos Hw.
  assert (Hrate : (estimatedTimePerPound p method === 0)%js = false).
  { rewrite Ha. cbn. apply Qeq_bool_false. lra. }
  destruct (estimateCookTime_fields kb info now id p (JS.Fin w) method smoker
              Hid Hrate) as [r [Hr [Htot [Htext _]]]].
  destruct (cookMinutes_nonneg p method a w smoker Ha) as [t [Ht Ht0]];
    [lra|exact Hw|].
  destruct (hours_minutes_of_total t Ht0)
    as [h [m [z [Hh [Hm [Hz [Hh0 [Hm0 Hsum]]]]]]]].
  exists r, h, m. split; [exact Hr|].
  rewrite Htext, Htot, Ht, Hh, Hm, Hz.
  unfold JS.gtb, JS.ofZ. cbn [JS.ltb].
  change 0 with (inject_Z 0). change 1 with (inject_Z 1).
  rewrite !Qltb_inject_Z. subst z. repeat split; lia.
Qed.

Lemma duration_text_adds_up_witness :
  exists (r : CookTimeEstimate.t) (h m : Z),
    estimateCookTime Sample.PROTEIN_PROFILES Sample.COOK_METHOD_INFO 0
      "beef_prime_rib" (JS.Fin (299 # 75)) reverse_sear None = Ok r
    /\ CookTimeEstimate.hoursAndMinutes r
       = (if (0 <? h)%Z
          then [Num (JS.ofZ h); Lit " hour";
                Lit (if (1 <? h)%Z then "s" else EmptyString);
                Lit " "; Num (JS.ofZ m); Lit " minutes"]
          else [Num (JS.ofZ m); Lit " minutes"])
    /\ (0 <= h)%Z /\ (0 <= m <= 60)%Z
    /\ CookTimeEstimate.totalMinutes r = JS.ofZ (60 * h + m).
Proof.
  apply (duration_text_adds_up Sample.PROTEIN_PROFILES Sample.COOK_METHOD_INFO
           0 "beef_prime_rib" Sample.prime_rib 30 (299 # 75) reverse_sear
           None); first [reflexivity | lra].
Defined.

(** A total of 119.6 minutes is shown as one hour and sixty minutes. *)
Example one_hour_sixty_minutes :
  field CookTimeEstimate.hoursAndMinutes
    (estimateCookTime Sample.PROTEIN_PROFILES Sample.COOK_METHOD_INFO 0
       "beef_prime_rib" (JS.Fin (299 # 75)) reverse_sear None)
  = Ok [Num 1; Lit " hour"; Lit EmptyString; Lit " "; Num 60; Lit " minutes"]
  /\ field CookTimeEstimate.totalMinutes
       (estimateCookTime Sample.PROTEIN_PROFILES Sample.COOK_METHOD_INFO 0
          "beef_prime_rib" (JS.Fin (299 # 75)) reverse_sear None)
     = Ok (JS.Fin 120).
Proof. split; reflexivity. Qed.



(** A total of 712.5 minutes is reported as 713 and projected as 712. *)
Example done_time_one_minute_short :
  estimateCookTime Sample.PROTEIN_PROFILES Sample.COOK_METHOD_INFO 1000
    "beef_brisket" (JS.Fin (29 # 2)) smoke_hot_fast None
  = Ok {| CookTimeEstimate.totalMinutes := 713;
          CookTimeEstimate.hoursAndMinutes :=
            [Num 11; Lit " hour"; Lit "s"; Lit " "; Num 53; Lit " minutes"];
          CookTimeEstimate.estimatedDoneTime := JS.ofZ (1000 + 712 * 60000);
          CookTimeEstimate.confidence := low;
          CookTimeEstimate.assumptions :=
            [[Lit "Includes ~1 hour buffer for the stall (150-175°F range)"];
             [Lit "Wrapping can reduce stall time by 30-50%"];
             [Lit "Add "; Num 60; Lit " minutes rest time before serving"]];
          CookTimeEstimate.warnings :=
            [[Lit "Large cuts with stalls are unpredictable - plan for variability"]]
       |}.
Proof. vm_compute. reflexivity. Qed.

(** X3.  Whatever smoker temperature is passed (omitted, zero and non-finite
    values included), the estimate for a known protein with a positive
    minutes-per-pound entry and a non-negative weight lies between the
    estimates obtained with the multipliers 0.5 and 1.5: the smoker
    temperature changes the cooking part by half at most, and never the
    stall buffer. *)
Theorem smoker_effect_is_bounded :
  forall (kb : string -> option ProteinProfile)
         (info : CookMethod -> MethodInfo) (now : Z) (id : string)
         (p : ProteinProfile) (a w : Q) (method : CookMethod)
         (smoker : option JS.number),
    kb id = Some p ->
    estimatedTimePerPound p method = JS.Fin a ->
    0 < a -> 0 <= w ->
    exists (r : CookTimeEstimate.t) (z : Z),
      let buffer := match stallRange p with Some _ => 60 | None => 0 end in
      estimateCookTime kb info now id (JS.Fin w) method smoker = Ok r
      /\ CookTimeEstimate.totalMinutes r = JS.ofZ z
      /\ (Qfloor (a * w * (1 # 2) + buffer + (1 # 2)) <= z)%Z
      /\ (z <= Qfloor (a * w * (3 # 2) + buffer + (1 # 2)))%Z.
Proof.
  intros kb info now id p a w method smoker Hid Ha Hpos Hw.
  assert (Hrate : (estimatedTimePerPound p method === 0)%js = false).
  { rewrite Ha. cbn. apply Qeq_bool_false. lra. }
  destruct (estimateCookTime_fields kb info now id p (JS.Fin w) method smoker
              Hid Hrate) as [r [Hr [Htot _]]].
  destruct (cookMinutes_finite p method a w smoker Ha)
    as [q [t [_ [Hq [Ht Heq]]]]].
  exists r, (Qfloor (t + (1 # 2))). cbv zeta.
  split; [exact Hr|]. rewrite Htot, Ht. split; [reflexivity|].
  assert (Haw : 0 <= a * w) by (apply Qmult_le_0_compat; lra).
  assert (Hlo : a * w * (1 # 2) <= a * w * q).
  { apply Qmult_le_compat_l_nonneg; lra. }
  assert (Hhi : a * w * q <= a * w * (3 # 2)).
  { apply Qmult_le_compat_l_nonneg; lra. }
  split; apply Qfloor_resp_le; rewrite Heq; lra.
Qed.

Lemma smoker_effect_is_bounded_witness :
  exists (r : CookTimeEstimate.t) (z : Z),
    let buffer :=
      match stallRange Sample.brisket with Some _ => 60 | None => 0 end in
    estimateCookTime Sample.PROTEIN_PROFILES Sample.COOK_METHOD_INFO 0
      "beef_brisket" (JS.Fin 10) smoke_low_slow (Some (JS.Fin 1000)) = Ok r
    /\ CookTimeEstimate.totalMinutes r = JS.ofZ z
    /\ (Qfloor (70 * 10 * (1 # 2) + buffer + (1 # 2)) <= z)%Z
    /\ (z <= Qfloor (70 * 10 * (3 # 2) + buffer + (1 # 2)))%Z.
Proof.
  apply (smoker_effect_is_bounded Sample.PROTEIN_PROFILES
           Sample.COOK_METHOD_INFO 0 "beef_brisket" Sample.brisket 70 10
           smoke_low_slow (Some (JS.Fin 1000))); first [reflexivity | lra].
Defined.

Example smoker_extremes :
  field CookTimeEstimate.totalMinutes
    (estimateCookTime Sample.PROTEIN_PROFILES Sample.COOK_METHOD_INFO 0
       "beef_brisket" 10 smoke_low_slow (Some (JS.Fin 1000)))
  = Ok (JS.Fin 410)
  /\ field CookTimeEstimate.totalMinutes
       (estimateCookTime Sample.PROTEIN_PROFILES Sample.COOK_METHOD_INFO 0
          "beef_brisket" 10 smoke_low_slow (Some (JS.Fin (-1000))))
     = Ok (JS.Fin 1110)
  /\ field CookTimeEstimate.totalMinutes
       (estimateCookTime Sample.PROTEIN_PROFILES Sample.COOK_METHOD_INFO 0
          "beef_brisket" 10 smoke_low_slow (Some JS.PInf))
     = Ok (JS.Fin 410).
Proof. repeat split. Qed.

(** X4.  For a known protein, a positive minutes-per-pound entry and a
    non-negative weight, a hotter smoker never lengthens the estimate: of two
    finite, non-zero smoker temperatures the higher one gives a total that is
    at most the total of the lower one. *)
Theorem hotter_smoker_never_lengthens :
  forall (kb : string -> option ProteinProfile)
         (info : CookMethod -> MethodInfo) (now : Z) (id : string)
         (p : ProteinProfile) (a w : Q) (method : CookMethod)
         (cooler hotter : Q),
    kb id = Some p ->
    estimatedTimePerPound p method = JS.Fin a ->
    0 < a -> 0 <= w ->
    ~ cooler == 0 -> ~ hotter == 0 -> cooler <= hotter ->
    exists (r1 r2 : CookTimeEstimate.t) (z1 z2 : Z),
      estimateCookTime kb info now id (JS.Fin w) method
        (Some (JS.Fin cooler)) = Ok r1
      /\ estimateCookTime kb info now id (JS.Fin w) method
           (Some (JS.Fin hotter)) = Ok r2
      /\ CookTimeEstimate.totalMinutes r1 = JS.ofZ z1
      /\ CookTimeEstimate.totalMinutes r2 = JS.ofZ z2
      /\ (z2 <= z1)%Z.
Proof.
  intros kb info now id p a w method s1 s2 Hid Ha Hpos Hw Hs1 Hs2 Hle.
  assert (Hrate : (estimatedTimePerPound p method === 0)%js = false).
  { rewrite Ha. cbn. apply Qeq_bool_false. lra. }
  destruct (estimateCookTime_fields kb info now id p (JS.Fin w) method
              (Some (JS.Fin s1)) Hid Hrate) as [r1 [Hr1 [Htot1 _]]].
  destruct (estimateCookTime_fields kb info now id p (JS.Fin w) method
              (Some (JS.Fin s2)) Hid Hrate) as [r2 [Hr2 [Htot2 _]]].
  destruct (cookMinutes_finite p method a w (Some (JS.Fin s1)) Ha)
    as [q1 [t1 [Hq1 [_ [Ht1 Heq1]]]]].
  destruct (cookMinutes_finite p method a w (Some (JS.Fin s2)) Ha)
    as [q2 [t2 [Hq2 [_ [Ht2 Heq2]]]]].
  destruct (adjustment_of_finite method) as [b Hb].
  destruct (Hb s1 Hs1) as [q1' [Hq1' Hc1]].
  destruct (Hb s2 Hs2) as [q2' [Hq2' Hc2]].
  rewrite Hq1 in Hq1'. rewrite Hq2 in Hq2'.
  injection Hq1' as <-. injection Hq2' as <-.
  assert (Hmono : 1 - (s2 - b) / 250 <= 1 - (s1 - b) / 250).
  { unfold Qdiv. change (/ 250) with (1 # 250). lra. }
  assert (Hq : q2 <= q1).
  { set (x1 := 1 - (s1 - b) / 250) in *. set (x2 := 1 - (s2 - b) / 250) in *.
    clearbody x1 x2.
    destruct Hc1 as [[? ?]|[[? ?]|[[? ?] ?]]];
      destruct Hc2 as [[? ?]|[[? ?]|[[? ?] ?]]]; lra. }
  exists r1, r2, (Qfloor (t1 + (1 # 2))), (Qfloor (t2 + (1 # 2))).
  split; [exact Hr1|]. split; [exact Hr2|].
  rewrite Htot1, Htot2, Ht1, Ht2. split; [reflexivity|].
  split; [reflexivity|].
  apply Qfloor_resp_le. rewrite Heq1, Heq2.
  assert (Haw : 0 <= a * w) by (apply Qmult_le_0_compat; lra).
  pose proof (Qmult_le_compat_l_nonneg (a * w) q2 q1 Haw Hq).
  destruct (stallRange p); lra.
Qed.

Lemma hotter_smoker_never_lengthens_witness :
  exists (r1 r2 : CookTimeEstimate.t) (z1 z2 : Z),
    estimateCookTime Sample.PROTEIN_PROFILES Sample.COOK_METHOD_INFO 0
      "beef_brisket" (JS.Fin 14) smoke_low_slow (Some (JS.Fin 225)) = Ok r1
    /\ estimateCookTime Sample.PROTEIN_PROFILES Sample.COOK_METHOD_INFO 0
         "beef_brisket" (JS.Fin 14) smoke_low_slow (Some (JS.Fin 275)) = Ok r2
    /\ CookTimeEstimate.totalMinutes r1 = JS.ofZ z1
    /\ CookTimeEstimate.totalMinutes r2 = JS.ofZ z2
    /\ (z2 <= z1)%Z.
Proof.
  apply (hotter_smoker_never_lengthens Sample.PROTEIN_PROFILES
           Sample.COOK_METHOD_INFO 0 "beef_brisket" Sample.brisket 70 14
           smoke_low_slow 225 275);
    first [reflexivity | lra | (intros H; discriminate H)].
Defined.

(** *** The schedule *)

(** X5.  For a known protein [calculateStartTime] always returns, also for a
    method that is not recommended (zero minutes per pound): the rest time is
    the profile's, and the buffer is 120 minutes when the method is not
    recommended or the profile has a stall range, else 60 minutes when the
    method takes more than 50 minutes per pound, else 30 minutes. *)
Theorem schedule_buffer :
  forall (kb : string -> option ProteinProfile)
         (info : CookMethod -> MethodInfo) (now : Z) (id : string)
         (p : ProteinProfile) (weight : JS.number) (method : CookMethod)
         (serving : Date.t) (smoker : option JS.number),
    kb id = Some p ->
    exists r,
      calculateStartTime kb info now id weight method serving smoker = Ok r
      /\ StartTime.restTime r = restTimeMinutes p
      /\ StartTime.bufferMinutes r
         = bufferFor (CookTimeEstimate.confidence (StartTime.cookTime r))
      /\ StartTime.bufferMinutes r
         = (if (estimatedTimePerPound p method === 0)%js then 120
            else match stallRange p with
                 | Some _ => 120
                 | None =>
                     if (estimatedTimePerPound p method >? 50)%js then 60
                     else 30
                 end).
Proof.
  intros kb info now id p weight method serving smoker Hid.
  unfold calculateStartTime, estimateCookTime, getProteinProfile.
  rewrite Hid. cbn [deref bind].
  destruct (estimatedTimePerPound p method === 0)%js; cbn [bind].
  - eexists. split; [reflexivity|]. repeat split.
  - eexists. split; [reflexivity|].
    cbn [StartTime.restTime StartTime.bufferMinutes StartTime.cookTime
         CookTimeEstimate.confidence].
    split; [reflexivity|].
    destruct (stallRange p); [split; reflexivity|].
    destruct (estimatedTimePerPound p method >? 50)%js; split; reflexivity.
Qed.

Lemma schedule_buffer_witness :
  exists r,
    calculateStartTime Sample.PROTEIN_PROFILES Sample.COOK_METHOD_INFO 0
      "chicken_wings" 3 spatchcock (JS.ofZ (100 * Sample.hour)) None = Ok r
    /\ StartTime.restTime r = restTimeMinutes Sample.chicken_wings
    /\ StartTime.bufferMinutes r
       = bufferFor (CookTimeEstimate.confidence (StartTime.cookTime r))
    /\ StartTime.bufferMinutes r
       = (if (estimatedTimePerPound Sample.chicken_wings spatchcock === 0)%js
          then 120
          else match stallRange Sample.chicken_wings with
               | Some _ => 120
               | None =>
                   if (estimatedTimePerPound Sample.chicken_wings spatchcock
                       >? 50)%js then 60
                   else 30
               end).
Proof.
  apply (schedule_buffer Sample.PROTEIN_PROFILES Sample.COOK_METHOD_INFO 0
           "chicken_wings" Sample.chicken_wings 3 spatchcock
           (JS.ofZ (100 * Sample.hour)) None).
  reflexivity.
Defined.

Example buffers_by_confidence :
  field StartTime.bufferMinutes
    (calculateStartTime Sample.PROTEIN_PROFILES Sample.COOK_METHOD_INFO 0
       "chicken_wings" 3 spatchcock (JS.ofZ (100 * Sample.hour)) None)
  = Ok (JS.Fin 120)
  /\ field StartTime.bufferMinutes
       (calculateStartTime Sample.PROTEIN_PROFILES Sample.COOK_METHOD_INFO 0
          "chicken_wings" 3 smoke_low_slow (JS.ofZ (100 * Sample.hour)) None)
     = Ok (JS.Fin 60)
  /\ field StartTime.bufferMinutes
       (calculateStartTime Sample.PROTEIN_PROFILES Sample.COOK_METHOD_INFO 0
          "chicken_wings" 3 grill_direct (JS.ofZ (100 * Sample.hour)) None)
     = Ok (JS.Fin 30).
Proof. repeat split. Qed.




Example brisket_schedule :
  exists r,
    calculateStartTime Sample.PROTEIN_PROFILES Sample.COOK_METHOD_INFO 1000
      "beef_brisket" 14 smoke_low_slow (JS.ofZ (100 * Sample.hour))
      (Some (JS.Fin 225)) = Ok r
    /\ CookTimeEstimate.totalMinutes (StartTime.cookTime r) = 1040
    /\ StartTime.restTime r = 60
    /\ StartTime.bufferMinutes r = 120
    /\ StartTime.startTime r
       = JS.ofZ (100 * Sample.hour - (1040 + 60 + 120) * 60000).
Proof. eexists. split; [vm_compute; reflexivity|]. repeat split. Qed.

(** *** The verdict of [detectStall] and the age of the stall *)

(** Minutes elapsed at [now] since a reading was taken. *)
Lemma stallSince_in_range (now : Z) (range : StallRange)
    (run rest : list TemperatureReading) (d : JS.number) :
  Forall (fun r => within range (temp r) = true) run ->
  stallSince now range (run ++ rest) d
  = stallSince now range rest
      (fold_left
         (fun _ r => ((JS.ofZ now - Date.getTime (timestamp r))
                      / (1000 * 60))%js) run d).
Proof.
  intros Hall. revert d. induction Hall as [|x run Hx _ IH]; intros d.
  - reflexivity.
  - cbn [app stallSince fold_left]. rewrite Hx. apply IH.
Qed.

Lemma stallSince_stops (now : Z) (range : StallRange)
    (older : list TemperatureReading) (d : JS.number) :
  (older = []
   \/ exists before o, older = (before ++ [o])%list
                       /\ within range (temp o) = false) ->
  stallSince now range (rev older) d = d.
Proof.
  intros [->|[before [o [-> Hout]]]]; [reflexivity|].
  rewrite rev_app_distr. cbn [rev app stallSince]. rewrite Hout. reflexivity.
Qed.

(** The result of [detectStall] inside the stall zone with three readings or
    more. *)
Lemma detectStall_verdict (kb : string -> option ProteinProfile) (now : Z)
    (id : string) (p : ProteinProfile) (range : StallRange)
    (currentTemp : JS.number) (readings : list TemperatureReading) :
  kb id = Some p ->
  stallRange p = Some range ->
  within range currentTemp = true ->
  (3 <= List.length readings)%nat ->
  exists r first last,
    nth_error (slice_last 6 readings) 0 = Some first
    /\ last_elem (slice_last 6 readings) = Some last
    /\ detectStall kb now id currentTemp readings = Ok r
    /\ StallResult.isStalled r = (tempRatePerHour first last <? 3)%js
    /\ StallResult.inStallZone r = true
    /\ StallResult.stallDurationMinutes r
       = JS.round (if (tempRatePerHour first last <? 3)%js
                   then stallSince now range (rev readings) 0
                   else 0).
Proof.
  intros Hid Hrange Hin Hlen.
  destruct (slice_last_first 6 readings) as [first Hfirst]; [lia|lia|].
  destruct (slice_last_last 6 readings) as [last Hlast]; [lia|lia|].
  unfold detectStall, getProteinProfile. rewrite Hid. cbn [deref bind].
  rewrite Hrange, Hin. cbn [negb].
  replace (List.length (slice_last 6 readings) <? 3)%nat with false
    by (symmetry; apply Nat.ltb_ge; rewrite slice_last_length; lia).
  rewrite Hfirst, Hlast. cbn [deref bind].
  replace (3 <=? List.length readings)%nat with true
    by (symmetry; apply Nat.leb_le; exact Hlen).
  rewrite andb_true_r.
  eexists. exists first, last. repeat split.
Qed.

(** X7.  Whenever [detectStall] returns: a stall is only reported inside the
    stall zone, a verdict of no stall carries a zero duration, and the
    zone flag is the membership of the current temperature in the profile's
    stall range, bounds included ([false] without a range). *)
Theorem stall_verdict_is_consistent :
  forall (kb : string -> option ProteinProfile) (now : Z) (id : string)
         (currentTemp : JS.number) (readings : list TemperatureReading)
         (r : StallResult.t),
    detectStall kb now id currentTemp readings = Ok r ->
    (StallResult.isStalled r = true -> StallResult.inStallZone r = true)
    /\ (StallResult.isStalled r = false ->
        StallResult.stallDurationMinutes r = 0)
    /\ exists p,
        kb id = Some p
        /\ StallResult.inStallZone r = inStallRange p currentTemp.
Proof.
  intros kb now id cur rs r. unfold detectStall, getProteinProfile, inStallRange.
  destruct (kb id) as [p|]; cbn [deref bind]; [|discriminate].
  destruct (stallRange p) as [range|] eqn:Hr.
  - destruct (within range cur) eqn:Hin; cbn [negb].
    + destruct (List.length (slice_last 6 rs) <? 3)%nat.
      * intros [= <-]. cbn. repeat split; try discriminate.
        exists p. rewrite Hr, Hin. split; reflexivity.
      * destruct (last_elem (slice_last 6 rs)) as [l|]; cbn [deref bind];
          [|discriminate].
        destruct (nth_error (slice_last 6 rs) 0) as [f|]; cbn [deref bind];
          [|discriminate].
        intros [= <-]. cbn [StallResult.isStalled StallResult.inStallZone
                            StallResult.stallDurationMinutes].
        split; [reflexivity|].
        split; [|exists p; rewrite Hr, Hin; split; reflexivity].
        intros ->. reflexivity.
    + destruct (cur <? start range)%js; intros [= <-]; cbn;
        (repeat split; try discriminate); exists p; rewrite Hr, Hin;
        split; reflexivity.
  - intros [= <-]. cbn. repeat split; try discriminate.
    exists p. rewrite Hr. split; reflexivity.
Qed.

Lemma stall_verdict_is_consistent_witness :
  exists r,
    detectStall Sample.PROTEIN_PROFILES (3 * Sample.hour) "beef_brisket" 157
      Sample.stall_readings = Ok r
    /\ (StallResult.isStalled r = true -> StallResult.inStallZone r = true)
    /\ (StallResult.isStalled r = false ->
        StallResult.stallDurationMinutes r = 0)
    /\ exists p,
        Sample.PROTEIN_PROFILES "beef_brisket" = Some p
        /\ StallResult.inStallZone r = inStallRange p 157.
Proof.
  eexists. split; [vm_compute; reflexivity|].
  apply (stall_verdict_is_consistent Sample.PROTEIN_PROFILES
           (3 * Sample.hour) "beef_brisket" 157 Sample.stall_readings).
  vm_compute. reflexivity.
Defined.

(** X8.  When [detectStall] reports a stall, its duration is the time elapsed,
    in minutes rounded to a whole number, since the oldest reading of the run
    of readings within the stall range that ends at the newest reading:
    readings before the last one found outside the range do not count. *)
Theorem stall_is_dated_from_the_last_entry_into_the_zone :
  forall (kb : string -> option ProteinProfile) (now : Z) (id : string)
         (p : ProteinProfile) (range : StallRange) (currentTemp : JS.number)
         (older run : list TemperatureReading) (first : TemperatureReading)
         (r : StallResult.t),
    kb id = Some p ->
    stallRange p = Some range ->
    within range currentTemp = true ->
    (3 <= List.length (older ++ first :: run))%nat ->
    Forall (fun x => within range (temp x) = true) (first :: run) ->
    (older = []
     \/ exists before o, older = (before ++ [o])%list
                         /\ within range (temp o) = false) ->
    detectStall kb now id currentTemp (older ++ first :: run) = Ok r ->
    StallResult.isStalled r = true ->
    StallResult.stallDurationMinutes r
    = JS.round ((JS.ofZ now - timestamp first) / 60000)%js.
Proof.
  intros kb now id p range cur older run first r
         Hid Hrange Hin Hlen Hrun Holder Hr Hstalled.
  destruct (detectStall_verdict kb now id p range cur (older ++ first :: run)
              Hid Hrange Hin Hlen)
    as [r' [f [l [_ [_ [Hr' [Hverdict [_ Hduration]]]]]]]].
  rewrite Hr in Hr'. injection Hr' as <-.
  rewrite Hduration. rewrite <- Hverdict, Hstalled.
  rewrite rev_app_distr. cbn [rev].
  rewrite stallSince_in_range.
  - rewrite stallSince_stops by exact Holder.
    rewrite fold_left_app. reflexivity.
  - apply Forall_app. inversion Hrun as [|x xs Hfirst Htail]; subst.
    split; [apply Forall_rev; exact Htail|].
    constructor; [exact Hfirst|constructor].
Qed.

Lemma stall_is_dated_from_the_last_entry_into_the_zone_witness :
  exists r,
    detectStall Sample.PROTEIN_PROFILES (3 * Sample.hour) "beef_brisket" 157
      ([Sample.reading 149 0]
       ++ Sample.reading 155 Sample.hour
          :: [Sample.reading 156 (2 * Sample.hour);
              Sample.reading 157 (3 * Sample.hour)]) = Ok r
    /\ StallResult.stallDurationMinutes r
       = JS.round ((JS.ofZ (3 * Sample.hour)
                    - timestamp (Sample.reading 155 Sample.hour)) / 60000)%js.
Proof.
  eexists. split; [vm_compute; reflexivity|].
  apply (stall_is_dated_from_the_last_entry_into_the_zone
           Sample.PROTEIN_PROFILES (3 * Sample.hour) "beef_brisket"
           Sample.brisket {| start := 150; end_ := 175 |} 157
           [Sample.reading 149 0]
           [Sample.reading 156 (2 * Sample.hour);
            Sample.reading 157 (3 * Sample.hour)]
           (Sample.reading 155 Sample.hour)).
  - reflexivity.
  - reflexivity.
  - reflexivity.
  - simpl. lia.
  - repeat constructor.
  - right. exists [], (Sample.reading 149 0). split; reflexivity.
  - vm_compute. reflexivity.
  - reflexivity.
Defined.

(** X9.  When the newest reading is outside the stall range, the duration
    [detectStall] returns is 0, also when it reports a stall (the current
    temperature being inside the range). *)
Theorem stall_duration_is_zero_when_newest_reading_is_outside :
  forall (kb : string -> option ProteinProfile) (now : Z) (id : string)
         (p : ProteinProfile) (range : StallRange) (currentTemp : JS.number)
         (before : list TemperatureReading) (newest : TemperatureReading)
         (r : StallResult.t),
    kb id = Some p ->
    stallRange p = Some range ->
    within range (temp newest) = false ->
    detectStall kb now id currentTemp (before ++ [newest]) = Ok r ->
    StallResult.stallDurationMinutes r = 0.
Proof.
  intros kb now id p range cur before newest r Hid Hrange Hout.
  unfold detectStall, getProteinProfile. rewrite Hid. cbn [deref bind].
  rewrite Hrange.
  destruct (within range cur); cbn [negb].
  - destruct (List.length (slice_last 6 (before ++ [newest])) <? 3)%nat.
    + intros [= <-]. reflexivity.
    + destruct (last_elem (slice_last 6 (before ++ [newest]))) as [l|];
        cbn [deref bind]; [|discriminate].
      destruct (nth_error (slice_last 6 (before ++ [newest])) 0) as [f|];
        cbn [deref bind]; [|discriminate].
      intros [= <-]. cbn [StallResult.stallDurationMinutes].
      rewrite rev_app_distr. cbn [rev app stallSince]. rewrite Hout.
      destruct (_ && _); reflexivity.
  - destruct (cur <? start range)%js; intros [= <-]; reflexivity.
Qed.

Lemma stall_duration_is_zero_when_newest_reading_is_outside_witness :
  exists r,
    detectStall Sample.PROTEIN_PROFILES (3 * Sample.hour) "beef_brisket" 157
      ([Sample.reading 155 0; Sample.reading 156 Sample.hour]
       ++ [Sample.reading 149 (2 * Sample.hour)]) = Ok r
    /\ StallResult.isStalled r = true
    /\ StallResult.stallDurationMinutes r = 0.
Proof.
  eexists. split; [vm_compute; reflexivity|]. split; [reflexivity|].
  apply (stall_duration_is_zero_when_newest_reading_is_outside
           Sample.PROTEIN_PROFILES (3 * Sample.hour) "beef_brisket"
           Sample.brisket {| start := 150; end_ := 175 |} 157
           [Sample.reading 155 0; Sample.reading 156 Sample.hour]
           (Sample.reading 149 (2 * Sample.hour)));
    first [reflexivity | vm_compute; reflexivity].
Defined.




Lemma Qred_inject_Z (z : Z) : Qred (inject_Z z) = inject_Z z.
Proof.
  unfold Qred, inject_Z.
  pose proof (Z.ggcd_gcd z 1) as Hg.
  pose proof (Z.ggcd_correct_divisors z 1) as Hd.
  destruct (Z.ggcd z 1) as [g [a b]]. cbn [fst snd] in *.
  rewrite Z.gcd_1_r in Hg. subst g. destruct Hd as [Ha Hb].
  rewrite Z.mul_1_l in Ha, Hb. subst a b. reflexivity.
Qed.

Lemma sub_then_add_back (a c : Z) :
  (JS.ofZ a - JS.ofZ c + JS.ofZ c)%js = JS.ofZ a.
Proof.
  unfold JS.ofZ. cbn [JS.sub JS.neg JS.add]. f_equal.
  transitivity (Qred (inject_Z a)); [|apply Qred_inject_Z].
  apply Qred_complete. rewrite Qred_correct. ring.
Qed.

Lemma getTargetTemperature_pullTemp (kb : string -> option ProteinProfile)
    (id : string) (p : ProteinProfile) (asked : option DonenessLevel)
    (t : Target.t) :
  kb id = Some p ->
  getTargetTemperature kb id asked = Ok t ->
  Target.pullTemp t = (Target.targetTemp t - carryoverDegrees p)%js.
Proof.
  intros Hid. unfold getTargetTemperature, getProteinProfile. rewrite Hid.
  cbn [deref bind]. destruct asked as [d|].
  - destruct (lookup d (donenessTemps p)); cbn [bind];
      intros [= <-]; reflexivity.
  - cbn [bind]. intros [= <-]. reflexivity.
Qed.

(** X11.  [getTargetTemperature] and [calculateRestTime] fit together: for
    whole-degree temperatures, resting from the pull temperature the first
    returns, against the target it returns, is expected to end exactly on
    the target, and the advice is the one given when no target is stated at
    all (neither the shortfall nor the overshoot warning). *)
Theorem resting_from_the_pull_temperature_reaches_the_target :
  forall (kb : string -> option ProteinProfile) (id : string)
         (p : ProteinProfile) (asked : option DonenessLevel) (t : Target.t)
         (target carry : Z),
    kb id = Some p ->
    getTargetTemperature kb id asked = Ok t ->
    Target.targetTemp t = JS.ofZ target ->
    carryoverDegrees p = JS.ofZ carry ->
    exists r,
      calculateRestTime kb id (Target.pullTemp t)
        (Some (Target.targetTemp t)) = Ok r
      /\ RestResult.expectedFinalTemp r = Target.targetTemp t
      /\ calculateRestTime kb id (Target.pullTemp t) None = Ok r.
Proof.
  intros kb id p asked t target carry Hid Ht Htarget Hcarry.
  rewrite (getTargetTemperature_pullTemp kb id p asked t Hid Ht).
  rewrite Htarget, Hcarry.
  unfold calculateRestTime, getProteinProfile. rewrite Hid.
  cbn [deref bind]. rewrite Hcarry, sub_then_add_back.
  eexists. split; [reflexivity|].
  cbn [RestResult.expectedFinalTemp]. split; [reflexivity|].
  do 2 f_equal.
  destruct (negb (requiresRest p)); [reflexivity|]. do 2 f_equal.
  assert (Hlt : (JS.ofZ target <? JS.ofZ target)%js = false).
  { cbn. apply Qltb_ge. lra. }
  assert (Hgt : (JS.ofZ target >? JS.ofZ target + 5)%js = false).
  { unfold JS.gtb, JS.ofZ. cbn [JS.add JS.ltb]. apply Qltb_ge.
    rewrite Qred_correct. lra. }
  rewrite Hlt, Hgt, !andb_false_r. reflexivity.
Qed.

Lemma resting_from_the_pull_temperature_reaches_the_target_witness :
  exists t r,
    getTargetTemperature Sample.PROTEIN_PROFILES "beef_prime_rib"
      (Some medium_) = Ok t
    /\ calculateRestTime Sample.PROTEIN_PROFILES "beef_prime_rib"
         (Target.pullTemp t) (Some (Target.targetTemp t)) = Ok r
    /\ RestResult.expectedFinalTemp r = Target.targetTemp t
    /\ calculateRestTime Sample.PROTEIN_PROFILES "beef_prime_rib"
         (Target.pullTemp t) None = Ok r.
Proof.
  eexists.
  destruct (resting_from_the_pull_temperature_reaches_the_target
              Sample.PROTEIN_PROFILES "beef_prime_rib" Sample.prime_rib
              (Some medium_) _ 140 8 eq_refl eq_refl eq_refl eq_refl)
    as [r H].
  exists r. split; [reflexivity|exact H].
Defined.

(** What a trend returned by [trendOf] says about the rate beside it. *)
Lemma trendOf_consistent (p : ProteinProfile) (currentTemp : JS.number)
    (readings : option (list TemperatureReading)) (tr : Trend)
    (rate : JS.number) :
  trendOf (Some p) currentTemp readings = Ok (tr, rate) ->
  match tr with
  | rising => (rate >? 0)%js = true /\ (JS.abs rate <? 2)%js = false
  | falling => (rate >? 0)%js = false /\ (JS.abs rate <? 2)%js = false
  | stalled =>
      inStallRange p currentTemp = true /\ (JS.abs rate <? 2)%js = true
  | stable => (JS.abs rate <? 2)%js = true
  end.
Proof.
  unfold trendOf. destruct readings as [rs|]; [|intros [= <- <-]; reflexivity].
  destruct (2 <=? List.length rs)%nat; [|intros [= <- <-]; reflexivity].
  destruct (last_elem (slice_last 5 rs)) as [l|]; cbn [deref bind];
    [|discriminate].
  destruct (nth_error (slice_last 5 rs) 0) as [f|]; cbn [deref bind];
    [|discriminate].
  destruct (_ >? 0)%js; [|intros [= <- <-]; reflexivity].
  destruct (JS.abs _ <? 2)%js eqn:Habs.
  - destruct (inStallRange p currentTemp) eqn:Hin; intros [= <- <-].
    + split; [reflexivity|exact Habs].
    + exact Habs.
  - destruct (_ >? 0)%js eqn:Hpos; intros [= <- <-]; split; assumption.
Qed.

(** X12.  In every analysis [analyzeTemperature] returns, a remaining time is
    given exactly when the trend is [rising], and a [stalled] trend is only
    reported with the current temperature inside the stall zone. *)
Theorem remaining_time_only_while_rising :
  forall (kb : string -> option ProteinProfile)
         (currentTemp targetTemp : JS.number) (id : string)
         (method : option CookMethod) (started : option Date.t)
         (readings : option (list TemperatureReading))
         (r : TemperatureAnalysis.t),
    analyzeTemperature kb currentTemp targetTemp id method started readings
    = Ok r ->
    (TemperatureAnalysis.estimatedMinutesRemaining r <> None
     <-> TemperatureAnalysis.trend r = rising)
    /\ (TemperatureAnalysis.trend r = stalled ->
        TemperatureAnalysis.inStallZone r = true).
Proof.
  intros kb cur target id method started readings r.
  unfold analyzeTemperature, getProteinProfile.
  destruct (kb id) as [p|].
  - destruct (trendOf (Some p) cur readings) as [[tr rate]|e] eqn:Htr;
      cbn [deref bind fst snd]; [|discriminate].
    intros [= <-].
    cbn [TemperatureAnalysis.estimatedMinutesRemaining
           TemperatureAnalysis.trend TemperatureAnalysis.inStallZone].
    pose proof (trendOf_consistent p cur readings tr rate Htr) as Hc.
    destruct tr; cbn [Trend_eqb]; rewrite ?andb_false_r.
    + destruct Hc as [Hpos _]. cbv [JS.gtb JS.ltb] in Hpos. rewrite Hpos.
      cbn [andb]. split; [|discriminate].
      split; [reflexivity|discriminate].
    + split; [|discriminate]. split; [congruence|discriminate].
    + split; [|discriminate]. split; [congruence|discriminate].
    + destruct Hc as [Hin _]. split; [|intros _; exact Hin].
      split; [congruence|discriminate].
  - destruct (trendOf_undefined_profile cur readings) as [E|[tr E]];
      rewrite E; discriminate.
Qed.

Lemma remaining_time_only_while_rising_witness :
  exists r,
    analyzeTemperature Sample.PROTEIN_PROFILES 160 203 "beef_brisket" None
      None (Some Sample.stall_readings) = Ok r
    /\ (TemperatureAnalysis.estimatedMinutesRemaining r <> None
        <-> TemperatureAnalysis.trend r = rising)
    /\ (TemperatureAnalysis.trend r = stalled ->
        TemperatureAnalysis.inStallZone r = true).
Proof.
  eexists. split; [vm_compute; reflexivity|].
  apply (remaining_time_only_while_rising Sample.PROTEIN_PROFILES 160 203
           "beef_brisket" None None (Some Sample.stall_readings)).
  vm_compute. reflexivity.
Defined.

Lemma Ok_inj {A : Type} (a b : A) : Ok a = Ok b -> a = b.
Proof. congruence. Qed.

Lemma Some_inj {A : Type} (a b : A) : Some a = Some b -> a = b.
Proof. congruence. Qed.

(** The remaining time is a whole number of minutes with the sign of the
    degrees still to go. *)
Lemma remaining_minutes_whole_and_signed :
  forall (kb : string -> option ProteinProfile) (currentTemp targetTemp : Q)
         (id : string) (method : option CookMethod)
         (started : option Date.t)
         (readings : option (list TemperatureReading))
         (r : TemperatureAnalysis.t) (eta : JS.number),
    analyzeTemperature kb currentTemp targetTemp id method started readings
    = Ok r ->
    TemperatureAnalysis.estimatedMinutesRemaining r = Some eta ->
    exists z : Z,
      eta = JS.ofZ z
      /\ (currentTemp <= targetTemp -> (0 <= z)%Z)
      /\ (targetTemp <= currentTemp -> (z <= 0)%Z).
Proof.
  intros kb cur target id method started readings r eta.
  unfold analyzeTemperature, getProteinProfile.
  destruct (kb id) as [p|].
  - destruct (trendOf (Some p) (JS.Fin cur) readings) as [[tr rate]|e];
      cbn [deref bind fst snd]; [|discriminate].
    intros <-%Ok_inj.
    cbn [TemperatureAnalysis.estimatedMinutesRemaining].
    destruct (rate >? 0)%js eqn:Hpos; cbn [andb]; [|discriminate].
    destruct (Trend_eqb tr rising); [|discriminate].
    intros <-%Some_inj. unfold JS.gtb in Hpos.
    destruct rate as [q| | |]; cbn in Hpos; try discriminate.
    + qbool. cbn [JS.sub JS.neg JS.add].
      rewrite div_by_nonzero by (apply Qeq_bool_false; lra).
      cbn [JS.mul JS.round]. eexists. split; [reflexivity|].
      rewrite !Qred_correct.
      assert (Hi : 0 < / q) by (apply Qinv_lt_0_compat; exact Hpos).
      unfold Qdiv. set (i := / q) in *. clearbody i. split; intros H.
      * change 0%Z with (Qfloor 0). apply Qfloor_resp_le. nra.
      * assert (Hlt : (Qfloor ((target + - cur) * i * 60 + (1 # 2)) < 1)%Z);
          [|lia].
        rewrite Zlt_Qlt.
        pose proof (Qfloor_le ((target + - cur) * i * 60 + (1 # 2))) as Hf.
        set (f := inject_Z _) in *. clearbody f.
        change (inject_Z 1) with 1. nra.
    + exists 0%Z. split; [vm_compute; reflexivity|]. split; intros _; lia.
  - destruct (trendOf_undefined_profile (JS.Fin cur) readings)
      as [E|[tr E]]; rewrite E; discriminate.
Qed.

(** X13.  The remaining time has the sign of the degrees still to go: it is
    a whole number of minutes, not negative while the current temperature is
    at or below the target, and not positive once the target is reached or
    passed. *)
Theorem remaining_time_sign :
  forall (kb : string -> option ProteinProfile) (currentTemp targetTemp : Q)
         (id : string) (method : option CookMethod)
         (started : option Date.t)
         (readings : option (list TemperatureReading))
         (r : TemperatureAnalysis.t) (eta : JS.number),
    analyzeTemperature kb currentTemp targetTemp id method started readings
    = Ok r ->
    TemperatureAnalysis.estimatedMinutesRemaining r = Some eta ->
    exists z : Z,
      eta = JS.ofZ z
      /\ (currentTemp <= targetTemp -> (0 <= z)%Z)
      /\ (targetTemp <= currentTemp -> (z <= 0)%Z).
Proof.
  intros kb currentTemp targetTemp id method started readings r eta Hr Heta.
  exact (remaining_minutes_whole_and_signed kb currentTemp targetTemp id
           method started readings r eta Hr Heta).
Qed.

Lemma remaining_time_sign_witness :
  exists r,
    analyzeTemperature Sample.PROTEIN_PROFILES 210 203 "beef_brisket" None
      None (Some Sample.rising_readings) = Ok r
    /\ TemperatureAnalysis.estimatedMinutesRemaining r = Some (JS.ofZ (-63))
    /\ exists z : Z,
        JS.ofZ (-63) = JS.ofZ z
        /\ (210 <= 203 -> (0 <= z)%Z)
        /\ (203 <= 210 -> (z <= 0)%Z).
Proof.
  eexists. split; [vm_compute; reflexivity|].
  split; [vm_compute; reflexivity|].
  eapply (remaining_time_sign Sample.PROTEIN_PROFILES 210 203 "beef_brisket"
            None None (Some Sample.rising_readings) _ (JS.ofZ (-63)));
    vm_compute; reflexivity.
Defined.

(** X14.  [getCookingTips] never drops, changes or reorders the profile's
    own tips: for a known protein the result is the profile's tips followed
    by at most four more, and by none when no method is given and the phase
    is absent or one of [cooking], [final_push] and [serving].  For an
    unknown protein the call ends with the [TypeError] of reading [tips],
    whatever the method. *)
Theorem tips_start_with_the_profile_tips :
  forall (kb : string -> option ProteinProfile)
         (info : CookMethod -> MethodInfo) (id : string)
         (method : option CookMethod) (phase : option Phase),
    match kb id with
    | Some p =>
        exists extra,
          getCookingTips kb info id method phase
          = Ok (map (fun tip => [Lit tip]) (tips p) ++ extra)%list
          /\ (List.length extra <= 4)%nat
          /\ (method = None ->
              phase = None \/ phase = Some cooking
              \/ phase = Some final_push \/ phase = Some serving ->
              extra = [])
    | None => getCookingTips kb info id method phase = Throw (TypeError "tips")
    end.
Proof.
  intros kb info id method phase.
  unfold getCookingTips, getProteinProfile.
  destruct (kb id) as [p|]; [|reflexivity]. cbn [deref bind].
  set (own := map (fun tip => [Lit tip]) (tips p)).
  destruct method as [m|].
  - set (byMethod := ([_] ++ match m with reverse_sear => _ | _ => _ end)%list).
    assert (Hm : (List.length byMethod <= 2)%nat)
      by (subst byMethod; destruct m; cbn; lia).
    clearbody byMethod.
    destruct phase as [[]|];
      match goal with
      | |- exists _, Ok ((own ++ ?a) ++ ?b)%list = _ /\ _ =>
          exists (a ++ b)%list; rewrite <- app_assoc
      | |- exists _, Ok (own ++ ?a)%list = _ /\ _ => exists a
      end;
      (split; [reflexivity|]);
      (split; [rewrite ?length_app; cbn [List.length]; lia|discriminate]).
  - destruct phase as [[]|];
      match goal with
      | |- exists _, Ok (own ++ ?a)%list = _ /\ _ => exists a
      | |- exists _, Ok own = _ /\ _ => exists []; rewrite app_nil_r
      end;
      (split; [reflexivity|]);
      (split; [cbn [List.length]; lia|]);
      intros _ H; try reflexivity;
      exfalso; destruct H as [H|[H|[H|H]]]; discriminate.
Qed.

Lemma floor_of_sixtieth (t : Q) :
  JS.floor (JS.Fin t / 60)%js = JS.ofZ (Qfloor (t / 60)).
Proof.
  rewrite div_by_nonzero by reflexivity. unfold JS.floor. f_equal.
  apply Qfloor_comp. apply Qred_correct.
Qed.

Lemma ofZ_inj (a b : Z) : JS.ofZ a = JS.ofZ b -> a = b.
Proof. unfold JS.ofZ, inject_Z. congruence. Qed.

Lemma ofZ_eqb_0 (m : Z) : (JS.ofZ m === 0)%js = (m =? 0)%Z.
Proof.
  unfold JS.ofZ. cbn [JS.eqb]. destruct (m =? 0)%Z eqn:E.
  - apply Z.eqb_eq in E. subst m. reflexivity.
  - apply Qeq_bool_false. intros H. apply Z.eqb_neq in E. apply E.
    change 0 with (inject_Z 0) in H. apply inject_Z_injective. exact H.
Qed.

(** X15.  [formatTimeEstimate] of sixty minutes or more shows [h] hours,
    with [h >= 1] and the plural exactly when [h > 1], and, unless it is 0,
    a number [m] of minutes with [0 <= m <= 60]; [60 h + m] is the duration
    rounded to a whole minute.  (The minutes shown can be 60.) *)
Theorem formatted_duration_adds_up :
  forall minutes : Q,
    60 <= minutes ->
    exists h m z : Z,
      formatTimeEstimate minutes
      = ([Num (JS.ofZ h); Lit " hour";
          Lit (if (1 <? h)%Z then "s" else EmptyString)]
         ++ (if (m =? 0)%Z then []
             else [Lit " "; Num (JS.ofZ m); Lit " minutes"]))%list
      /\ JS.round minutes = JS.ofZ z
      /\ (1 <= h)%Z /\ (0 <= m <= 60)%Z /\ (60 * h + m = z)%Z.
Proof.
  intros t Ht.
  destruct (hours_minutes_of_total t)
    as [h [m [z [Hh [Hm [Hz [Hh0 [Hm0 Hsum]]]]]]]]; [lra|].
  exists h, m, z. unfold formatTimeEstimate.
  replace (JS.Fin t <? 60)%js with false
    by (symmetry; cbn; apply Qltb_ge; exact Ht).
  rewrite Hh, Hm, ofZ_eqb_0.
  unfold JS.gtb, JS.ofZ. cbn [JS.ltb].
  change 1 with (inject_Z 1). rewrite Qltb_inject_Z.
  split; [destruct (m =? 0)%Z; reflexivity|].
  split; [exact Hz|]. split; [|split; assumption].
  rewrite floor_of_sixtieth in Hh. apply ofZ_inj in Hh. subst h.
  change 1%Z with (Qfloor 1). apply Qfloor_resp_le.
  apply Qle_shift_div_l; lra.
Qed.

Lemma formatted_duration_adds_up_witness :
  exists h m z : Z,
    formatTimeEstimate (239 # 2)
    = ([Num (JS.ofZ h); Lit " hour";
        Lit (if (1 <? h)%Z then "s" else EmptyString)]
       ++ (if (m =? 0)%Z then []
           else [Lit " "; Num (JS.ofZ m); Lit " minutes"]))%list
    /\ JS.round (239 # 2) = JS.ofZ z
    /\ (1 <= h)%Z /\ (0 <= m <= 60)%Z /\ (60 * h + m = z)%Z.
Proof.
  apply (formatted_duration_adds_up (239 # 2)). lra.
Defined.

(** 119.5 minutes are shown as one hour and sixty minutes, 59.5 minutes as
    sixty minutes, and two hours without minutes. *)
Example formatted_durations :
  formatTimeEstimate (239 # 2)
  = [Num 1; Lit " hour"; Lit EmptyString; Lit " "; Num 60; Lit " minutes"]
  /\ formatTimeEstimate (119 # 2) = [Num 60; Lit " minutes"]
  /\ formatTimeEstimate 120 = [Num 2; Lit " hour"; Lit "s"].
Proof. repeat split; vm_compute; reflexivity. Qed.

Lemma leb_ofZ (a b : Z) : (a <= b)%Z -> (JS.ofZ a <=? JS.ofZ b)%js = true.
Proof.
  intros H. unfold JS.ofZ. cbn [JS.leb]. apply Qle_bool_iff.
  rewrite <- Zle_Qle. exact H.
Qed.

(** X16.  [convertTemperature] never reverses the order of two
    temperatures, whichever the units. *)
Theorem conversion_preserves_order :
  forall (a b : Q) (fromUnit toUnit : TemperatureUnit),
    a <= b ->
    (convertTemperature a fromUnit toUnit
     <=? convertTemperature b fromUnit toUnit)%js = true.
Proof.
  intros a b fromUnit toUnit Hab.
  assert (Hsame : (JS.Fin a <=? JS.Fin b)%js = true)
    by (cbn; apply Qle_bool_iff; exact Hab).
  destruct fromUnit, toUnit; try exact Hsame.
  - rewrite !fahrenheit_to_celsius. cbn [JS.leb]. apply Qle_bool_iff.
    rewrite !Qred_correct.
    assert (H : (Qfloor ((a - 32) * 5 / 9 * 10 + (1 # 2))
                 <= Qfloor ((b - 32) * 5 / 9 * 10 + (1 # 2)))%Z).
    { apply Qfloor_resp_le. unfold Qdiv. change (/ 9) with (1 # 9). lra. }
    rewrite Zle_Qle in H.
    set (ka := inject_Z (Qfloor ((a - 32) * 5 / 9 * 10 + (1 # 2)))) in *.
    set (kb := inject_Z (Qfloor ((b - 32) * 5 / 9 * 10 + (1 # 2)))) in *.
    clearbody ka kb. unfold Qdiv. change (/ 10) with (1 # 10). lra.
  - rewrite !celsius_to_fahrenheit. apply leb_ofZ. apply Qfloor_resp_le.
    unfold Qdiv. change (/ 5) with (1 # 5). lra.
Qed.

Lemma conversion_preserves_order_witness :
  (convertTemperature 203 fahrenheit celsius
   <=? convertTemperature (2031 # 10) fahrenheit celsius)%js = true.
Proof.
  apply (conversion_preserves_order 203 (2031 # 10) fahrenheit celsius). lra.
Defined.


(** A change of less than two degrees per hour, measured as
    [analyzeTemperature] does, is a rate below three per hour as
    [detectStall] measures it. *)
Lemma slow_by_the_hour_is_slow_by_the_minute (tc dt : JS.number) :
  (dt / 3600000 >? 0)%js = true ->
  (JS.abs (tc / (dt / 3600000)) <? 2)%js = true ->
  ((if (dt / 60000 >? 0)%js then tc / (dt / 60000) * 60 else 0) <? 3)%js
  = true.
Proof.
  unfold JS.gtb.
  destruct dt as [d| | |]; try discriminate.
  - rewrite !div_by_nonzero by reflexivity. cbn [JS.ltb].
    intros Hd. qbool. rewrite Qred_correct in Hd.
    assert (Hd0 : 0 < d).
    { unfold Qdiv in Hd. change (/ 3600000) with (1 # 3600000) in Hd. lra. }
    replace (JS.Qltb 0 (Qred (d / 60000))) with true.
    2:{ symmetry. apply Qltb_lt. rewrite Qred_correct. unfold Qdiv.
        change (/ 60000) with (1 # 60000). lra. }
    destruct tc as [a| | |].
    + rewrite !div_by_nonzero.
      2:{ apply Qeq_bool_false. rewrite Qred_correct. unfold Qdiv.
          change (/ 60000) with (1 # 60000). lra. }
      2:{ apply Qeq_bool_false. rewrite Qred_correct. lra. }
      cbn [JS.abs JS.mul JS.ltb]. intros Habs. qbool. apply Qltb_lt.
      rewrite !Qred_correct in *.
      apply Qabs_Qlt_condition in Habs. destruct Habs as [_ Hhi].
      assert (Heq : a / (d / 60000) * 60 == a / (d / 3600000))
        by (field; lra).
      rewrite Heq. lra.
    + cbn. destruct (JS.Qltb _ _); discriminate.
    + cbn. destruct (JS.Qltb _ _); discriminate.
    + discriminate.
  - intros _. destruct tc as [a| | |]; try discriminate.
    intros _. reflexivity.
Qed.

Lemma slice_last_all {A : Type} (n : nat) (a : list A) :
  (List.length a <= n)%nat -> slice_last n a = a.
Proof.
  intros H. unfold slice_last.
  replace (List.length a - n)%nat with 0%nat by lia. reflexivity.
Qed.

(** X18.  The two stall tests agree on short histories: given the same three
    to five readings and the same current temperature, whenever
    [analyzeTemperature] reports the trend [stalled], [detectStall] returns
    and confirms the stall, inside the stall zone. *)
Theorem stalled_trend_is_confirmed_by_the_detector :
  forall (kb : string -> option ProteinProfile) (now : Z) (id : string)
         (currentTemp targetTemp : JS.number) (method : option CookMethod)
         (started : option Date.t) (readings : list TemperatureReading)
         (a : TemperatureAnalysis.t),
    (3 <= List.length readings <= 5)%nat ->
    analyzeTemperature kb currentTemp targetTemp id method started
      (Some readings) = Ok a ->
    TemperatureAnalysis.trend a = stalled ->
    exists d,
      detectStall kb now id currentTemp readings = Ok d
      /\ StallResult.isStalled d = true
      /\ StallResult.inStallZone d = true.
Proof.
  intros kb now id cur target method started rs a [Hlo Hhi].
  unfold analyzeTemperature, getProteinProfile.
  destruct (kb id) as [p|] eqn:Hid.
  2:{ destruct (trendOf_undefined_profile cur (Some rs)) as [E|[tr E]];
        rewrite E; discriminate. }
  destruct (trendOf (Some p) cur (Some rs)) as [[tr rate]|e] eqn:Htr;
    cbn [deref bind fst snd]; [|discriminate].
  intros <-%Ok_inj. cbn [TemperatureAnalysis.trend]. intros ->.
  unfold trendOf in Htr.
  replace (2 <=? List.length rs)%nat with true in Htr
    by (symmetry; apply Nat.leb_le; lia).
  rewrite slice_last_all in Htr by lia.
  destruct (last_elem rs) as [l|] eqn:Hl; cbn [deref bind] in Htr;
    [|discriminate].
  destruct (nth_error rs 0) as [f|] eqn:Hf; cbn [deref bind] in Htr;
    [|discriminate].
  unfold Date.getTime in Htr.
  change (1000 * 60 * 60)%js with (JS.Fin 3600000) in Htr.
  destruct (_ >? 0)%js eqn:Htime in Htr; [|discriminate].
  destruct (JS.abs _ <? 2)%js eqn:Hslow in Htr.
  2:{ destruct (_ >? 0)%js in Htr; discriminate. }
  destruct (inStallRange p cur) eqn:Hin; [|discriminate].
  unfold inStallRange in Hin.
  destruct (stallRange p) as [range|] eqn:Hrange; [|discriminate].
  destruct (detectStall_verdict kb now id p range cur rs Hid Hrange Hin Hlo)
    as [d [first [last [Hfirst [Hlast [Hd [Hverdict [Hzone _]]]]]]]].
  rewrite slice_last_all in Hfirst, Hlast by lia.
  assert (first = f) by congruence. assert (last = l) by congruence.
  subst first last.
  exists d. split; [exact Hd|]. split; [|exact Hzone].
  rewrite Hverdict. unfold tempRatePerHour, Date.getTime.
  change (1000 * 60)%js with (JS.Fin 60000).
  apply slow_by_the_hour_is_slow_by_the_minute; assumption.
Qed.

Lemma stalled_trend_is_confirmed_by_the_detector_witness :
  exists a d,
    analyzeTemperature Sample.PROTEIN_PROFILES 157 203 "beef_brisket" None
      None (Some Sample.stall_readings) = Ok a
    /\ detectStall Sample.PROTEIN_PROFILES (3 * Sample.hour) "beef_brisket"
         157 Sample.stall_readings = Ok d
    /\ StallResult.isStalled d = true
    /\ StallResult.inStallZone d = true.
Proof.
  eexists.
  destruct (stalled_trend_is_confirmed_by_the_detector
              Sample.PROTEIN_PROFILES (3 * Sample.hour) "beef_brisket" 157
              203 None None Sample.stall_readings _
              (conj (le_S _ _ (le_n 3)) (le_S _ _ (le_n 4)))
              eq_refl eq_refl) as [d H].
  exists d. split; [reflexivity|exact H].
Defined.

(** With six readings the two tests look at different windows and can
    disagree: flat over the last five readings, the same history rose by
    four degrees an hour over the last six. *)
Example six_readings_two_verdicts :
  let readings :=
    [Sample.reading 140 0; Sample.reading 160 Sample.hour;
     Sample.reading 160 (2 * Sample.hour);
     Sample.reading 160 (3 * Sample.hour);
     Sample.reading 160 (4 * Sample.hour);
     Sample.reading 160 (5 * Sample.hour)] in
  field TemperatureAnalysis.trend
    (analyzeTemperature Sample.PROTEIN_PROFILES 160 203 "beef_brisket" None
       None (Some readings)) = Ok stalled
  /\ field StallResult.isStalled
       (detectStall Sample.PROTEIN_PROFILES (5 * Sample.hour) "beef_brisket"
          160 readings) = Ok false.
Proof. split; vm_compute; reflexivity. Qed.

(** The progress formula for a target above the assumed starting
    temperature of 40 degrees. *)
Lemma percentComplete_above_start (cur target : Q) :
  40 < target ->
  Spec.percentComplete cur target
  = Spec.clamp 0 100
      (JS.Fin (Qred (Qred (Qred (cur + - (40)) / Qred (target + - (40)))
                     * 100))).
Proof.
  intros Ht. unfold Spec.percentComplete. cbn [JS.sub JS.neg JS.add].
  rewrite div_by_nonzero
    by (apply Qeq_bool_false; rewrite Qred_correct; lra).
  reflexivity.
Qed.

Lemma oneDecimal_fin (q : Q) :
  Spec.oneDecimal (JS.Fin q)
  = JS.Fin (Qred (inject_Z (Qfloor (q * 10 + (1 # 2))) / 10)).
Proof.
  unfold Spec.oneDecimal. cbn [JS.mul JS.round]. unfold JS.ofZ.
  rewrite div_by_nonzero by reflexivity. do 4 f_equal.
  apply Qfloor_comp. rewrite Qred_correct. reflexivity.
Qed.

Lemma Fin_inj (a b : Q) : JS.Fin a = JS.Fin b -> a = b.
Proof. congruence. Qed.

(** The progress as a function of the unclamped ratio [x]: 0 up to 0, 100
    from 100 on, and never decreasing. *)
Lemma clamped_progress (x : Q) :
  exists q,
    Spec.oneDecimal (Spec.clamp 0 100 (JS.Fin x)) = JS.Fin q
    /\ (x <= 0 -> q == 0) /\ (100 <= x -> q == 100)
    /\ forall y q',
        x <= y ->
        Spec.oneDecimal (Spec.clamp 0 100 (JS.Fin y)) = JS.Fin q' ->
        q <= q'.
Proof.
  destruct (clamp_cases 0 100 x) as [c [Hc Hcase]]; [reflexivity|].
  rewrite Hc, oneDecimal_fin. eexists. split; [reflexivity|].
  rewrite Qred_correct.
  assert (Hzero : x <= 0 -> c == 0) by (intros; lra).
  assert (Hfull : 100 <= x -> c == 100) by (intros; lra).
  split; [|split].
  - intros H. rewrite (Qfloor_comp _ (0 * 10 + (1 # 2)))
      by (rewrite (Hzero H); reflexivity).
    reflexivity.
  - intros H. rewrite (Qfloor_comp _ (100 * 10 + (1 # 2)))
      by (rewrite (Hfull H); reflexivity).
    reflexivity.
  - intros y q' Hxy.
    destruct (clamp_cases 0 100 y) as [c' [Hc' Hcase']]; [reflexivity|].
    rewrite Hc', oneDecimal_fin. intros <-%Fin_inj. rewrite !Qred_correct.
    assert (Hcc : c <= c') by lra.
    assert (H : (Qfloor (c * 10 + (1 # 2)) <= Qfloor (c' * 10 + (1 # 2)))%Z)
      by (apply Qfloor_resp_le; lra).
    rewrite Zle_Qle in H.
    set (k := inject_Z (Qfloor (c * 10 + (1 # 2)))) in *.
    set (k' := inject_Z (Qfloor (c' * 10 + (1 # 2)))) in *.
    clearbody k k'. unfold Qdiv. change (/ 10) with (1 # 10). lra.
Qed.

(** X19.  For a known protein and a target above 40 degrees, the progress
    [analyzeTemperature] reports is a percentage between 0 and 100: it is 0
    up to the assumed starting temperature of 40 degrees, 100 from the
    target on, and it never decreases when the current temperature rises. *)
Theorem progress_is_a_monotone_percentage :
  forall (kb : string -> option ProteinProfile) (id : string)
         (p : ProteinProfile) (cooler warmer target : Q)
         (method : option CookMethod) (started : option Date.t)
         (readings : option (list TemperatureReading)),
    kb id = Some p ->
    40 < target ->
    cooler <= warmer ->
    exists r1 r2 q1 q2,
      analyzeTemperature kb cooler target id method started readings = Ok r1
      /\ analyzeTemperature kb warmer target id method started readings
         = Ok r2
      /\ TemperatureAnalysis.percentComplete r1 = JS.Fin q1
      /\ TemperatureAnalysis.percentComplete r2 = JS.Fin q2
      /\ 0 <= q1 /\ q1 <= q2 /\ q2 <= 100
      /\ (cooler <= 40 -> q1 == 0)
      /\ (target <= warmer -> q2 == 100).
Proof.
  intros kb id p c w target method started readings Hid Ht Hcw.
  destruct (percentComplete_bounded kb id p c target method started readings
              Hid) as [r1 [q1 [Hr1 [Hs1 [Hq1 Hb1]]]]]; [intros [_ H]; lra|].
  destruct (percentComplete_bounded kb id p w target method started readings
              Hid) as [r2 [q2 [Hr2 [Hs2 [Hq2 Hb2]]]]]; [intros [_ H]; lra|].
  exists r1, r2, q1, q2.
  split; [exact Hr1|]. split; [exact Hr2|].
  split; [exact Hq1|]. split; [exact Hq2|].
  rewrite Hs1 in Hq1. rewrite Hs2 in Hq2.
  rewrite percentComplete_above_start in Hq1, Hq2 by exact Ht.
  assert (Hd : 0 < / (target + - (40)))
    by (apply Qinv_lt_0_compat; lra).
  revert Hq1 Hq2.
  set (x1 := Qred (Qred (Qred (c + - (40)) / Qred (target + - (40))) * 100)).
  set (x2 := Qred (Qred (Qred (w + - (40)) / Qred (target + - (40))) * 100)).
  assert (Hx1 : x1 == (c + - (40)) * / (target + - (40)) * 100)
    by (subst x1; rewrite !Qred_correct; reflexivity).
  assert (Hx2 : x2 == (w + - (40)) * / (target + - (40)) * 100)
    by (subst x2; rewrite !Qred_correct; reflexivity).
  set (i := / (target + - (40))) in *.
  assert (Hi : (target + - (40)) * i == 1)
    by (subst i; apply Qmult_inv_r; lra).
  clearbody x1 x2 i.
  assert (Hx12 : x1 <= x2).
  { assert (0 <= (w - c) * i) by (apply Qmult_le_0_compat; lra). lra. }
  assert (Hzero : c <= 40 -> x1 <= 0).
  { intros H. assert (0 <= (40 - c) * i) by (apply Qmult_le_0_compat; lra).
    lra. }
  assert (Hfull : target <= w -> 100 <= x2).
  { intros H.
    assert (0 <= (w - target) * i) by (apply Qmult_le_0_compat; lra). lra. }
  destruct (clamped_progress x1) as [v1 [Hv1 [Hz1 [_ Hmono]]]].
  destruct (clamped_progress x2) as [v2 [Hv2 [_ [Hf2 _]]]].
  rewrite Hv1, Hv2. intros <-%Fin_inj <-%Fin_inj.
  split; [apply Hb1|]. split; [exact (Hmono x2 v2 Hx12 Hv2)|].
  split; [apply Hb2|]. split; intros H; auto.
Qed.

Lemma progress_is_a_monotone_percentage_witness :
  exists r1 r2 q1 q2,
    analyzeTemperature Sample.PROTEIN_PROFILES 120 203 "beef_brisket" None
      None None = Ok r1
    /\ analyzeTemperature Sample.PROTEIN_PROFILES 165 203 "beef_brisket" None
         None None = Ok r2
    /\ TemperatureAnalysis.percentComplete r1 = JS.Fin q1
    /\ TemperatureAnalysis.percentComplete r2 = JS.Fin q2
    /\ 0 <= q1 /\ q1 <= q2 /\ q2 <= 100
    /\ (120 <= 40 -> q1 == 0)
    /\ (203 <= 165 -> q2 == 100).
Proof.
  apply (progress_is_a_monotone_percentage Sample.PROTEIN_PROFILES
           "beef_brisket" Sample.brisket 120 165 203 None None None);
    first [reflexivity | lra].
Defined.

(** X20.  For a known protein and a positive minutes-per-pound entry, a
    heavier cut never gets a shorter estimate, whatever the smoker
    temperature: of two non-negative weights the larger one gives a total
    that is at least the total of the smaller one. *)
Theorem heavier_cut_never_shortens :
  forall (kb : string -> option ProteinProfile)
         (info : CookMethod -> MethodInfo) (now : Z) (id : string)
         (p : ProteinProfile) (a lighter heavier : Q) (method : CookMethod)
         (smoker : option JS.number),
    kb id = Some p ->
    estimatedTimePerPound p method = JS.Fin a ->
    0 < a -> 0 <= lighter -> lighter <= heavier ->
    exists (r1 r2 : CookTimeEstimate.t) (z1 z2 : Z),
      estimateCookTime kb info now id (JS.Fin lighter) method smoker = Ok r1
      /\ estimateCookTime kb info now id (JS.Fin heavier) method smoker
         = Ok r2
      /\ CookTimeEstimate.totalMinutes r1 = JS.ofZ z1
      /\ CookTimeEstimate.totalMinutes r2 = JS.ofZ z2
      /\ (0 <= z1 <= z2)%Z.
Proof.
  intros kb info now id p a w1 w2 method smoker Hid Ha Hpos Hw1 Hle.
  assert (Hrate : (estimatedTimePerPound p method === 0)%js = false).
  { rewrite Ha. cbn. apply Qeq_bool_false. lra. }
  destruct (estimateCookTime_fields kb info now id p (JS.Fin w1) method
              smoker Hid Hrate) as [r1 [Hr1 [Htot1 _]]].
  destruct (estimateCookTime_fields kb info now id p (JS.Fin w2) method
              smoker Hid Hrate) as [r2 [Hr2 [Htot2 _]]].
  destruct (cookMinutes_finite p method a w1 smoker Ha)
    as [q1 [t1 [Hq1 [Hrange [Ht1 Heq1]]]]].
  destruct (cookMinutes_finite p method a w2 smoker Ha)
    as [q2 [t2 [Hq2 [_ [Ht2 Heq2]]]]].
  rewrite Hq1 in Hq2. apply Fin_inj in Hq2. subst q2.
  exists r1, r2, (Qfloor (t1 + (1 # 2))), (Qfloor (t2 + (1 # 2))).
  split; [exact Hr1|]. split; [exact Hr2|].
  rewrite Htot1, Htot2, Ht1, Ht2. split; [reflexivity|].
  split; [reflexivity|].
  assert (Haq : 0 <= a * q1) by (apply Qmult_le_0_compat; lra).
  assert (H1 : 0 <= a * q1 * w1) by (apply Qmult_le_0_compat; lra).
  pose proof (Qmult_le_compat_l_nonneg (a * q1) w1 w2 Haq Hle) as H2.
  split.
  - change 0%Z with (Qfloor 0). apply Qfloor_resp_le. rewrite Heq1.
    destruct (stallRange p); lra.
  - apply Qfloor_resp_le. rewrite Heq1, Heq2. destruct (stallRange p); lra.
Qed.

Lemma heavier_cut_never_shortens_witness :
  exists (r1 r2 : CookTimeEstimate.t) (z1 z2 : Z),
    estimateCookTime Sample.PROTEIN_PROFILES Sample.COOK_METHOD_INFO 0
      "beef_brisket" (JS.Fin 10) smoke_low_slow (Some (JS.Fin 250)) = Ok r1
    /\ estimateCookTime Sample.PROTEIN_PROFILES Sample.COOK_METHOD_INFO 0
         "beef_brisket" (JS.Fin 14) smoke_low_slow (Some (JS.Fin 250)) = Ok r2
    /\ CookTimeEstimate.totalMinutes r1 = JS.ofZ z1
    /\ CookTimeEstimate.totalMinutes r2 = JS.ofZ z2
    /\ (0 <= z1 <= z2)%Z.
Proof.
  apply (heavier_cut_never_shortens Sample.PROTEIN_PROFILES
           Sample.COOK_METHOD_INFO 0 "beef_brisket" Sample.brisket 70 10 14
           smoke_low_slow (Some (JS.Fin 250))); first [reflexivity | lra].
Defined.

(** X21.  With a finite carryover and finite temperatures, stating a target
    changes the advice of [calculateRestTime] by at most one line appended
    to the advice given without a target, and nothing else in the result.
    No line is added exactly when the protein needs no rest, the target is
    0, or the expected final temperature lies between the target and five
    degrees above it. *)
Theorem rest_warning_rule :
  forall (kb : string -> option ProteinProfile) (id : string)
         (p : ProteinProfile) (currentTemp target carry : Q),
    kb id = Some p ->
    carryoverDegrees p = JS.Fin carry ->
    exists plain warning,
      calculateRestTime kb id currentTemp None = Ok plain
      /\ calculateRestTime kb id currentTemp (Some (JS.Fin target))
         = Ok {| RestResult.recommendedRestMinutes :=
                   RestResult.recommendedRestMinutes plain;
                 RestResult.expectedCarryover :=
                   RestResult.expectedCarryover plain;
                 RestResult.expectedFinalTemp :=
                   RestResult.expectedFinalTemp plain;
                 RestResult.instructions :=
                   (RestResult.instructions plain ++ warning)%list |}
      /\ (List.length warning <= 1)%nat
      /\ (warning = []
          <-> requiresRest p = false \/ target == 0
              \/ target <= currentTemp + carry <= target + 5).
Proof.
  intros kb id p cur target carry Hid Hcarry.
  unfold calculateRestTime, getProteinProfile. rewrite Hid.
  cbn [deref bind]. rewrite Hcarry.
  destruct (requiresRest p); cbn [negb].
  - rewrite app_nil_r.
    set (w := if JS.truthy target && _ then _ else _).
    eexists. exists w. split; [reflexivity|].
    cbn [RestResult.recommendedRestMinutes RestResult.expectedCarryover
           RestResult.expectedFinalTemp RestResult.instructions].
    rewrite <- !app_assoc. split; [reflexivity|].
    subst w. unfold JS.gtb. cbn [JS.truthy JS.add JS.ltb].
    destruct (Qeq_bool target 0) eqn:E0; cbn [negb andb].
    + qbool. split; [simpl; lia|]. split; [auto|reflexivity].
    + destruct (JS.Qltb (Qred (cur + carry)) target) eqn:E1.
      * qbool. rewrite Qred_correct in E1.
        split; [simpl; lia|]. split; [discriminate|].
        intros [H|[H|H]]; [discriminate|contradiction|lra].
      * destruct (JS.Qltb (Qred (target + 5)) (Qred (cur + carry))) eqn:E2;
          qbool; rewrite !Qred_correct in *.
        -- split; [simpl; lia|]. split; [discriminate|].
           intros [H|[H|H]]; [discriminate|contradiction|lra].
        -- split; [simpl; lia|]. split; [|reflexivity].
           intros _. right. right. lra.
  - eexists. exists []. split; [reflexivity|].
    cbn [RestResult.recommendedRestMinutes RestResult.expectedCarryover
           RestResult.expectedFinalTemp RestResult.instructions].
    rewrite app_nil_r. split; [reflexivity|].
    split; [simpl; lia|]. split; auto.
Qed.

Lemma rest_warning_rule_witness :
  exists plain warning,
    calculateRestTime Sample.PROTEIN_PROFILES "beef_brisket" 190 None
    = Ok plain
    /\ calculateRestTime Sample.PROTEIN_PROFILES "beef_brisket" 190
         (Some (JS.Fin 203))
       = Ok {| RestResult.recommendedRestMinutes :=
                 RestResult.recommendedRestMinutes plain;
               RestResult.expectedCarryover :=
                 RestResult.expectedCarryover plain;
               RestResult.expectedFinalTemp :=
                 RestResult.expectedFinalTemp plain;
               RestResult.instructions :=
                 (RestResult.instructions plain ++ warning)%list |}
    /\ (List.length warning <= 1)%nat
    /\ (warning = []
        <-> requiresRest Sample.brisket = false \/ 203 == 0
            \/ 203 <= 190 + 5 <= 203 + 5).
Proof.
  apply (rest_warning_rule Sample.PROTEIN_PROFILES "beef_brisket"
           Sample.brisket 190 203 5); reflexivity.
Defined.

(** *** The reports built from the engine's results *)

Lemma Qfloor_sixtieth (z : Z) : Qfloor (inject_Z z / 60) = (z / 60)%Z.
Proof.
  pose proof (Z.div_mod z 60 ltac:(lia)) as H.
  pose proof (Z.mod_pos_bound z 60 ltac:(lia)) as [H0 H1].
  set (d := (z / 60)%Z) in *. set (m := (z mod 60)%Z) in *.
  assert (Hq : inject_Z z == 60 * inject_Z d + inject_Z m).
  { rewrite H at 1. rewrite inject_Z_plus, inject_Z_mult. reflexivity. }
  rewrite Zle_Qle in H0. rewrite Zlt_Qlt in H1.
  change (inject_Z 0) with 0 in H0. change (inject_Z 60) with 60 in H1.
  apply Qfloor_unique; rewrite ?inject_Z_plus; change (inject_Z 1) with 1;
    unfold Qdiv; change (/ 60) with (1 # 60); lra.
Qed.

Lemma Qtrunc_sixtieth (z : Z) : JS.Qtrunc (inject_Z z / 60) = (z ÷ 60)%Z.
Proof.
  unfold JS.Qtrunc. destruct (JS.Qltb (inject_Z z / 60) 0) eqn:E; qbool.
  - assert (Hz : (z < 0)%Z).
    { rewrite Zlt_Qlt. change (inject_Z 0) with 0. unfold Qdiv in E.
      change (/ 60) with (1 # 60) in E. lra. }
    unfold Qceiling.
    rewrite (Qfloor_comp _ (inject_Z (- z) / 60))
      by (rewrite inject_Z_opp; unfold Qdiv; ring).
    rewrite Qfloor_sixtieth.
    rewrite <- (Z.opp_involutive z) at 2. rewrite Z.quot_opp_l by lia.
    rewrite Z.quot_div_nonneg by lia. reflexivity.
  - assert (Hz : (0 <= z)%Z).
    { rewrite Zle_Qle. change (inject_Z 0) with 0. unfold Qdiv in E.
      change (/ 60) with (1 # 60) in E. lra. }
    rewrite Qfloor_sixtieth. symmetry. apply Z.quot_div_nonneg; lia.
Qed.

Lemma floor_sixtieth_ofZ (z : Z) :
  JS.floor (JS.ofZ z / 60)%js = JS.ofZ (z / 60).
Proof.
  unfold JS.ofZ at 1. rewrite floor_of_sixtieth, Qfloor_sixtieth.
  reflexivity.
Qed.

Lemma rem_sixty_ofZ (z : Z) : JS.rem (JS.ofZ z) 60 = JS.ofZ (Z.rem z 60).
Proof.
  unfold JS.ofZ, JS.rem. change (Qeq_bool 60 0) with false. cbv iota.
  f_equal. rewrite Qtrunc_sixtieth.
  transitivity (Qred (inject_Z (Z.rem z 60))); [|apply Qred_inject_Z].
  apply Qred_complete.
  pose proof (Z.quot_rem' z 60) as H. rewrite H at 1.
  rewrite inject_Z_plus, inject_Z_mult. change (inject_Z 60) with 60. ring.
Qed.

(** The time shown for a whole number of minutes. *)
Lemma timeString_of_minutes (z : Z) :
  timeString (JS.ofZ z)
  = if (60 <=? z)%Z
    then [Num (JS.ofZ (z / 60)); Lit "h "; Num (JS.ofZ (z mod 60)); Lit "m"]
    else [Num (JS.ofZ (Z.rem z 60)); Lit "m"].
Proof.
  unfold timeString. rewrite floor_sixtieth_ofZ, rem_sixty_ofZ.
  unfold JS.gtb, JS.ofZ at 1. cbn [JS.ltb]. change 0 with (inject_Z 0).
  rewrite Qltb_inject_Z.
  destruct (60 <=? z)%Z eqn:E.
  - apply Z.leb_le in E.
    replace (0 <? z / 60)%Z with true.
    2:{ symmetry. apply Z.ltb_lt. apply Z.div_str_pos. lia. }
    rewrite Z.rem_mod_nonneg by lia. reflexivity.
  - apply Z.leb_gt in E.
    replace (0 <? z / 60)%Z with false; [reflexivity|].
    symmetry. apply Z.ltb_ge.
    assert (z / 60 < 1)%Z by (apply Z.div_lt_upper_bound; lia). lia.
Qed.

(** X22.  In the report built from an analysis of finite temperatures, the
    ETA line shows the remaining minutes [z] as hours and minutes that add
    up to [z] only when [z >= 60]; otherwise it shows the remainder of [z]
    by 60 alone.  Once the target is reached or passed [z <= 0], so a rising
    cook that is more than an hour past its target is shown with less than
    an hour, and a negative one. *)
Theorem eta_line_of_the_report :
  forall (kb : string -> option ProteinProfile) (currentTemp targetTemp : Q)
         (id : string) (method : option CookMethod)
         (started : option Date.t)
         (readings : option (list TemperatureReading))
         (a : TemperatureAnalysis.t) (eta : JS.number),
    analyzeTemperature kb currentTemp targetTemp id method started readings
    = Ok a ->
    TemperatureAnalysis.estimatedMinutesRemaining a = Some eta ->
    exists (z : Z) (before shown after : text),
      eta = JS.ofZ z
      /\ formatTemperatureAnalysisMarkdown a
         = (before ++ [Lit "**ETA:** ~"] ++ shown
            ++ [Lit " remaining"; Lit nl] ++ after)%list
      /\ ((60 <= z)%Z ->
          shown = [Num (JS.ofZ (z / 60)); Lit "h ";
                   Num (JS.ofZ (z mod 60)); Lit "m"])
      /\ ((z < 60)%Z -> shown = [Num (JS.ofZ (Z.rem z 60)); Lit "m"])
      /\ (targetTemp <= currentTemp -> (z <= 0)%Z).
Proof.
  intros kb cur target id method started readings a eta Ha Heta.
  destruct (remaining_minutes_whole_and_signed kb cur target id method
              started readings a eta Ha Heta) as [z [Hz [_ Hneg]]].
  exists z. unfold formatTemperatureAnalysisMarkdown. rewrite Heta.
  cbv zeta.
  match goal with
  | |- context [(?b ++ [Lit "**ETA:** ~"] ++ _)%list] => set (before := b)
  end.
  exists before, (timeString eta).
  destruct (TemperatureAnalysis.inStallZone a);
    destruct (0 <? List.length (TemperatureAnalysis.recommendations a))%nat;
    eexists; (split; [exact Hz|]);
    (split; [rewrite <- ?app_assoc; reflexivity|]);
    rewrite Hz, timeString_of_minutes;
    (split; [intros H; apply Z.leb_le in H; rewrite H; reflexivity|]);
    (split; [intros H; apply Z.leb_gt in H; rewrite H; reflexivity
            |exact Hneg]).
Qed.

Lemma eta_line_of_the_report_witness :
  exists a,
    analyzeTemperature Sample.PROTEIN_PROFILES 210 203 "beef_brisket" None
      None (Some Sample.rising_readings) = Ok a
    /\ TemperatureAnalysis.estimatedMinutesRemaining a = Some (JS.ofZ (-63))
    /\ exists (z : Z) (before shown after : text),
        JS.ofZ (-63) = JS.ofZ z
        /\ formatTemperatureAnalysisMarkdown a
           = (before ++ [Lit "**ETA:** ~"] ++ shown
              ++ [Lit " remaining"; Lit nl] ++ after)%list
        /\ ((60 <= z)%Z ->
            shown = [Num (JS.ofZ (z / 60)); Lit "h ";
                     Num (JS.ofZ (z mod 60)); Lit "m"])
        /\ ((z < 60)%Z -> shown = [Num (JS.ofZ (Z.rem z 60)); Lit "m"])
        /\ (203 <= 210 -> (z <= 0)%Z).
Proof.
  eexists. split; [vm_compute; reflexivity|].
  split; [vm_compute; reflexivity|].
  eapply (eta_line_of_the_report Sample.PROTEIN_PROFILES 210 203
            "beef_brisket" None None (Some Sample.rising_readings) _
            (JS.ofZ (-63)));
    vm_compute; reflexivity.
Defined.

(** Sixty-three minutes past the target are shown as [-3m]. *)
Example eta_past_the_target :
  timeString (JS.ofZ (-63)) = [Num (JS.ofZ (-3)); Lit "m"]
  /\ timeString (JS.ofZ 125) = [Num 2; Lit "h "; Num 5; Lit "m"].
Proof. split; vm_compute; reflexivity. Qed.

(** Rounding against the two thresholds of the stall advice. *)
Lemma round_against_thresholds (x : JS.number) :
  ((x <? 60)%js = true -> (JS.round x <=? 60)%js = true)
  /\ ((x <? 60)%js = false -> (x <? 180)%js = true ->
      (60 <=? JS.round x)%js = true /\ (JS.round x <=? 180)%js = true)
  /\ ((x <? 180)%js = false -> (JS.round x <? 180)%js = false).
Proof.
  destruct x as [q| | |]; cbn [JS.ltb JS.round];
    try (repeat split; intros; first [reflexivity | discriminate]).
  change 60 with (inject_Z 60). change 180 with (inject_Z 180).
  split; [|split].
  - intros H. qbool. apply leb_ofZ.
    change 60%Z with (Qfloor (60 + (1 # 2))). apply Qfloor_resp_le.
    change (inject_Z 60) with 60 in H. lra.
  - intros H1 H2. qbool.
    change (inject_Z 60) with 60 in H1. change (inject_Z 180) with 180 in H2.
    split; apply leb_ofZ.
    + change 60%Z with (Qfloor 60). apply Qfloor_resp_le. lra.
    + change 180%Z with (Qfloor (180 + (1 # 2))). apply Qfloor_resp_le. lra.
  - intros H. qbool. change (inject_Z 180) with 180 in H.
    unfold JS.ofZ. cbn [JS.ltb]. rewrite Qltb_inject_Z. apply Z.ltb_ge.
    change 180%Z with (Qfloor 180). apply Qfloor_resp_le. lra.
Qed.

(** X23.  When [detectStall] reports a stall, its advice and the duration it
    returns go together: the duration named in the advice is the returned
    [stallDurationMinutes]; the plain "stall detected" advice comes with a
    duration of at most 60 minutes, the advice to consider wrapping with one
    between 60 and 180, and the "extended stall" advice with one that is not
    below 180. *)
Theorem stall_advice_matches_duration :
  forall (kb : string -> option ProteinProfile) (now : Z) (id : string)
         (currentTemp : JS.number) (readings : list TemperatureReading)
         (r : StallResult.t),
    detectStall kb now id currentTemp readings = Ok r ->
    StallResult.isStalled r = true ->
    let n := StallResult.stallDurationMinutes r in
    (StallResult.recommendation r
     = [Lit "Stall detected! This is normal - evaporative cooling is slowing the temp rise. The stall can last 2-4 hours."]
     /\ (n <=? 60)%js = true)
    \/ (StallResult.recommendation r
        = [Lit "Stall has lasted "; Num n;
           Lit " minutes. Consider wrapping in butcher paper (Texas crutch) to push through faster."]
        /\ (60 <=? n)%js = true /\ (n <=? 180)%js = true)
    \/ (StallResult.recommendation r
        = [Lit "Extended stall ("; Num n;
           Lit " minutes). Wrapping is strongly recommended, or you can ride it out - eventually, it will break through."]
        /\ (n <? 180)%js = false).
Proof.
  intros kb now id cur readings r.
  unfold detectStall, getProteinProfile.
  destruct (kb id) as [p|]; cbn [deref bind]; [|discriminate].
  destruct (stallRange p) as [range|]; [|intros <-%Ok_inj; discriminate].
  destruct (within range cur); cbn [negb].
  2:{ destruct (cur <? start range)%js; intros <-%Ok_inj; discriminate. }
  destruct (List.length (slice_last 6 readings) <? 3)%nat;
    [intros <-%Ok_inj; discriminate|].
  destruct (last_elem (slice_last 6 readings)) as [l|]; cbn [deref bind];
    [|discriminate].
  destruct (nth_error (slice_last 6 readings) 0) as [f|]; cbn [deref bind];
    [|discriminate].
  intros <-%Ok_inj.
  cbn [StallResult.isStalled StallResult.stallDurationMinutes
         StallResult.recommendation].
  intros ->. cbn [andb]. cbv zeta.
  set (d := if (3 <=? List.length readings)%nat then _ else _).
  destruct (round_against_thresholds d) as [H1 [H2 H3]].
  destruct (d <? 60)%js.
  - left. split; [reflexivity|]. apply H1. reflexivity.
  - destruct (d <? 180)%js.
    + right. left. split; [reflexivity|]. apply H2; reflexivity.
    + right. right. split; [reflexivity|]. apply H3. reflexivity.
Qed.

Lemma stall_advice_matches_duration_witness :
  exists r,
    detectStall Sample.PROTEIN_PROFILES (3 * Sample.hour) "beef_brisket" 157
      Sample.stall_readings = Ok r
    /\ StallResult.isStalled r = true
    /\ StallResult.recommendation r
       = [Lit "Extended stall ("; Num 180;
          Lit " minutes). Wrapping is strongly recommended, or you can ride it out - eventually, it will break through."]
    /\ let n := StallResult.stallDurationMinutes r in
       (StallResult.recommendation r
        = [Lit "Stall detected! This is normal - evaporative cooling is slowing the temp rise. The stall can last 2-4 hours."]
        /\ (n <=? 60)%js = true)
       \/ (StallResult.recommendation r
           = [Lit "Stall has lasted "; Num n;
              Lit " minutes. Consider wrapping in butcher paper (Texas crutch) to push through faster."]
           /\ (60 <=? n)%js = true /\ (n <=? 180)%js = true)
       \/ (StallResult.recommendation r
           = [Lit "Extended stall ("; Num n;
              Lit " minutes). Wrapping is strongly recommended, or you can ride it out - eventually, it will break through."]
           /\ (n <? 180)%js = false).
Proof.
  eexists. split; [vm_compute; reflexivity|].
  split; [vm_compute; reflexivity|].
  split; [vm_compute; reflexivity|].
  apply (stall_advice_matches_duration Sample.PROTEIN_PROFILES
           (3 * Sample.hour) "beef_brisket" 157 Sample.stall_readings);
    vm_compute; reflexivity.
Defined.

(** A stall of 179.6 minutes is announced as one that "has lasted 180
    minutes", and one of 59.6 minutes as plainly detected with a duration of
    60. *)
Example advice_at_the_thresholds :
  let readings :=
    [Sample.reading 156 0; Sample.reading 156 1; Sample.reading 156 2] in
  field StallResult.recommendation
    (detectStall Sample.PROTEIN_PROFILES 10776000 "beef_brisket" 157 readings)
  = Ok [Lit "Stall has lasted "; Num 180;
        Lit " minutes. Consider wrapping in butcher paper (Texas crutch) to push through faster."]
  /\ field StallResult.recommendation
       (detectStall Sample.PROTEIN_PROFILES 3576000 "beef_brisket" 157
          readings)
     = Ok [Lit "Stall detected! This is normal - evaporative cooling is slowing the temp rise. The stall can last 2-4 hours."]
  /\ field StallResult.stallDurationMinutes
       (detectStall Sample.PROTEIN_PROFILES 3576000 "beef_brisket" 157
          readings)
     = Ok (JS.Fin 60).
Proof. repeat split; vm_compute; reflexivity. Qed.

(** X24.  For a known protein, a positive minutes-per-pound entry and a
    non-negative weight, the answer of the tool [bbq_estimate_cook_time]
    shows [h] hours and [m] minutes with [0 <= m < 60] that add up to the
    estimate's [totalMinutes]; unlike the estimate's own duration text, it
    never shows sixty minutes. *)
Theorem tool_answer_adds_up :
  forall (kb : string -> option ProteinProfile)
         (info : CookMethod -> MethodInfo) (now : Z) (id : string)
         (p : ProteinProfile) (a w : Q) (method : CookMethod)
         (smoker : option JS.number),
    kb id = Some p ->
    estimatedTimePerPound p method = JS.Fin a ->
    0 < a -> 0 <= w ->
    exists (r : CookTimeEstimate.t) (h m : Z),
      estimateCookTime kb info now id (JS.Fin w) method smoker = Ok r
      /\ bbq_estimate_cook_time_text r
         = [Lit "**Estimated Time:** "; Num (JS.ofZ h); Lit "h ";
            Num (JS.ofZ m); Lit "m"; Lit nl; Lit "**Confidence:** ";
            Lit (Confidence_name (CookTimeEstimate.confidence r))]
      /\ (0 <= h)%Z /\ (0 <= m < 60)%Z
      /\ CookTimeEstimate.totalMinutes r = JS.ofZ (60 * h + m).
Proof.
  intros kb info now id p a w method smoker Hid Ha Hpos Hw.
  assert (Hrate : (estimatedTimePerPound p method === 0)%js = false).
  { rewrite Ha. cbn. apply Qeq_bool_false. lra. }
  destruct (estimateCookTime_fields kb info now id p (JS.Fin w) method smoker
              Hid Hrate) as [r [Hr [Htot _]]].
  destruct (cookMinutes_nonneg p method a w smoker Ha) as [t [Ht Ht0]];
    [lra|exact Hw|].
  rewrite Ht in Htot. cbn [JS.round] in Htot.
  set (z := Qfloor (t + (1 # 2))) in *.
  assert (Hz : (0 <= z)%Z) by (subst z; apply Qfloor_nonneg; lra).
  clearbody z.
  exists r, (z / 60)%Z, (z mod 60)%Z. split; [exact Hr|].
  unfold bbq_estimate_cook_time_text.
  rewrite Htot, floor_sixtieth_ofZ, rem_sixty_ofZ.
  rewrite Z.rem_mod_nonneg by lia.
  split; [reflexivity|].
  split; [apply Z.div_pos; lia|].
  split; [apply Z.mod_pos_bound; lia|].
  f_equal. apply Z.div_mod. lia.
Qed.

Lemma tool_answer_adds_up_witness :
  exists (r : CookTimeEstimate.t) (h m : Z),
    estimateCookTime Sample.PROTEIN_PROFILES Sample.COOK_METHOD_INFO 0
      "beef_prime_rib" (JS.Fin (299 # 75)) reverse_sear None = Ok r
    /\ bbq_estimate_cook_time_text r
       = [Lit "**Estimated Time:** "; Num (JS.ofZ h); Lit "h ";
          Num (JS.ofZ m); Lit "m"; Lit nl; Lit "**Confidence:** ";
          Lit (Confidence_name (CookTimeEstimate.confidence r))]
    /\ (0 <= h)%Z /\ (0 <= m < 60)%Z
    /\ CookTimeEstimate.totalMinutes r = JS.ofZ (60 * h + m).
Proof.
  apply (tool_answer_adds_up Sample.PROTEIN_PROFILES Sample.COOK_METHOD_INFO
           0 "beef_prime_rib" Sample.prime_rib 30 (299 # 75) reverse_sear
           None); first [reflexivity | lra].
Defined.

(** The estimate whose own text reads one hour and sixty minutes is answered
    as two hours and no minutes. *)
Example two_renderings_of_one_estimate :
  field bbq_estimate_cook_time_text
    (estimateCookTime Sample.PROTEIN_PROFILES Sample.COOK_METHOD_INFO 0
       "beef_prime_rib" (JS.Fin (299 # 75)) reverse_sear None)
  = Ok [Lit "**Estimated Time:** "; Num 2; Lit "h "; Num 0; Lit "m"; Lit nl;
        Lit "**Confidence:** "; Lit "high"].
Proof. vm_compute. reflexivity. Qed.
